(** * swagger2jmeter: the translation pipeline of [src/app/page.tsx]

    A shallow embedding of the helper functions at the end of [page.tsx]
    ([parseOpenAPI], [detectBaseUrl], [escapeXml], [generateJMX],
    [splitBaseUrl]) and of the base-URL expression of
    [buildJmxAndDownload], followed by the properties the specification
    states about them.

    Conventions of the embedding.
    - A JavaScript string is the Rocq [string] of its code units.  Rocq
      characters are 8 bits wide: the strings of the model are those whose
      code units lie below 256 (ASCII and Latin-1).  [trim], the class
      [\s] and [toUpperCase] treat every such code unit as the platform
      does; the two code units whose upper-case form lies above 255 are
      named at [toUpperCase].
    - A document is what [res.json()] hands over: a JSON value.  Numbers are
      integers; the code only tests them for truth and prints them.
    - An object is the list of its own properties in the order in which
      [Object.keys] enumerates them.
    - A thrown exception is the [Throw] outcome of a small error monad.
    - [new URL] belongs to the platform: the functions that call it take
      the parser as a parameter. *)

From Stdlib Require Import String Ascii List ZArith Bool Arith Lia.
From Stdlib Require Import Numbers.DecimalString.
Import ListNotations.

Local Open Scope list_scope.
Local Open Scope string_scope.

(** ** Outcomes: a value, or a thrown exception *)

Inductive JsError : Type := TypeError.

Inductive Outcome (A : Type) : Type :=
| Return (a : A)
| Throw (e : JsError).

Arguments Return {A} a.
Arguments Throw {A} e.

Definition bind {A B : Type} (c : Outcome A) (k : A -> Outcome B) : Outcome B :=
  match c with
  | Return a => k a
  | Throw e => Throw e
  end.

Notation "x <- c ;; k" := (bind c (fun x => k))
  (at level 61, c at next level, right associativity).

(** [for (const x of xs) body], threading the mutated array [s]. *)
Fixpoint for_of {A S : Type} (xs : list A) (body : S -> A -> Outcome S) (s : S)
  : Outcome S :=
  match xs with
  | [] => Return s
  | x :: rest => s' <- body s x ;; for_of rest body s'
  end.

(** ** JSON values and the JavaScript operations the code applies to them *)

#[warnings="-register-all"]
Inductive JsValue : Type :=
| JUndefined
| JNull
| JBool (b : bool)
| JNum (n : Z)
| JStr (s : string)
| JArr (elems : list JsValue)
| JObj (props : list (string * JsValue)).

(** [ToBoolean]. *)
Definition truthy (v : JsValue) : bool :=
  match v with
  | JUndefined | JNull => false
  | JBool b => b
  | JNum n => negb (n =? 0)%Z
  | JStr s => negb (s =? "")
  | JArr _ | JObj _ => true
  end.

(** What [??] and [?.] test. *)
Definition nullish (v : JsValue) : bool :=
  match v with
  | JUndefined | JNull => true
  | _ => false
  end.

Definition typeof (v : JsValue) : string :=
  match v with
  | JUndefined => "undefined"
  | JNull | JArr _ | JObj _ => "object"
  | JBool _ => "boolean"
  | JNum _ => "number"
  | JStr _ => "string"
  end.

Definition Number_toString (n : Z) : string :=
  NilZero.string_of_int (Z.to_int n).

Definition index_keys (n : nat) : list string :=
  map (fun i => NilZero.string_of_uint (Nat.to_uint i)) (seq 0 n).

(** Own enumerable properties: those of an object, the elements of an
    array, the characters of a string; a number or a boolean has none. *)
Definition own_props (v : JsValue) : list (string * JsValue) :=
  match v with
  | JObj props => props
  | JArr elems => combine (index_keys (List.length elems)) elems
  | JStr s =>
      combine (index_keys (String.length s))
              (map (fun c => JStr (String c "")) (list_ascii_of_string s))
  | _ => []
  end.

Fixpoint assoc (k : string) (props : list (string * JsValue)) : option JsValue :=
  match props with
  | [] => None
  | (k', v) :: rest => if k =? k' then Some v else assoc k rest
  end.

(** [Object.keys(v)]: throws on [null] and [undefined]. *)
Definition Object_keys (v : JsValue) : Outcome (list string) :=
  if nullish v then Throw TypeError else Return (map fst (own_props v)).

(** [v[k]] and [v.k]: throws on [null] and [undefined]; an own property
    first, then the [length] of an array or a string; every other name the
    code reads is not inherited by any JSON value and yields [undefined]. *)
Definition Get (v : JsValue) (k : string) : Outcome JsValue :=
  if nullish v then Throw TypeError
  else match assoc k (own_props v) with
       | Some x => Return x
       | None =>
           Return (match v with
                   | JArr elems =>
                       if k =? "length" then JNum (Z.of_nat (List.length elems))
                       else JUndefined
                   | JStr s =>
                       if k =? "length" then JNum (Z.of_nat (String.length s))
                       else JUndefined
                   | _ => JUndefined
                   end)
       end.

(** [v?.startsWith(p)]: [undefined] on a nullish receiver, the string
    method on a string; no other JSON value has a callable [startsWith]. *)
Definition optional_startsWith (v : JsValue) (p : string) : Outcome JsValue :=
  match v with
  | JUndefined | JNull => Return JUndefined
  | JStr s => Return (JBool (prefix p s))
  | _ => Throw TypeError
  end.

(** [v.slice()]: a copy of an array, the string itself; no other JSON value
    has a callable [slice]. *)
Definition call_slice (v : JsValue) : Outcome JsValue :=
  match v with
  | JArr elems => Return (JArr elems)
  | JStr s => Return (JStr s)
  | _ => Throw TypeError
  end.

(** [s.toUpperCase()] on the code units below 256: the letters [a] to [z]
    and the Latin-1 letters 224 to 254 (247, the division sign, apart) move
    down by 32, the sharp s (223) becomes [SS], and every other code unit
    stays.  The upper-case forms of the micro sign (181) and of the y with
    diaeresis (255) are the code units 924 and 376, which a Rocq character
    cannot hold: the model leaves these two in place, and what is stated
    about the value of an upper-cased text is stated for texts without
    them ([upper_representable]). *)
Definition upper_unit (c : ascii) : string :=
  let n := nat_of_ascii c in
  if ((97 <=? n)%nat && (n <=? 122)%nat)
     || ((224 <=? n)%nat && (n <=? 254)%nat && negb (n =? 247)%nat)
  then String (ascii_of_nat (n - 32)) EmptyString
  else if (n =? 223)%nat then "SS"
  else String c EmptyString.

Fixpoint toUpperCase (s : string) : string :=
  match s with
  | EmptyString => EmptyString
  | String c rest => upper_unit c ++ toUpperCase rest
  end.

Definition upper_representable (s : string) : bool :=
  forallb (fun c => negb ((nat_of_ascii c =? 181)%nat || (nat_of_ascii c =? 255)%nat))
          (list_ascii_of_string s).

(** ** Endpoint descriptors *)

Record Endpoint : Type := {
  path : string;
  method : string;
  summary : JsValue;
  description : JsValue;
  parameters : JsValue;
  requestBody : JsValue;
  tags : JsValue;
  rawOperation : JsValue
}.

(** ** [parseOpenAPI]

    [method_step] is the body of the inner loop (one method key of one
    path), [path_step] the body of the outer loop (one path key); [out] is
    the array the loops push onto. *)

Definition method_step (v3 : bool) (obj : JsValue) (p : string)
  (out : list Endpoint) (k : string) : Outcome (list Endpoint) :=
  m <- Get obj k ;;
  if negb (truthy m) || negb (typeof m =? "object") then Return out
  else
    mParameters <- Get m "parameters" ;;
    parameters <- call_slice (if nullish mParameters then JArr [] else mParameters) ;;
    requestBody <-
      (if v3
       then mBody <- Get m "requestBody" ;;
            Return (if nullish mBody then JNull else mBody)
       else Return JNull) ;;
    mSummary <- Get m "summary" ;;
    summary <- (if truthy mSummary then Return mSummary
                else Get m "operationId") ;;
    description <- Get m "description" ;;
    mTags <- Get m "tags" ;;
    Return (out ++ [ {| path := p;
                        method := toUpperCase k;
                        summary := summary;
                        description := description;
                        parameters := parameters;
                        requestBody := requestBody;
                        tags := if nullish mTags then JArr [] else mTags;
                        rawOperation := m |} ])%list.

Definition path_step (v3 : bool) (paths : JsValue) (out : list Endpoint) (p : string)
  : Outcome (list Endpoint) :=
  obj <- Get paths p ;;
  methodKeys <- Object_keys obj ;;
  for_of methodKeys (method_step v3 obj p) out.

Definition parseOpenAPI (doc : JsValue) : Outcome (list Endpoint) :=
  let out : list Endpoint := [] in
  if negb (truthy doc) then Return out
  else
    openapi <- Get doc "openapi" ;;
    starts <- optional_startsWith openapi "3" ;;
    let isV3 := truthy starts in
    docPaths <- Get doc "paths" ;;
    let paths := if truthy docPaths then docPaths else JObj [] in
    pathKeys <- Object_keys paths ;;
    for_of pathKeys (path_step isV3 paths) out.

(** ** The extractor, read as the specification words it

    [prop v k] is the total reading of a property ([undefined] where [Get]
    would throw); [keys v] the own keys in enumeration order. *)

Definition prop (v : JsValue) (k : string) : JsValue :=
  match Get v k with
  | Return x => x
  | Throw _ => JUndefined
  end.

Definition keys (v : JsValue) : list string := map fst (own_props v).

(** The dialect test of the specification: [openapi] starts with ["3"]. *)
Definition isV3 (doc : JsValue) : bool :=
  match prop doc "openapi" with
  | JStr s => prefix "3" s
  | _ => false
  end.

(** [doc.paths || {}]. *)
Definition paths_of (doc : JsValue) : JsValue :=
  if truthy (prop doc "paths") then prop doc "paths" else JObj [].

(** A method entry that is kept: present and a structured object. *)
Definition is_structured (m : JsValue) : bool :=
  truthy m && (typeof m =? "object").

(** The (path, method, operation) triples of a document, in enumeration
    order of the paths and, within a path, of its method keys. *)
Definition retained (doc : JsValue) : list (string * string * JsValue) :=
  if truthy doc then
    flat_map (fun p =>
      flat_map (fun k =>
        if is_structured (prop (prop (paths_of doc) p) k)
        then [(p, k, prop (prop (paths_of doc) p) k)] else [])
        (keys (prop (paths_of doc) p)))
      (keys (paths_of doc))
  else [].

Definition or_else (v d : JsValue) : JsValue := if nullish v then d else v.

(** The descriptor the loop body builds for one retained triple. *)
Definition descriptor (v3 : bool) (t : string * string * JsValue) : Endpoint :=
  let '(p, k, m) := t in
  {| path := p;
     method := toUpperCase k;
     summary := if truthy (prop m "summary") then prop m "summary"
                else prop m "operationId";
     description := prop m "description";
     parameters := or_else (prop m "parameters") (JArr []);
     requestBody := if v3 then or_else (prop m "requestBody") JNull else JNull;
     tags := or_else (prop m "tags") (JArr []);
     rawOperation := m |}.

(** The shapes on which the extractor throws nothing: [openapi] absent or a
    string, no path entry [null], and every kept operation's [parameters]
    absent, an array or a string (the values that have a [slice]). *)
Definition openapi_ok (doc : JsValue) : bool :=
  match prop doc "openapi" with
  | JUndefined | JNull | JStr _ => true
  | _ => false
  end.

Definition sliceable (m : JsValue) : bool :=
  match prop m "parameters" with
  | JUndefined | JNull | JArr _ | JStr _ => true
  | _ => false
  end.

Definition methods_ok (obj : JsValue) : bool :=
  forallb (fun k => negb (is_structured (prop obj k)) || sliceable (prop obj k))
          (keys obj).

Definition well_shaped (doc : JsValue) : bool :=
  negb (truthy doc)
  || (openapi_ok doc
      && forallb (fun p => negb (nullish (prop (paths_of doc) p))
                           && methods_ok (prop (paths_of doc) p))
                 (keys (paths_of doc))).

(** ** [detectBaseUrl] and the base URL handed to the serializer *)

Definition has_own (k : string) (props : list (string * JsValue)) : bool :=
  match assoc k props with
  | Some _ => true
  | None => false
  end.

(** [ToString], as a template literal applies it.  An array joins its
    elements with commas, [null] and [undefined] elements printing as the
    empty string; a plain object prints as ["[object Object]"], unless an
    own (hence not callable) [toString] property hides the inherited one. *)
Fixpoint ToString (v : JsValue) : Outcome string :=
  match v with
  | JUndefined => Return "undefined"
  | JNull => Return "null"
  | JBool b => Return (if b then "true" else "false")
  | JNum n => Return (Number_toString n)
  | JStr s => Return s
  | JArr elems =>
      (fix join (l : list JsValue) : Outcome string :=
         match l with
         | [] => Return ""
         | x :: rest =>
             sx <- (if nullish x then Return "" else ToString x) ;;
             match rest with
             | [] => Return sx
             | _ => sr <- join rest ;; Return (sx ++ "," ++ sr)
             end
         end) elems
  | JObj props =>
      if has_own "toString" props then Throw TypeError
      else Return "[object Object]"
  end.

Definition detectBaseUrl (doc : JsValue) : JsValue :=
  let body : Outcome JsValue :=
    servers <- Get doc "servers" ;;
    len <- (if nullish servers then Return JUndefined else Get servers "length") ;;
    if truthy len then
      servers <- Get doc "servers" ;;
      first <- Get servers "0" ;;
      Get first "url"
    else
      host <- Get doc "host" ;;
      if truthy host then
        schemes <- Get doc "schemes" ;;
        scheme0 <- (if nullish schemes then Return JUndefined else Get schemes "0") ;;
        let scheme := if nullish scheme0 then JStr "http" else scheme0 in
        schemeText <- ToString scheme ;;
        host <- Get doc "host" ;;
        hostText <- ToString host ;;
        basePath <- Get doc "basePath" ;;
        basePathText <- ToString (if nullish basePath then JStr "" else basePath) ;;
        Return (JStr (schemeText ++ "://" ++ hostText ++ basePathText))
      else Return JNull
  in
  (* try { ... } catch { return null; } *)
  match body with
  | Return v => v
  | Throw _ => JNull
  end.

(** [a || b]. *)
Definition js_or (a b : JsValue) : JsValue := if truthy a then a else b.

(** The [baseUrl] that [buildJmxAndDownload] passes to [generateJMX]:
    [baseUrlOverride || detectBaseUrl(swagger) || "${BASE_URL}"]. *)
Definition resolveBaseUrl (baseUrlOverride : string) (swagger : JsValue) : JsValue :=
  js_or (js_or (JStr baseUrlOverride) (detectBaseUrl swagger)) (JStr "${BASE_URL}").

(** ** [escapeXml]

    Called on strings only; the [s == null] guard of the source is not
    reachable from [generateJMX]. *)

Definition escape_char (c : ascii) : string :=
  if (c =? "<")%char then "&lt;"
  else if (c =? ">")%char then "&gt;"
  else if (c =? "&")%char then "&amp;"
  else if (c =? "'")%char then "&apos;"
  else if (c =? "034")%char then "&quot;"
  else String c EmptyString.

Fixpoint escapeXml (s : string) : string :=
  match s with
  | EmptyString => EmptyString
  | String c rest => escape_char c ++ escapeXml rest
  end.

(** ** String helpers of the platform *)

Fixpoint drop (n : nat) (s : string) : string :=
  match n, s with
  | O, _ => s
  | S n', String _ rest => drop n' rest
  | S _, EmptyString => EmptyString
  end.

(** [s.replace(pat, rep)] with a string pattern and a replacement text free
    of [$] patterns: the first occurrence only. *)
Fixpoint replace (pat rep s : string) {struct s} : string :=
  if prefix pat s then rep ++ drop (String.length pat) s
  else match s with
       | EmptyString => EmptyString
       | String c rest => String c (replace pat rep rest)
       end.

(** White space for [trim] and for the class [\s]: tab, line feed, vertical
    tab, form feed, carriage return, space and the no-break space (160).
    These are all the white space and line terminators of ECMAScript below
    256; code unit 133 is not among them. *)
Definition is_space (c : ascii) : bool :=
  let n := nat_of_ascii c in
  ((9 <=? n)%nat && (n <=? 13)%nat) || (n =? 32)%nat || (n =? 160)%nat.

Fixpoint trimStart (s : string) : string :=
  match s with
  | EmptyString => EmptyString
  | String c rest => if is_space c then trimStart rest else s
  end.

Fixpoint trimEnd (s : string) : string :=
  match s with
  | EmptyString => EmptyString
  | String c rest =>
      if is_space c && (trimEnd rest =? "") then EmptyString
      else String c (trimEnd rest)
  end.

Definition trim (s : string) : string := trimEnd (trimStart s).

(** ** [splitBaseUrl] *)

(** The accessors of a platform [URL] object that matter here. *)
Module Url.
Record t : Type := {
  protocol : string;
  hostname : string;
  port : string;
  pathname : string
}.
End Url.

Record BaseUrlParts : Type := {
  protocol : string;
  host : string;
  port : string
}.

(** ** [generateJMX]

    The XML text below writes a backquote where the source text has a
    double quote; [xml] puts the double quotes back.  The source text
    contains no backquote of its own. *)

Definition quote_char (c : ascii) : ascii :=
  if (c =? "`")%char then "034"%char else c.

Fixpoint xml (s : string) : string :=
  match s with
  | EmptyString => EmptyString
  | String c rest => String (quote_char c) (xml rest)
  end.

(** The line feed of [jmx.join("\n")]. *)
Definition LF : string := String "010"%char EmptyString.

Record Header : Type := { key : string; value : string }.

(** The argument of [generateJMX]; the three numbers are integers. *)
Record LoadPlan : Type := {
  title : string;
  baseUrl : string;
  threads : Z;
  rampTime : Z;
  duration : Z;
  endpoints : list Endpoint;
  commonHeaders : list Header
}.

(** [jmx.push(s)]. *)
Definition push (jmx : list string) (s : string) : list string :=
  (jmx ++ [s])%list.

(** The one multi-line element of the array. *)
Definition resultCollector : string :=
  xml "<ResultCollector guiclass=`ViewResultsFullVisualizer` testclass=`ResultCollector` testname=`View Results Tree` enabled=`true`>
            <boolProp name=`ResultCollector.error_logging`>false</boolProp>
            <objProp>
                <name>saveConfig</name>
                <value class=`SampleSaveConfiguration`>
                    <time>true</time>
                    <latency>true</latency>
                    <timestamp>true</timestamp>
                    <success>true</success>
                    <label>true</label>
                    <code>true</code>
                    <message>true</message>
                    <threadName>true</threadName>
                    <dataType>true</dataType>
                    <encoding>true</encoding>
                    <assertions>true</assertions>
                    <subresults>true</subresults>
                    <responseData>false</responseData>
                    <samplerData>false</samplerData>
                    <xml>true</xml>
                    <fieldNames>true</fieldNames>
                    <responseHeaders>false</responseHeaders>
                    <requestHeaders>false</requestHeaders>
                    <responseDataOnError>false</responseDataOnError>
                    <saveAssertionResultsFailureMessage>true</saveAssertionResultsFailureMessage>
                    <assertionsResultsToSave>0</assertionsResultsToSave>
                    <bytes>true</bytes>
                    <sentBytes>true</sentBytes>
                    <url>true</url>
                    <threadCounts>true</threadCounts>
                    <idleTime>true</idleTime>
                    <connectTime>true</connectTime>
                </value>
            </objProp>
            <stringProp name=`filename`></stringProp>
        </ResultCollector>".

(** The body of the header loop: one entry of [commonHeaders]. *)
Definition header_step (jmx : list string) (h : Header) : list string :=
  if trim (key h) =? "" then jmx
  else
    let keyEsc := escapeXml (key h) in
    let valueEsc := escapeXml (value h) in
    let jmx := push jmx (xml "<elementProp name=`" ++ keyEsc ++ xml "` elementType=`Header`>") in
    let jmx := push jmx (xml "<stringProp name=`Header.name`>" ++ keyEsc ++ xml "</stringProp>") in
    let jmx := push jmx (xml "<stringProp name=`Header.value`>" ++ valueEsc ++ xml "</stringProp>") in
    let jmx := push jmx (xml "</elementProp>") in
    jmx.

(** The body of the sampler loop: one selected endpoint. *)
Definition sampler_step (commonHeaders : list Header) (jmx : list string) (ep : Endpoint)
  : list string :=
  let name := method ep ++ " " ++ path ep in
  let jmx := push jmx (xml "<HTTPSamplerProxy guiclass=`HttpTestSampleGui` testclass=`HTTPSamplerProxy` testname=`" ++ escapeXml name ++ xml "` enabled=`true`>") in
  let jmx := push jmx (xml "<boolProp name=`HTTPSampler.postBodyRaw`>true</boolProp>") in
  let jmx := push jmx (xml "<elementProp name=`HTTPsampler.Arguments` elementType=`Arguments`>") in
  let jmx := push jmx (xml "<collectionProp name=`Arguments.arguments`></collectionProp>") in
  let jmx := push jmx (xml "</elementProp>") in
  let jmx := push jmx (xml "<stringProp name=`HTTPSampler.domain`>${SERVER_NAME}</stringProp>") in
  let jmx := push jmx (xml "<stringProp name=`HTTPSampler.port`>${PORT}</stringProp>") in
  let jmx := push jmx (xml "<stringProp name=`HTTPSampler.protocol`>${PROTOCOL}</stringProp>") in
  let jmx := push jmx (xml "<stringProp name=`HTTPSampler.path`>" ++ escapeXml (path ep) ++ xml "</stringProp>") in
  let jmx := push jmx (xml "<stringProp name=`HTTPSampler.method`>" ++ escapeXml (method ep) ++ xml "</stringProp>") in
  let jmx := push jmx (xml "<boolProp name=`HTTPSampler.follow_redirects`>true</boolProp>") in
  let jmx := push jmx (xml "<boolProp name=`HTTPSampler.auto_redirects`>false</boolProp>") in
  let jmx := push jmx (xml "<boolProp name=`HTTPSampler.use_keepalive`>true</boolProp>") in
  let jmx := push jmx (xml "<boolProp name=`HTTPSampler.DO_MULTIPART_POST`>false</boolProp>") in
  let jmx := push jmx (xml "</HTTPSamplerProxy>") in
  let jmx := push jmx (xml "<hashTree>") in
  let jmx := push jmx (xml "<HeaderManager guiclass=`HeaderPanel` testclass=`HeaderManager` testname=`HTTP Header Manager` enabled=`true`>") in
  let jmx := push jmx (xml "<collectionProp name=`HeaderManager.headers`>") in
  let jmx := fold_left header_step commonHeaders jmx in
  let jmx := push jmx (xml "</collectionProp>") in
  let jmx := push jmx (xml "</HeaderManager>") in
  let jmx := push jmx (xml "<hashTree />") in
  let jmx := push jmx (xml "</hashTree>") in
  jmx.

Section Platform.

(** [new URL(s)] of the platform: the parsed record, or [None] where the
    constructor throws. *)
Variable URL : string -> option Url.t.

Definition splitBaseUrl (url : string) : BaseUrlParts :=
  match URL url with
  | Some u =>
      let protocol := replace ":" "" (Url.protocol u) in
      let host := Url.hostname u in
      let port := if negb (Url.port u =? "") then Url.port u
                  else if protocol =? "https" then "443" else "80" in
      {| protocol := protocol; host := host; port := port |}
  | None =>
      {| protocol := "${PROTOCOL}"; host := "${SERVER_NAME}"; port := "${PORT}" |}
  end.

(** The array [jmx] as it stands at the [return]. *)
Definition generateJMX_lines (cfg : LoadPlan) : list string :=
  let testPlanName := escapeXml (if negb (title cfg =? "") then title cfg else "Test Plan") in
  let varBaseUrl := if negb (baseUrl cfg =? "") then baseUrl cfg else "${BASE_URL}" in
  let resolvedProtocol := protocol (splitBaseUrl varBaseUrl) in
  let resolvedHost := host (splitBaseUrl varBaseUrl) in
  let resolvedPort := port (splitBaseUrl varBaseUrl) in
  let jmx : list string := [] in
  let jmx := push jmx (xml "<?xml version=`1.0` encoding=`UTF-8`?>") in
  let jmx := push jmx (xml "<jmeterTestPlan version=`1.2` properties=`5.0` jmeter=`5.6.3`>") in
  let jmx := push jmx (xml "<hashTree>") in
  let jmx := push jmx (xml "<TestPlan guiclass=`TestPlanGui` testclass=`TestPlan` testname=`" ++ testPlanName ++ xml "` enabled=`true`>") in
  let jmx := push jmx (xml "<stringProp name=`TestPlan.comments`></stringProp>") in
  let jmx := push jmx (xml "<boolProp name=`TestPlan.functional_mode`>false</boolProp>") in
  let jmx := push jmx (xml "<boolProp name=`TestPlan.tearDown_on_shutdown`>true</boolProp>") in
  let jmx := push jmx (xml "<boolProp name=`TestPlan.serialize_threadgroups`>false</boolProp>") in
  let jmx := push jmx (xml "<elementProp name=`TestPlan.user_defined_variables` elementType=`Arguments`>") in
  let jmx := push jmx (xml "<collectionProp name=`Arguments.arguments`>") in
  let jmx := push jmx (xml "<elementProp name=`BASE_URL` elementType=`Argument`>") in
  let jmx := push jmx (xml "<stringProp name=`Argument.name`>BASE_URL</stringProp>") in
  let jmx := push jmx (xml "<stringProp name=`Argument.value`>" ++ escapeXml varBaseUrl ++ xml "</stringProp>") in
  let jmx := push jmx (xml "<stringProp name=`Argument.metadata`>=</stringProp>") in
  let jmx := push jmx (xml "</elementProp>") in
  let jmx := push jmx (xml "<elementProp name=`PROTOCOL` elementType=`Argument`>") in
  let jmx := push jmx (xml "<stringProp name=`Argument.name`>PROTOCOL</stringProp>") in
  let jmx := push jmx (xml "<stringProp name=`Argument.value`>" ++ escapeXml resolvedProtocol ++ xml "</stringProp>") in
  let jmx := push jmx (xml "<stringProp name=`Argument.metadata`>=</stringProp>") in
  let jmx := push jmx (xml "</elementProp>") in
  let jmx := push jmx (xml "<elementProp name=`SERVER_NAME` elementType=`Argument`>") in
  let jmx := push jmx (xml "<stringProp name=`Argument.name`>SERVER_NAME</stringProp>") in
  let jmx := push jmx (xml "<stringProp name=`Argument.value`>" ++ escapeXml resolvedHost ++ xml "</stringProp>") in
  let jmx := push jmx (xml "<stringProp name=`Argument.metadata`>=</stringProp>") in
  let jmx := push jmx (xml "</elementProp>") in
  let jmx := push jmx (xml "<elementProp name=`PORT` elementType=`Argument`>") in
  let jmx := push jmx (xml "<stringProp name=`Argument.name`>PORT</stringProp>") in
  let jmx := push jmx (xml "<stringProp name=`Argument.value`>" ++ escapeXml resolvedPort ++ xml "</stringProp>") in
  let jmx := push jmx (xml "<stringProp name=`Argument.metadata`>=</stringProp>") in
  let jmx := push jmx (xml "</elementProp>") in
  let jmx := push jmx (xml "</collectionProp>") in
  let jmx := push jmx (xml "</elementProp>") in
  let jmx := push jmx (xml "<stringProp name=`TestPlan.user_define_classpath`></stringProp>") in
  let jmx := push jmx (xml "</TestPlan>") in
  let jmx := push jmx (xml "<hashTree>") in
  let jmx := push jmx (xml "<ThreadGroup guiclass=`ThreadGroupGui` testclass=`ThreadGroup` enabled=`true` testname=`Thread Group`>") in
  let jmx := push jmx (xml "<stringProp name=`ThreadGroup.on_sample_error`>continue</stringProp>") in
  let jmx := push jmx (xml "<elementProp name=`ThreadGroup.main_controller` elementType=`LoopController`>") in
  let jmx := push jmx (xml "<boolProp name=`LoopController.continue_forever`>false</boolProp>") in
  let jmx := push jmx (xml "<stringProp name=`LoopController.loops`>-1</stringProp>") in
  let jmx := push jmx (xml "</elementProp>") in
  let jmx := push jmx (xml "<stringProp name=`ThreadGroup.num_threads`>" ++ Number_toString (threads cfg) ++ xml "</stringProp>") in
  let jmx := push jmx (xml "<stringProp name=`ThreadGroup.ramp_time`>" ++ Number_toString (rampTime cfg) ++ xml "</stringProp>") in
  let jmx := push jmx (xml "<boolProp name=`ThreadGroup.scheduler`>true</boolProp>") in
  let jmx := push jmx (xml "<stringProp name=`ThreadGroup.duration`>" ++ Number_toString (duration cfg) ++ xml "</stringProp>") in
  let jmx := push jmx (xml "<stringProp name=`ThreadGroup.delay`></stringProp>") in
  let jmx := push jmx (xml "</ThreadGroup>") in
  let jmx := push jmx (xml "<hashTree>") in
  let jmx := fold_left (sampler_step (commonHeaders cfg)) (endpoints cfg) jmx in
  let jmx := push jmx resultCollector in
  let jmx := push jmx (xml "<hashTree />") in
  let jmx := push jmx (xml "</hashTree>") in
  let jmx := push jmx (xml "</hashTree>") in
  let jmx := push jmx (xml "</hashTree>") in
  let jmx := push jmx (xml "</jmeterTestPlan>") in
  jmx.

Definition generateJMX (cfg : LoadPlan) : string :=
  String.concat LF (generateJMX_lines cfg).

End Platform.

(** ** The serialized document, element by element

    The lines of each element of the plan, read off the [push] calls, and
    the block the sampler loop appends for one endpoint. *)

Definition has_key (h : Header) : bool := negb (trim (key h) =? "").

Definition headerElement (h : Header) : list string :=
  [ xml "<elementProp name=`" ++ escapeXml (key h) ++ xml "` elementType=`Header`>";
    xml "<stringProp name=`Header.name`>" ++ escapeXml (key h) ++ xml "</stringProp>";
    xml "<stringProp name=`Header.value`>" ++ escapeXml (value h) ++ xml "</stringProp>";
    xml "</elementProp>" ].

Definition headerManagerElement (hs : list Header) : list string :=
  ([ xml "<HeaderManager guiclass=`HeaderPanel` testclass=`HeaderManager` testname=`HTTP Header Manager` enabled=`true`>";
     xml "<collectionProp name=`HeaderManager.headers`>" ]
   ++ flat_map headerElement (filter has_key hs)
   ++ [ xml "</collectionProp>";
        xml "</HeaderManager>" ])%list.

Definition samplerElement (ep : Endpoint) : list string :=
  [ xml "<HTTPSamplerProxy guiclass=`HttpTestSampleGui` testclass=`HTTPSamplerProxy` testname=`" ++ escapeXml (method ep ++ " " ++ path ep) ++ xml "` enabled=`true`>";
    xml "<boolProp name=`HTTPSampler.postBodyRaw`>true</boolProp>";
    xml "<elementProp name=`HTTPsampler.Arguments` elementType=`Arguments`>";
    xml "<collectionProp name=`Arguments.arguments`></collectionProp>";
    xml "</elementProp>";
    xml "<stringProp name=`HTTPSampler.domain`>${SERVER_NAME}</stringProp>";
    xml "<stringProp name=`HTTPSampler.port`>${PORT}</stringProp>";
    xml "<stringProp name=`HTTPSampler.protocol`>${PROTOCOL}</stringProp>";
    xml "<stringProp name=`HTTPSampler.path`>" ++ escapeXml (path ep) ++ xml "</stringProp>";
    xml "<stringProp name=`HTTPSampler.method`>" ++ escapeXml (method ep) ++ xml "</stringProp>";
    xml "<boolProp name=`HTTPSampler.follow_redirects`>true</boolProp>";
    xml "<boolProp name=`HTTPSampler.auto_redirects`>false</boolProp>";
    xml "<boolProp name=`HTTPSampler.use_keepalive`>true</boolProp>";
    xml "<boolProp name=`HTTPSampler.DO_MULTIPART_POST`>false</boolProp>";
    xml "</HTTPSamplerProxy>" ].

Definition hashTree_open : string := xml "<hashTree>".
Definition hashTree_close : string := xml "</hashTree>".
Definition hashTree_empty : string := xml "<hashTree />".

Definition samplerBlock (hs : list Header) (ep : Endpoint) : list string :=
  (samplerElement ep
   ++ [hashTree_open] ++ headerManagerElement hs ++ [hashTree_empty]
   ++ [hashTree_close])%list.

Definition threadGroupElement (cfg : LoadPlan) : list string :=
  [ xml "<ThreadGroup guiclass=`ThreadGroupGui` testclass=`ThreadGroup` enabled=`true` testname=`Thread Group`>";
    xml "<stringProp name=`ThreadGroup.on_sample_error`>continue</stringProp>";
    xml "<elementProp name=`ThreadGroup.main_controller` elementType=`LoopController`>";
    xml "<boolProp name=`LoopController.continue_forever`>false</boolProp>";
    xml "<stringProp name=`LoopController.loops`>-1</stringProp>";
    xml "</elementProp>";
    xml "<stringProp name=`ThreadGroup.num_threads`>" ++ Number_toString (threads cfg) ++ xml "</stringProp>";
    xml "<stringProp name=`ThreadGroup.ramp_time`>" ++ Number_toString (rampTime cfg) ++ xml "</stringProp>";
    xml "<boolProp name=`ThreadGroup.scheduler`>true</boolProp>";
    xml "<stringProp name=`ThreadGroup.duration`>" ++ Number_toString (duration cfg) ++ xml "</stringProp>";
    xml "<stringProp name=`ThreadGroup.delay`></stringProp>";
    xml "</ThreadGroup>" ].

Definition varBaseUrl_of (cfg : LoadPlan) : string :=
  if negb (baseUrl cfg =? "") then baseUrl cfg else "${BASE_URL}".

Definition testPlanElement (parts : BaseUrlParts) (cfg : LoadPlan) : list string :=
  let testPlanName := escapeXml (if negb (title cfg =? "") then title cfg else "Test Plan") in
  let varBaseUrl := varBaseUrl_of cfg in
  [ xml "<TestPlan guiclass=`TestPlanGui` testclass=`TestPlan` testname=`" ++ testPlanName ++ xml "` enabled=`true`>";
    xml "<stringProp name=`TestPlan.comments`></stringProp>";
    xml "<boolProp name=`TestPlan.functional_mode`>false</boolProp>";
    xml "<boolProp name=`TestPlan.tearDown_on_shutdown`>true</boolProp>";
    xml "<boolProp name=`TestPlan.serialize_threadgroups`>false</boolProp>";
    xml "<elementProp name=`TestPlan.user_defined_variables` elementType=`Arguments`>";
    xml "<collectionProp name=`Arguments.arguments`>";
    xml "<elementProp name=`BASE_URL` elementType=`Argument`>";
    xml "<stringProp name=`Argument.name`>BASE_URL</stringProp>";
    xml "<stringProp name=`Argument.value`>" ++ escapeXml varBaseUrl ++ xml "</stringProp>";
    xml "<stringProp name=`Argument.metadata`>=</stringProp>";
    xml "</elementProp>";
    xml "<elementProp name=`PROTOCOL` elementType=`Argument`>";
    xml "<stringProp name=`Argument.name`>PROTOCOL</stringProp>";
    xml "<stringProp name=`Argument.value`>" ++ escapeXml (protocol parts) ++ xml "</stringProp>";
    xml "<stringProp name=`Argument.metadata`>=</stringProp>";
    xml "</elementProp>";
    xml "<elementProp name=`SERVER_NAME` elementType=`Argument`>";
    xml "<stringProp name=`Argument.name`>SERVER_NAME</stringProp>";
    xml "<stringProp name=`Argument.value`>" ++ escapeXml (host parts) ++ xml "</stringProp>";
    xml "<stringProp name=`Argument.metadata`>=</stringProp>";
    xml "</elementProp>";
    xml "<elementProp name=`PORT` elementType=`Argument`>";
    xml "<stringProp name=`Argument.name`>PORT</stringProp>";
    xml "<stringProp name=`Argument.value`>" ++ escapeXml (port parts) ++ xml "</stringProp>";
    xml "<stringProp name=`Argument.metadata`>=</stringProp>";
    xml "</elementProp>";
    xml "</collectionProp>";
    xml "</elementProp>";
    xml "<stringProp name=`TestPlan.user_define_classpath`></stringProp>";
    xml "</TestPlan>" ].

Definition documentOpening : list string :=
  [ xml "<?xml version=`1.0` encoding=`UTF-8`?>";
    xml "<jmeterTestPlan version=`1.2` properties=`5.0` jmeter=`5.6.3`>" ].

Definition documentClosing : string := xml "</jmeterTestPlan>".

(** The protocol, host and port entered as the plan's variables. *)
Definition parts_of (URL : string -> option Url.t) (cfg : LoadPlan) : BaseUrlParts :=
  splitBaseUrl URL (varBaseUrl_of cfg).

Fixpoint has_char (c : ascii) (s : string) : bool :=
  match s with
  | EmptyString => false
  | String c' rest => (c =? c')%char || has_char c rest
  end.

(** ** The nesting of the plan

    An element of the plan with the elements filed under it; [render_node]
    writes the element, then its children group: the empty marker when it
    has no child, else the children between an opening and a closing
    marker. *)

#[warnings="-register-all"]
Inductive Node : Type :=
| Element (lines : list string) (children : list Node).

Fixpoint render_node (n : Node) : list string :=
  match n with
  | Element lines children =>
      (lines ++
       match children with
       | [] => [hashTree_empty]
       | _ => [hashTree_open] ++ flat_map render_node children ++ [hashTree_close]
       end)%list
  end.

Definition samplerNode (hs : list Header) (ep : Endpoint) : Node :=
  Element (samplerElement ep) [Element (headerManagerElement hs) []].

Definition planNode (parts : BaseUrlParts) (cfg : LoadPlan) : Node :=
  Element (testPlanElement parts cfg)
    [Element (threadGroupElement cfg)
       (map (samplerNode (commonHeaders cfg)) (endpoints cfg)
        ++ [Element [resultCollector] []])%list].

(** Scanning the array for the children-group markers: [d] groups are open. *)
Fixpoint balanced_from (d : nat) (jmx : list string) : bool :=
  match jmx with
  | [] => (d =? 0)%nat
  | l :: rest =>
      if l =? hashTree_open then balanced_from (S d) rest
      else if l =? hashTree_close then
             match d with
             | O => false
             | S d' => balanced_from d' rest
             end
      else balanced_from d rest
  end.

Definition is_marker (l : string) : bool :=
  (l =? hashTree_open) || (l =? hashTree_close).

Fixpoint marker_free (n : Node) : bool :=
  match n with
  | Element lines children =>
      forallb (fun l => negb (is_marker l)) lines && forallb marker_free children
  end.

(** ** Escaping, read back

    [unescapeXml] decodes the five predefined entities in one pass, left to
    right; [skip] characters of an entity just decoded are still to be
    passed over. *)

Fixpoint unescape_from (skip : nat) (s : string) : string :=
  match s with
  | EmptyString => EmptyString
  | String c rest =>
      match skip with
      | S k => unescape_from k rest
      | O =>
          if prefix "&lt;" s then String "<" (unescape_from 3 rest)
          else if prefix "&gt;" s then String ">" (unescape_from 3 rest)
          else if prefix "&amp;" s then String "&" (unescape_from 4 rest)
          else if prefix "&apos;" s then String "'" (unescape_from 5 rest)
          else if prefix "&quot;" s then String "034" (unescape_from 5 rest)
          else String c (unescape_from 0 rest)
      end
  end.


(** The markup delimiters of a text: its [<], [>], ['] and double quotes,
    in order. *)
Definition is_delimiter (c : ascii) : bool :=
  (c =? "<")%char || (c =? ">")%char || (c =? "'")%char || (c =? "034")%char.

Fixpoint delimiters (s : string) : string :=
  match s with
  | EmptyString => EmptyString
  | String c rest =>
      if is_delimiter c then String c (delimiters rest) else delimiters rest
  end.

Definition starts_entity (s : string) : bool :=
  prefix "lt;" s || prefix "gt;" s || prefix "amp;" s
  || prefix "apos;" s || prefix "quot;" s.

(** Every [&] of the text opens one of the five entity references. *)
Fixpoint entities_only (s : string) : bool :=
  match s with
  | EmptyString => true
  | String c rest =>
      (if (c =? "&")%char then starts_entity rest else true) && entities_only rest
  end.

Fixpoint string_rev (s : string) : string :=
  match s with
  | EmptyString => EmptyString
  | String c rest => string_rev rest ++ String c EmptyString
  end.

Definition ends_with (suffix s : string) : bool :=
  prefix (string_rev suffix) (string_rev s).

(** The opening line of a header element. *)
Definition is_header_open (l : string) : bool :=
  prefix (xml "<elementProp name=`") l && ends_with (xml "` elementType=`Header`>") l.

Definition header_open_line (h : Header) : string :=
  xml "<elementProp name=`" ++ escapeXml (key h) ++ xml "` elementType=`Header`>".

Definition count_headers (jmx : list string) : nat :=
  List.length (filter is_header_open jmx).

(** The opening line of a request node. *)
Definition is_sampler_open (l : string) : bool :=
  prefix (xml "<HTTPSamplerProxy ") l.

(** ** The documents of the specification's data model

    A document as the [SwaggerDoc] interface types the fields the resolver
    reads, and the JSON value that carries it next to any other fields. *)

Record ServerFields : Type := {
  doc_servers : option (list string);
  doc_host : option string;
  doc_schemes : option (list string);
  doc_basePath : option string
}.

Definition opt_field {A : Type} (k : string) (f : A -> JsValue) (o : option A)
  : list (string * JsValue) :=
  match o with
  | Some a => [(k, f a)]
  | None => []
  end.

Definition json_of_fields (d : ServerFields) : JsValue :=
  JObj (opt_field "servers"
          (fun us => JArr (map (fun u => JObj [("url", JStr u)]) us)) (doc_servers d)
        ++ opt_field "host" JStr (doc_host d)
        ++ opt_field "schemes" (fun ss => JArr (map JStr ss)) (doc_schemes d)
        ++ opt_field "basePath" JStr (doc_basePath d))%list.

Definition placeholder : string := "${BASE_URL}".

Definition composed (d : ServerFields) (h : string) : string :=
  match doc_schemes d with
  | Some (s :: _) => s
  | _ => "http"
  end ++ "://" ++ h ++
  match doc_basePath d with
  | Some b => b
  | None => ""
  end.

(** The precedence as the specification words it. *)
Definition resolve_as_specified (override : string) (d : ServerFields) : string :=
  if negb (override =? "") then override
  else match doc_servers d with
       | Some (u :: _) => u
       | _ =>
           match doc_host d with
           | Some h => composed d h
           | None => placeholder
           end
       end.

(** The precedence of the code: an empty first [url] and an empty [host]
    count as nothing resolved. *)
Definition resolve_as_coded (override : string) (d : ServerFields) : string :=
  if negb (override =? "") then override
  else match doc_servers d with
       | Some (u :: _) => if negb (u =? "") then u else placeholder
       | _ =>
           match doc_host d with
           | Some h => if negb (h =? "") then composed d h else placeholder
           | None => placeholder
           end
       end.

(** [doc] carries the fields [d], typed as the [SwaggerDoc] interface
    declares them, whatever else it holds. *)
Definition carries (doc : JsValue) (d : ServerFields) : Prop :=
  nullish doc = false
  /\ match doc_servers d with
     | None => nullish (prop doc "servers") = true
     | Some us =>
         exists vs, prop doc "servers" = JArr vs
                    /\ Forall2 (fun v u => nullish v = false /\ prop v "url" = JStr u) vs us
     end
  /\ match doc_host d with
     | None => nullish (prop doc "host") = true
     | Some h => prop doc "host" = JStr h
     end
  /\ match doc_schemes d with
     | None => nullish (prop doc "schemes") = true
     | Some ss => prop doc "schemes" = JArr (map JStr ss)
     end
  /\ match doc_basePath d with
     | None => nullish (prop doc "basePath") = true
     | Some b => prop doc "basePath" = JStr b
     end.

(** ** Sample results of the platform's URL parser

    What [new URL] yields on the addresses the examples use; it throws on
    text without a scheme. *)
Definition URL_sample (s : string) : option Url.t :=
  if s =? "https://api.x.com:8443/v1" then
    Some {| Url.protocol := "https:"; Url.hostname := "api.x.com";
            Url.port := "8443"; Url.pathname := "/v1" |}
  else if s =? "https://api.x.com/v1" then
    Some {| Url.protocol := "https:"; Url.hostname := "api.x.com";
            Url.port := ""; Url.pathname := "/v1" |}
  else if s =? "https://api.x.com/v2" then
    Some {| Url.protocol := "https:"; Url.hostname := "api.x.com";
            Url.port := ""; Url.pathname := "/v2" |}
  else if s =? "http://localhost:5000" then
    Some {| Url.protocol := "http:"; Url.hostname := "localhost";
            Url.port := "5000"; Url.pathname := "/" |}
  else None.

Definition with_baseUrl (cfg : LoadPlan) (b : string) : LoadPlan :=
  {| title := title cfg; baseUrl := b; threads := threads cfg;
     rampTime := rampTime cfg; duration := duration cfg;
     endpoints := endpoints cfg; commonHeaders := commonHeaders cfg |}.

(** The code units below 256 that [toUpperCase] changes: the lower-case
    letters that have an upper-case form. *)
Definition is_lower (c : ascii) : bool :=
  let n := nat_of_ascii c in
  ((97 <=? n)%nat && (n <=? 122)%nat) || (n =? 181)%nat
  || ((223 <=? n)%nat && (n <=? 255)%nat && negb (n =? 247)%nat).

(** A plan with [n] endpoints and [k] keyed headers and no text of its own,
    and a parser that rejects everything. *)
Definition blank_plan (n k : nat) : LoadPlan :=
  {| title := ""; baseUrl := ""; threads := 0; rampTime := 0; duration := 0;
     endpoints := repeat {| path := ""; method := ""; summary := JUndefined;
                            description := JUndefined; parameters := JArr [];
                            requestBody := JNull; tags := JArr [];
                            rawOperation := JObj [] |} n;
     commonHeaders := repeat {| key := "k"; value := "" |} k |}.

Definition no_URL (s : string) : option Url.t := None.

Definition flatten (ls : list string) : string := fold_right append "" ls.

(** Sample data for the examples. *)
Definition v3_servers_doc : JsValue :=
  JObj [("openapi", JStr "3.0.0");
        ("servers", JArr [JObj [("url", JStr "https://api.x.com/v1")]]);
        ("paths", JObj [])].

Definition v2_host_doc : JsValue :=
  JObj [("swagger", JStr "2.0"); ("host", JStr "api.x.com");
        ("schemes", JArr [JStr "https"]); ("basePath", JStr "/v1")].

Definition empty_url_fields : ServerFields :=
  {| doc_servers := Some [""]; doc_host := Some "api.x.com";
     doc_schemes := None; doc_basePath := None |}.

Definition petstore : JsValue :=
  JObj [("openapi", JStr "3.0.1");
        ("paths", JObj [("/pets", JObj [("get", JObj [("summary", JStr "List pets");
                                                      ("tags", JArr [JStr "pets"])]);
                                        ("post", JObj [("operationId", JStr "addPet");
                                                       ("requestBody", JObj [("required", JBool true)])]);
                                        ("parameters", JArr [])]);
                        ("/pets/{id}", JObj [("delete", JObj [("summary", JStr "")])])])].

Definition empty_summary_doc : JsValue :=
  JObj [("paths", JObj [("/a", JObj [("get", JObj [("summary", JStr "");
                                                   ("operationId", JStr "listA")])])])].

Definition endpoint_of (m p : string) : Endpoint :=
  {| path := p; method := m; summary := JUndefined; description := JUndefined;
     parameters := JArr []; requestBody := JNull; tags := JArr [];
     rawOperation := JObj [] |}.

Definition sample_plan : LoadPlan :=
  {| title := "Generated Test Plan"; baseUrl := "https://api.x.com/v1";
     threads := 10; rampTime := 1; duration := 60;
     endpoints := [endpoint_of "GET" "/users"];
     commonHeaders := [ {| key := ""; value := "x" |};
                        {| key := "Auth"; value := "Bearer t" |} ] |}.

(** * The rest of the page: state, handlers and callers *)

From Stdlib Require Import Sorting.Permutation Sorting.Sorted.

(** ** [extractBaseUrl] *)

Definition extractBaseUrl (URL : string -> option Url.t) (swaggerUrl : string)
  : string :=
  match URL swaggerUrl with
  | Some u =>
      Url.protocol u ++ "//" ++ Url.hostname u
      ++ (if negb (Url.port u =? "") then ":" ++ Url.port u else "")
  | None => ""
  end.

(** ** The state of the component

    One field per [useState] cell; [swagger] is [null] while no document is
    loaded; a [Set<number>] is the list of its members in insertion order. *)

Module App.
Record t : Type := {
  url : string;
  loading : bool;
  error : string;
  swagger : JsValue;
  endpoints : list Endpoint;
  selected : list nat;
  title : string;
  threads : Z;
  rampTime : Z;
  duration : Z;
  baseUrlOverride : string;
  commonHeaders : list Header
}.

Definition setUrl (st : t) (v : string) : t :=
  {| url := v; loading := loading st; error := error st; swagger := swagger st;
     endpoints := endpoints st; selected := selected st; title := title st;
     threads := threads st; rampTime := rampTime st; duration := duration st;
     baseUrlOverride := baseUrlOverride st; commonHeaders := commonHeaders st |}.

Definition setError (st : t) (v : string) : t :=
  {| url := url st; loading := loading st; error := v; swagger := swagger st;
     endpoints := endpoints st; selected := selected st; title := title st;
     threads := threads st; rampTime := rampTime st; duration := duration st;
     baseUrlOverride := baseUrlOverride st; commonHeaders := commonHeaders st |}.

Definition setSwagger (st : t) (v : JsValue) : t :=
  {| url := url st; loading := loading st; error := error st; swagger := v;
     endpoints := endpoints st; selected := selected st; title := title st;
     threads := threads st; rampTime := rampTime st; duration := duration st;
     baseUrlOverride := baseUrlOverride st; commonHeaders := commonHeaders st |}.

Definition setEndpoints (st : t) (v : list Endpoint) : t :=
  {| url := url st; loading := loading st; error := error st; swagger := swagger st;
     endpoints := v; selected := selected st; title := title st;
     threads := threads st; rampTime := rampTime st; duration := duration st;
     baseUrlOverride := baseUrlOverride st; commonHeaders := commonHeaders st |}.

Definition setLoading (st : t) (v : bool) : t :=
  {| url := url st; loading := v; error := error st; swagger := swagger st;
     endpoints := endpoints st; selected := selected st; title := title st;
     threads := threads st; rampTime := rampTime st; duration := duration st;
     baseUrlOverride := baseUrlOverride st; commonHeaders := commonHeaders st |}.

Definition setSelected (st : t) (v : list nat) : t :=
  {| url := url st; loading := loading st; error := error st; swagger := swagger st;
     endpoints := endpoints st; selected := v; title := title st;
     threads := threads st; rampTime := rampTime st; duration := duration st;
     baseUrlOverride := baseUrlOverride st; commonHeaders := commonHeaders st |}.

Definition setBaseUrlOverride (st : t) (v : string) : t :=
  {| url := url st; loading := loading st; error := error st; swagger := swagger st;
     endpoints := endpoints st; selected := selected st; title := title st;
     threads := threads st; rampTime := rampTime st; duration := duration st;
     baseUrlOverride := v; commonHeaders := commonHeaders st |}.

Definition setCommonHeaders (st : t) (v : list Header) : t :=
  {| url := url st; loading := loading st; error := error st; swagger := swagger st;
     endpoints := endpoints st; selected := selected st; title := title st;
     threads := threads st; rampTime := rampTime st; duration := duration st;
     baseUrlOverride := baseUrlOverride st; commonHeaders := v |}.
Definition setTitle (st : t) (v : string) : t :=
  {| url := url st; loading := loading st; error := error st;
     swagger := swagger st; endpoints := endpoints st; selected := selected st;
     title := v; threads := threads st; rampTime := rampTime st;
     duration := duration st; baseUrlOverride := baseUrlOverride st;
     commonHeaders := commonHeaders st |}.
End App.

(** ** [Set<number>] *)

Definition Set_has (s : list nat) (i : nat) : bool := existsb (Nat.eqb i) s.

Definition Set_add (s : list nat) (i : nat) : list nat :=
  if Set_has s i then s else (s ++ [i])%list.

Definition Set_delete (s : list nat) (i : nat) : list nat :=
  filter (fun j => negb (j =? i)%nat) s.

(** [new Set(iterable)]. *)
Definition Set_from (l : list nat) : list nat := fold_left Set_add l [].

(** ** Selection: [toggleSelect], [selectAll], [deselectAll] *)

Definition toggleSelect (st : App.t) (i : nat) : App.t :=
  let s := Set_from (App.selected st) in
  let s := if Set_has s i then Set_delete s i else Set_add s i in
  App.setSelected st s.

Definition selectAll (st : App.t) : App.t :=
  App.setSelected st (Set_from (seq 0 (List.length (App.endpoints st)))).

Definition deselectAll (st : App.t) : App.t :=
  App.setSelected st (Set_from []).

(** The effect on [endpoints]: [setSelected(new Set())]. *)
Definition endpoints_effect (st : App.t) : App.t :=
  App.setSelected st (Set_from []).

(** ** [groupedByTag]

    The [Map] is the list of its entries in insertion order.  Its keys are
    compared as [Map] compares them: primitives by value, an object or an
    array by reference, and the first tag of an endpoint, when it is an
    object or an array, is a reference no other endpoint holds.
    An entry of a group is the endpoint with its [_index]. *)

(** [e.tags?.[0] ?? "default"]. *)
Definition tag_of (e : Endpoint) : JsValue :=
  let first := if nullish (tags e) then JUndefined else prop (tags e) "0" in
  if nullish first then JStr "default" else first.

Definition same_key (a b : JsValue) : bool :=
  match a, b with
  | JUndefined, JUndefined => true
  | JNull, JNull => true
  | JBool x, JBool y => Bool.eqb x y
  | JNum x, JNum y => (x =? y)%Z
  | JStr x, JStr y => (x =? y)%string
  | _, _ => false
  end.

Definition Groups : Type := list (JsValue * list (nat * Endpoint)).

Fixpoint Map_has (k : JsValue) (m : Groups) : bool :=
  match m with
  | [] => false
  | (k', _) :: rest => same_key k k' || Map_has k rest
  end.

(** [map.get(k).push(x)] on a key the map has. *)
Fixpoint Map_push (k : JsValue) (x : nat * Endpoint) (m : Groups) : Groups :=
  match m with
  | [] => []
  | (k', g) :: rest =>
      if same_key k k' then (k', g ++ [x])%list :: rest
      else (k', g) :: Map_push k x rest
  end.

(** The body of [forEach]: a new entry when the map lacks the tag, then the
    push onto the tag's entry. *)
Definition group_step (m : Groups) (ie : nat * Endpoint) : Groups :=
  let tag := tag_of (snd ie) in
  if Map_has tag m then Map_push tag ie m
  else (m ++ [(tag, [ie])])%list.

Definition indexed (l : list Endpoint) : list (nat * Endpoint) :=
  combine (seq 0 (List.length l)) l.

Definition groupedByTag (l : list Endpoint) : Groups :=
  fold_left group_step (indexed l) [].

(** The entries of all the groups, group after group. *)
Definition members (m : Groups) : list (nat * Endpoint) := concat (map snd m).

(** What every entry of the map satisfies while the loop has reached
    index [n]: the group is not empty, its endpoints bear the key as their
    tag, and their indices increase and stay below [n]. *)
Definition group_ok (n : nat) (kg : JsValue * list (nat * Endpoint)) : Prop :=
  snd kg <> []
  /\ Forall (fun ie => tag_of (snd ie) = fst kg) (snd kg)
  /\ StronglySorted lt (map fst (snd kg))
  /\ Forall (fun ie => (fst ie < n)%nat) (snd kg).

(** Keys of different entries are different keys of the map. *)
Definition keys_apart (m : Groups) : Prop :=
  ForallOrdPairs (fun a b => same_key (fst a) (fst b) = false) m.

(** ** [buildJmxAndDownload]

    The model follows the handler up to its call of [generateJMX] and
    records the argument of the call and the name of the download. *)

(** [l.filter((_, i) => f(i))], from index [i]. *)
Fixpoint filter_index {A : Type} (f : nat -> bool) (i : nat) (l : list A) : list A :=
  match l with
  | [] => []
  | x :: rest =>
      if f i then x :: filter_index f (S i) rest else filter_index f (S i) rest
  end.

(** [s.replace(/\s+/g, "_")]: [in_run] tells that the character before was
    white space, already replaced. *)
Fixpoint collapse_spaces (in_run : bool) (s : string) : string :=
  match s with
  | EmptyString => EmptyString
  | String c rest =>
      if is_space c
      then if in_run then collapse_spaces true rest
           else String "_" (collapse_spaces true rest)
      else String c (collapse_spaces false rest)
  end.

Module Args.
Record t : Type := {
  title : string;
  baseUrl : JsValue;
  threads : Z;
  rampTime : Z;
  duration : Z;
  endpoints : list Endpoint;
  commonHeaders : list Header
}.
End Args.

Record Download : Type := {
  download_name : string;
  generate_args : Args.t
}.

Definition buildJmxAndDownload (st : App.t) : App.t * option Download :=
  if negb (truthy (App.swagger st)) then (st, None)
  else
    let chosen := filter_index (Set_has (App.selected st)) 0 (App.endpoints st) in
    if (List.length chosen =? 0)%nat
    then (App.setError st "No endpoints selected", None)
    else
      (st,
       Some {| generate_args :=
                 {| Args.title := App.title st;
                    Args.baseUrl := resolveBaseUrl (App.baseUrlOverride st) (App.swagger st);
                    Args.threads := App.threads st;
                    Args.rampTime := App.rampTime st;
                    Args.duration := App.duration st;
                    Args.endpoints := chosen;
                    Args.commonHeaders := App.commonHeaders st |};
               download_name := collapse_spaces false (App.title st) ++ ".jmx" |}).

(** The argument as [generateJMX] types it, when the base URL is a string. *)
Definition plan_of_args (a : Args.t) : option LoadPlan :=
  match Args.baseUrl a with
  | JStr b =>
      Some {| title := Args.title a; baseUrl := b; threads := Args.threads a;
              rampTime := Args.rampTime a; duration := Args.duration a;
              endpoints := Args.endpoints a; commonHeaders := Args.commonHeaders a |}
  | _ => None
  end.

(** ** [fetchSwagger]

    What [fetch] and [res.json()] did is an input of the model; a thrown
    exception reaches the handler as the text [String(e.message || e)],
    given by the platform ([thrown] for the exceptions of the extractor). *)

Inductive Body : Type :=
| BadJson (text : string)
| Json (data : JsValue).

Inductive FetchResult : Type :=
| NetworkError (text : string)
| Response (ok : bool) (status : Z) (statusText : string) (body : Body).

Definition fetchSwagger (URL : string -> option Url.t) (thrown : JsError -> string)
  (st : App.t) (result : FetchResult) : App.t :=
  let st := App.setError st "" in
  let st := App.setSwagger st JNull in
  let st := App.setEndpoints st [] in
  let st := App.setLoading st true in
  let st :=
    match result with
    | NetworkError text => App.setError st text
    | Response ok status statusText body =>
        if negb ok
        then App.setError st
               ("Failed to fetch: " ++ Number_toString status ++ " " ++ statusText)
        else
          match body with
          | BadJson text => App.setError st text
          | Json data =>
              let st := App.setSwagger st data in
              let autoBase := extractBaseUrl URL (App.url st) in
              let st := App.setBaseUrlOverride st autoBase in
              match parseOpenAPI data with
              | Return eps => App.setEndpoints st eps
              | Throw e => App.setError st (thrown e)
              end
          end
    end in
  App.setLoading st false.

(** ** The header handlers *)

(** [arr[i].key = v] and [arr[i].value = v] on the copied array. *)
Definition onHeaderKey (hs : list Header) (i : nat) (v : string)
  : Outcome (list Header) :=
  match nth_error hs i with
  | Some h =>
      Return (firstn i hs ++ {| key := v; value := value h |} :: skipn (S i) hs)%list
  | None => Throw TypeError
  end.

Definition onHeaderValue (hs : list Header) (i : nat) (v : string)
  : Outcome (list Header) :=
  match nth_error hs i with
  | Some h =>
      Return (firstn i hs ++ {| key := key h; value := v |} :: skipn (S i) hs)%list
  | None => Throw TypeError
  end.

Definition onAddHeader (hs : list Header) : list Header :=
  (hs ++ [ {| key := ""; value := "" |} ])%list.

Definition onAddBearer (hs : list Header) : list Header :=
  (hs ++ [ {| key := "Authorization"; value := "Bearer ${TOKEN}" |} ])%list.

(** The state the component starts in. *)
Definition initial : App.t :=
  {| App.url := ""; App.loading := false; App.error := ""; App.swagger := JNull;
     App.endpoints := []; App.selected := Set_from [];
     App.title := "Generated Test Plan"; App.threads := 10; App.rampTime := 1;
     App.duration := 60; App.baseUrlOverride := "";
     App.commonHeaders := [ {| key := "Authorization"; value := "Bearer ${TOKEN}" |};
                            {| key := "Content-Type"; value := "application/json" |} ] |}.

(** Sample states: the address typed in, the petstore document fetched
    from it, then its first and last endpoints ticked. *)
Definition typed_in : App.t := App.setUrl initial "https://api.x.com/v1".

Definition fetched : App.t :=
  endpoints_effect
    (fetchSwagger URL_sample (fun _ => "TypeError") typed_in
       (Response true 200 "OK" (Json petstore))).

Definition ticked : App.t := toggleSelect (toggleSelect fetched 3) 0.

(** The same state with a no-break space (160) and a run of two spaces
    in the title. *)
Definition retitled : App.t :=
  App.setTitle ticked ("Load" ++ String "160" "" ++ "test  plan").

(** A document whose path entry is [null]. *)
Definition null_entry_doc : JsValue :=
  JObj [("openapi", JStr "3.0.0"); ("paths", JObj [("/pets", JNull)])].

(** Further readers used by the properties. *)

Definition is_path_line (l : string) : bool :=
  prefix (xml "<stringProp name=`HTTPSampler.path`>") l.

Definition is_method_line (l : string) : bool :=
  prefix (xml "<stringProp name=`HTTPSampler.method`>") l.

Definition has_metachar (s : string) : bool :=
  has_char "<" s || has_char ">" s || has_char "&" s || has_char "'" s
  || has_char "034" s.

Definition with_headers (cfg : LoadPlan) (hs : list Header) : LoadPlan :=
  {| title := title cfg; baseUrl := baseUrl cfg; threads := threads cfg;
     rampTime := rampTime cfg; duration := duration cfg;
     endpoints := endpoints cfg; commonHeaders := hs |}.

(** The plan with its defaults filled in and its blank-key headers gone. *)
Definition normal_plan (cfg : LoadPlan) : LoadPlan :=
  {| title := if negb (title cfg =? "") then title cfg else "Test Plan";
     baseUrl := if negb (baseUrl cfg =? "") then baseUrl cfg else "${BASE_URL}";
     threads := threads cfg; rampTime := rampTime cfg; duration := duration cfg;
     endpoints := endpoints cfg;
     commonHeaders := filter has_key (commonHeaders cfg) |}.

(** * Well-formed XML

    A recognizer of XML 1.0 documents, for the part of the language a
    test plan is written in: an optional XML declaration, then one root
    element with attributes, nested elements, empty-element tags,
    character data and the five predefined entity references, with white
    space around it.  The other constructs of XML (comments, CDATA
    sections, processing instructions, document type declarations,
    character references) are not accepted: a text the recognizer accepts
    is a well-formed document, and not every well-formed document is
    accepted.  Characters are code units below 256.

    The numbers in brackets are the productions of the XML 1.0
    recommendation. *)
Module Xml.








(** Where the recognizer stands between two characters. *)
Inductive Mode : Type :=
| Text (brackets : nat)
| TextRef (ref : string)
| Lt
| STagName (name : string)
| InTag (name : string) (attrs : list string) (spaced : bool)
| AttName (name : string) (attrs : list string) (att : string)
| AttEq (name : string) (attrs : list string)
| AttQuote (name : string) (attrs : list string)
| AttValue (name : string) (attrs : list string) (quote : ascii)
| AttRef (name : string) (attrs : list string) (quote : ascii) (ref : string)
| EmptyEnd (name : string)
| LtSlash
| ETagName (name : string)
| ETagEnd (name : string).

(** The mode, the names of the elements that are open, innermost first,
    and whether the root element has been closed. *)
Record State : Type := {
  mode : Mode;
  stack : list string;
  root_closed : bool
}.









Fixpoint skip (f : ascii -> bool) (s : string) : string :=
  match s with
  | EmptyString => EmptyString
  | String c rest => if f c then skip f rest else s
  end.












Definition initial : State := {| mode := Text 0; stack := []; root_closed := false |}.




End Xml.









(** * Properties *)

(** ** The extractor *)

Lemma Get_prop (v : JsValue) (k : string) :
  nullish v = false -> Get v k = Return (prop v k).
Proof.
  intros Hv. unfold prop, Get. rewrite Hv.
  destruct (assoc k (own_props v)); reflexivity.
Qed.

Lemma structured_not_nullish (m : JsValue) :
  is_structured m = true -> nullish m = false.
Proof. destruct m; simpl; intros H; try reflexivity; discriminate. Qed.

Lemma truthy_not_nullish (v : JsValue) : truthy v = true -> nullish v = false.
Proof. destruct v; simpl; intros H; try reflexivity; discriminate. Qed.

Lemma skip_test (m : JsValue) :
  negb (truthy m) || negb (typeof m =? "object") = negb (is_structured m).
Proof. unfold is_structured. now rewrite negb_andb. Qed.

Section Loops.

Variable v3 : bool.

Lemma method_step_eq (obj : JsValue) (p : string) (out : list Endpoint) (k : string) :
  nullish obj = false ->
  method_step v3 obj p out k =
    if is_structured (prop obj k)
    then if sliceable (prop obj k)
         then Return (out ++ [descriptor v3 (p, k, prop obj k)])%list
         else Throw TypeError
    else Return out.
Proof.
  intros Hobj. unfold method_step. rewrite (Get_prop _ _ Hobj). simpl bind.
  rewrite skip_test. destruct (is_structured (prop obj k)) eqn:Hs; [| reflexivity].
  simpl negb. cbv iota.
  pose proof (structured_not_nullish _ Hs) as Hm.
  rewrite !(Get_prop _ _ Hm). simpl bind.
  unfold sliceable, descriptor, or_else.
  destruct (prop (prop obj k) "parameters") eqn:Hp; simpl; try reflexivity;
    destruct v3; simpl;
    destruct (truthy (prop (prop obj k) "summary")); simpl; reflexivity.
Qed.

Lemma inner_loop (obj : JsValue) (p : string) (ks : list string) :
  nullish obj = false ->
  forall out,
    for_of ks (method_step v3 obj p) out =
      if forallb (fun k => negb (is_structured (prop obj k)) || sliceable (prop obj k)) ks
      then Return (out ++ flat_map (fun k =>
                      if is_structured (prop obj k)
                      then [descriptor v3 (p, k, prop obj k)] else []) ks)%list
      else Throw TypeError.
Proof.
  intros Hobj. induction ks as [| k ks IH]; intros out; simpl.
  - now rewrite app_nil_r.
  - rewrite (method_step_eq _ _ _ _ Hobj).
    destruct (is_structured (prop obj k)); simpl.
    + destruct (sliceable (prop obj k)); simpl; [| reflexivity].
      rewrite IH. now rewrite <- app_assoc.
    + apply IH.
Qed.

Lemma path_step_eq (paths : JsValue) (out : list Endpoint) (p : string) :
  nullish paths = false ->
  path_step v3 paths out p =
    if negb (nullish (prop paths p)) && methods_ok (prop paths p)
    then Return (out ++ flat_map (fun k =>
                    if is_structured (prop (prop paths p) k)
                    then [descriptor v3 (p, k, prop (prop paths p) k)] else [])
                  (keys (prop paths p)))%list
    else Throw TypeError.
Proof.
  intros Hp. unfold path_step. rewrite (Get_prop _ _ Hp). simpl bind.
  unfold Object_keys. destruct (nullish (prop paths p)) eqn:Hn; simpl; [reflexivity |].
  rewrite (inner_loop _ _ _ Hn). reflexivity.
Qed.

Lemma outer_loop (paths : JsValue) (ps : list string) :
  nullish paths = false ->
  forall out,
    for_of ps (path_step v3 paths) out =
      if forallb (fun p => negb (nullish (prop paths p)) && methods_ok (prop paths p)) ps
      then Return (out ++ flat_map (fun p => flat_map (fun k =>
                      if is_structured (prop (prop paths p) k)
                      then [descriptor v3 (p, k, prop (prop paths p) k)] else [])
                    (keys (prop paths p))) ps)%list
      else Throw TypeError.
Proof.
  intros Hp. induction ps as [| p ps IH]; intros out; simpl.
  - now rewrite app_nil_r.
  - rewrite (path_step_eq _ _ _ Hp).
    destruct (negb (nullish (prop paths p)) && methods_ok (prop paths p)); simpl;
      [| reflexivity].
    rewrite IH. now rewrite <- app_assoc.
Qed.

End Loops.

Lemma paths_of_not_nullish (doc : JsValue) : nullish (paths_of doc) = false.
Proof.
  unfold paths_of. destruct (truthy (prop doc "paths")) eqn:H; [| reflexivity].
  now apply truthy_not_nullish.
Qed.

Lemma flat_map_map {A B C : Type} (f : B -> C) (g : A -> list B) (l : list A) :
  flat_map (fun a => map f (g a)) l = map f (flat_map g l).
Proof.
  induction l as [| a l IH]; simpl; [reflexivity |].
  now rewrite map_app, IH.
Qed.

(** The extractor on every document: the descriptors of the retained
    triples, in order, on a well-shaped document; a [TypeError] on any other. *)
Lemma parseOpenAPI_eq (doc : JsValue) :
  parseOpenAPI doc =
    if well_shaped doc
    then Return (map (descriptor (isV3 doc)) (retained doc))
    else Throw TypeError.
Proof.
  unfold parseOpenAPI, well_shaped, retained.
  destruct (truthy doc) eqn:Hd; simpl; [| reflexivity].
  pose proof (truthy_not_nullish _ Hd) as Hn.
  rewrite !(Get_prop _ _ Hn). simpl bind.
  unfold openapi_ok, isV3.
  destruct (prop doc "openapi") eqn:Ho; simpl; try reflexivity.
  all: fold (paths_of doc); unfold Object_keys;
    rewrite (paths_of_not_nullish doc); simpl bind; fold (keys (paths_of doc)).
  all: rewrite (outer_loop _ _ _ (paths_of_not_nullish doc)); simpl app.
  all: destruct (forallb _ _); [| reflexivity].
  all: f_equal; rewrite <- flat_map_map; apply flat_map_ext; intros p;
    rewrite <- flat_map_map; apply flat_map_ext; intros k;
    destruct (is_structured _); reflexivity.
Qed.

(** ** The serializer, loop by loop *)

Lemma header_loop (hs : list Header) :
  forall jmx,
    fold_left header_step hs jmx
    = (jmx ++ flat_map headerElement (filter has_key hs))%list.
Proof.
  induction hs as [| h hs IH]; intros jmx; simpl.
  - now rewrite app_nil_r.
  - rewrite IH. unfold header_step, has_key.
    destruct (trim (key h) =? ""); simpl; [reflexivity |].
    unfold push. now rewrite <- !app_assoc.
Qed.

Lemma sampler_step_eq (hs : list Header) (jmx : list string) (ep : Endpoint) :
  sampler_step hs jmx ep = (jmx ++ samplerBlock hs ep)%list.
Proof.
  unfold sampler_step. cbv zeta. unfold push.
  rewrite header_loop. unfold samplerBlock, headerManagerElement.
  rewrite <- !app_assoc. reflexivity.
Qed.

Lemma sampler_loop (hs : list Header) (eps : list Endpoint) :
  forall jmx,
    fold_left (sampler_step hs) eps jmx
    = (jmx ++ flat_map (samplerBlock hs) eps)%list.
Proof.
  induction eps as [| ep eps IH]; intros jmx; simpl.
  - now rewrite app_nil_r.
  - rewrite IH, sampler_step_eq. now rewrite <- app_assoc.
Qed.

Section Serializer.

Variable URL : string -> option Url.t.

(** The array in closed form: the opening of the document, the plan and
    the thread group; one block per endpoint; the collector and the
    closing markers. *)
Lemma generateJMX_lines_eq (cfg : LoadPlan) :
  generateJMX_lines URL cfg
  = (documentOpening ++ [hashTree_open]
     ++ testPlanElement (parts_of URL cfg) cfg ++ [hashTree_open]
     ++ threadGroupElement cfg ++ [hashTree_open]
     ++ flat_map (samplerBlock (commonHeaders cfg)) (endpoints cfg)
     ++ [resultCollector; hashTree_empty;
         hashTree_close; hashTree_close; hashTree_close; documentClosing])%list.
Proof.
  unfold generateJMX_lines. cbv zeta. unfold push.
  rewrite sampler_loop. rewrite <- !app_assoc. reflexivity.
Qed.

End Serializer.

(** ** The claims on the extractor *)

(** C1 (the code departs from it).  The specification promises that no
    document makes the extractor raise, a path entry whose value is [null]
    included.  On the document [{"paths": {"/users": null}}] the extractor
    reaches [Object.keys(null)] and throws a [TypeError]; on
    [{"paths": {"/users": {"get": null}}}] the guard on the method entry
    skips the [null] and the extractor returns the empty sequence.  The
    guard has no counterpart for a path entry. *)
Theorem parseOpenAPI_null_path_entry_throws :
  parseOpenAPI (JObj [("paths", JObj [("/users", JNull)])]) = Throw TypeError
  /\ parseOpenAPI (JObj [("paths", JObj [("/users", JObj [("get", JNull)])])])
     = Return [].
Proof. split; reflexivity. Qed.

Lemma retained_nil_of_no_keys (doc : JsValue) :
  keys (paths_of doc) = [] -> retained doc = [].
Proof.
  intros H. unfold retained. rewrite H. now destruct (truthy doc).
Qed.

Lemma Forall2_map_l {A B : Type} (f : B -> A) (R : A -> B -> Prop) (l : list B) :
  (forall b, R (f b) b) -> Forall2 R (map f l) l.
Proof. intros H. induction l; simpl; constructor; auto. Qed.

(** C2, counterexamples.  A document without [paths] whose [openapi] is the
    number 3 yields no empty sequence, and a document with one structured
    method entry whose [parameters] is a number yields no descriptor: the
    extractor throws on both. *)
Lemma extraction_counterexample :
  (prop (JObj [("openapi", JNum 3)]) "paths" = JUndefined
   /\ parseOpenAPI (JObj [("openapi", JNum 3)]) <> Return [])
  /\ (List.length (retained (JObj [("paths", JObj [("/a", JObj [("get",
          JObj [("parameters", JNum 5)])])])])) = 1%nat
      /\ forall eps,
           parseOpenAPI (JObj [("paths", JObj [("/a", JObj [("get",
             JObj [("parameters", JNum 5)])])])]) <> Return eps).
Proof.
  repeat split; try reflexivity; intros; discriminate.
Qed.

(** C2, as amended.  On every well-shaped document ([openapi] absent or a
    string, no path entry [null], every kept operation's [parameters]
    absent or with a [slice]) the extractor returns exactly one descriptor
    per (path, method) pair whose value is a structured object, in the
    enumeration order of the paths and then of the methods of a path; it
    returns the empty sequence for a falsy document and, on such documents,
    when [paths] is absent or has no key. *)
Theorem extraction_one_per_pair (doc : JsValue) :
  well_shaped doc = true ->
  exists eps,
    parseOpenAPI doc = Return eps
    /\ Forall2 (fun e t => path e = fst (fst t)
                           /\ method e = toUpperCase (snd (fst t))
                           /\ rawOperation e = snd t
                           /\ is_structured (snd t) = true)
               eps (retained doc)
    /\ List.length eps = List.length (retained doc)
    /\ (truthy doc = false -> eps = [])
    /\ (truthy (prop doc "paths") = false -> eps = [])
    /\ (keys (prop doc "paths") = [] -> eps = []).
Proof.
  intros Hw. exists (map (descriptor (isV3 doc)) (retained doc)).
  rewrite parseOpenAPI_eq, Hw. split; [reflexivity |]. split.
  - assert (Hs : Forall (fun t => is_structured (snd t) = true) (retained doc)).
    { unfold retained. destruct (truthy doc); [| constructor].
      apply Forall_forall. intros t Ht.
      apply in_flat_map in Ht. destruct Ht as [p [_ Ht]].
      apply in_flat_map in Ht. destruct Ht as [k [_ Ht]].
      destruct (is_structured (prop (prop (paths_of doc) p) k)) eqn:E;
        [| contradiction].
      destruct Ht as [<- | []]. exact E. }
    induction Hs as [| [[p k] m] ts Ht _ IH]; simpl; constructor; auto.
  - split; [apply length_map |].
    assert (Hk : keys (paths_of doc) = [] -> map (descriptor (isV3 doc)) (retained doc) = []).
    { intros H. now rewrite retained_nil_of_no_keys. }
    repeat split.
    + intros Hd. unfold retained. now rewrite Hd.
    + intros Hp. apply Hk. unfold paths_of. now rewrite Hp.
    + intros Hp. apply Hk. unfold paths_of.
      destruct (truthy (prop doc "paths")); [assumption | reflexivity].
Qed.

Lemma extraction_one_per_pair_witness :
  well_shaped petstore = true
  /\ exists eps, parseOpenAPI petstore = Return eps /\ List.length eps = 4%nat.
Proof.
  split; [reflexivity |].
  destruct (extraction_one_per_pair petstore eq_refl) as [eps [H [_ [Hl _]]]].
  exists eps. split; [exact H | rewrite Hl; reflexivity].
Defined.

Lemma parseOpenAPI_returns (doc : JsValue) (eps : list Endpoint) :
  parseOpenAPI doc = Return eps ->
  eps = map (descriptor (isV3 doc)) (retained doc).
Proof.
  rewrite parseOpenAPI_eq. destruct (well_shaped doc); intros H; [| discriminate].
  now injection H as <-.
Qed.

Lemma Forall_map_descriptor (P : Endpoint -> Prop) (v3 : bool)
  (ts : list (string * string * JsValue)) :
  (forall t, In t ts -> P (descriptor v3 t)) -> Forall P (map (descriptor v3) ts).
Proof.
  intros H. apply Forall_forall. intros e He.
  apply in_map_iff in He. destruct He as [t [<- Ht]]. auto.
Qed.

(** C8.  In the descriptors a v3 document yields ([openapi] a string that
    starts with ["3"]), [requestBody] is the operation's own [requestBody]
    where the operation has one, and [null] where it has none; in the
    descriptors any other document yields, [requestBody] is [null]. *)
Theorem requestBody_only_v3 (doc : JsValue) (eps : list Endpoint) :
  parseOpenAPI doc = Return eps ->
  (isV3 doc = true ->
   Forall (fun e =>
             (forall b, Get (rawOperation e) "requestBody" = Return b ->
                        nullish b = false -> requestBody e = b)
             /\ (nullish (prop (rawOperation e) "requestBody") = true ->
                 requestBody e = JNull)) eps)
  /\ (isV3 doc = false -> Forall (fun e => requestBody e = JNull) eps).
Proof.
  intros H. apply parseOpenAPI_returns in H. subst eps. split; intros Hv; rewrite Hv.
  - apply Forall_map_descriptor. intros [[p k] m] _. simpl. unfold or_else. split.
    + intros b Hb Hn. unfold prop. rewrite Hb, Hn. reflexivity.
    + intros Hn. now rewrite Hn.
  - apply Forall_map_descriptor. intros [[p k] m] _. reflexivity.
Qed.

Lemma requestBody_only_v3_witness :
  exists eps,
    parseOpenAPI petstore = Return eps
    /\ isV3 petstore = true
    /\ map requestBody eps
       = [JNull; JObj [("required", JBool true)]; JNull; JNull]
    /\ Forall (fun e => nullish (prop (rawOperation e) "requestBody") = true ->
                        requestBody e = JNull) eps.
Proof.
  exists (map (descriptor true) (retained petstore)).
  repeat split.
  destruct (requestBody_only_v3 petstore _ eq_refl) as [H _].
  specialize (H eq_refl).
  eapply Forall_impl; [| exact H]. intros e [_ He]. exact He.
Defined.

Lemma list_ascii_app (s t : string) :
  list_ascii_of_string (s ++ t)
  = (list_ascii_of_string s ++ list_ascii_of_string t)%list.
Proof. induction s as [| c s IH]; simpl; [reflexivity | now rewrite IH]. Qed.

Lemma string_append_assoc (s t u : string) : (s ++ t) ++ u = s ++ (t ++ u).
Proof. induction s as [| c s IH]; simpl; [reflexivity | now rewrite IH]. Qed.

Lemma toUpperCase_app (s t : string) :
  toUpperCase (s ++ t) = toUpperCase s ++ toUpperCase t.
Proof.
  induction s as [| c s IH]; simpl; [reflexivity |].
  now rewrite IH, string_append_assoc.
Qed.

Lemma upper_unit_upper (c : ascii) :
  negb ((nat_of_ascii c =? 181)%nat || (nat_of_ascii c =? 255)%nat) = true ->
  forallb (fun a => negb (is_lower a)) (list_ascii_of_string (upper_unit c)) = true
  /\ toUpperCase (upper_unit c) = upper_unit c.
Proof.
  destruct c as [[] [] [] [] [] [] [] []]; intros H;
    first [discriminate H | split; reflexivity].
Qed.

Lemma toUpperCase_no_lower (s : string) :
  upper_representable s = true ->
  forallb (fun c => negb (is_lower c)) (list_ascii_of_string (toUpperCase s)) = true
  /\ toUpperCase (toUpperCase s) = toUpperCase s.
Proof.
  unfold upper_representable.
  induction s as [| c s IH]; simpl; [split; reflexivity |].
  intros H. apply andb_true_iff in H. destruct H as [Hc Hs].
  destruct (upper_unit_upper c Hc) as [H1 H2]. destruct (IH Hs) as [H3 H4].
  split.
  - now rewrite list_ascii_app, forallb_app, H1, H3.
  - now rewrite toUpperCase_app, H2, H4.
Qed.

(** C9, counterexample.  An operation whose [summary] is the empty string
    has a summary of its own, yet its descriptor carries the operation
    identifier. *)
Lemma summary_counterexample :
  exists e m,
    parseOpenAPI empty_summary_doc = Return [e]
    /\ rawOperation e = m
    /\ Get m "summary" = Return (JStr "")
    /\ summary e = JStr "listA"
    /\ summary e <> JStr "".
Proof.
  do 2 eexists. repeat split; try reflexivity. simpl. discriminate.
Qed.

(** C9, as amended.  For every retained (path, method, operation) entry the
    descriptor's [method] is the method key in upper case, whatever the
    case of the key: it is [toUpperCase] of the key, no letter with an
    upper-case form is left in it, and upper-casing it again changes
    nothing (stated for the keys whose upper-case form is a text of the
    model); its [summary] is the operation's [summary] when that is truthy
    (present and not empty), else the operation's [operationId]; its
    [tags] is the operation's [tags], or the empty sequence when they are
    absent. *)
Theorem descriptor_fields (doc : JsValue) (eps : list Endpoint) :
  parseOpenAPI doc = Return eps ->
  Forall2 (fun e t =>
             let '(p, k, m) := t in
             path e = p
             /\ (upper_representable k = true ->
                 method e = toUpperCase k
                 /\ forallb (fun c => negb (is_lower c))
                            (list_ascii_of_string (method e)) = true
                 /\ toUpperCase (method e) = method e)
             /\ summary e = (if truthy (prop m "summary") then prop m "summary"
                             else prop m "operationId")
             /\ tags e = (if nullish (prop m "tags") then JArr []
                          else prop m "tags"))
          eps (retained doc).
Proof.
  intros H. apply parseOpenAPI_returns in H. subst eps.
  apply Forall2_map_l. intros [[p k] m]. simpl.
  split; [reflexivity |]. split; [| split; reflexivity].
  intros Hk. destruct (toUpperCase_no_lower k Hk) as [H1 H2].
  split; [reflexivity |]. split; [exact H1 | exact H2].
Qed.

Lemma descriptor_fields_witness :
  exists eps,
    parseOpenAPI petstore = Return eps
    /\ map method eps = ["GET"; "POST"; "PARAMETERS"; "DELETE"]
    /\ map summary eps = [JStr "List pets"; JStr "addPet"; JUndefined; JUndefined]
    /\ Forall2 (fun e t => method e = toUpperCase (snd (fst t)))
               eps (retained petstore)
    /\ toUpperCase (String "g" (String "233" (String "t" "")))
       = String "G" (String "201" (String "T" ""))
    /\ toUpperCase (String "223" "") = "SS".
Proof.
  exists (map (descriptor true) (retained petstore)).
  split; [reflexivity |]. split; [reflexivity |]. split; [reflexivity |].
  split; [| split; reflexivity].
  pose proof (descriptor_fields petstore _ eq_refl) as H.
  cbv beta in H.
  repeat match goal with
         | H : Forall2 _ (_ :: _) (_ :: _) |- _ =>
             apply Forall2_cons_iff in H; destruct H as [? H]
         end.
  repeat constructor;
    match goal with
    | Hx : _ /\ (upper_representable ?k = true -> _) /\ _ |- _ = toUpperCase ?k =>
        exact (proj1 (proj1 (proj2 Hx) eq_refl))
    end.
Defined.

(** ** The claims on the resolver *)

Lemma index_key_not_length (d : Decimal.uint) :
  ("length" =? NilZero.string_of_uint d) = false.
Proof. destruct d; reflexivity. Qed.

Lemma assoc_length_indexed (ks : list nat) (vs : list JsValue) :
  assoc "length"
    (combine (map (fun i => NilZero.string_of_uint (Nat.to_uint i)) ks) vs) = None.
Proof.
  revert vs. induction ks as [| i ks IH]; intros [| v vs]; try reflexivity.
  cbn [map combine assoc]. rewrite index_key_not_length. apply IH.
Qed.

Lemma Get_length_array (vs : list JsValue) :
  Get (JArr vs) "length" = Return (JNum (Z.of_nat (List.length vs))).
Proof.
  unfold Get. cbn [nullish own_props]. unfold index_keys.
  now rewrite assoc_length_indexed.
Qed.

Lemma Get_first_array (v : JsValue) (vs : list JsValue) :
  Get (JArr (v :: vs)) "0" = Return v.
Proof. reflexivity. Qed.

Lemma detectBaseUrl_carried (doc : JsValue) (d : ServerFields) :
  carries doc d ->
  detectBaseUrl doc =
    match doc_servers d with
    | Some (u :: _) => JStr u
    | _ =>
        match doc_host d with
        | Some h => if negb (h =? "") then JStr (composed d h) else JNull
        | None => JNull
        end
    end.
Proof.
  intros [Hdoc [Hs [Hh [Hsch Hbp]]]].
  unfold detectBaseUrl. rewrite !(Get_prop _ _ Hdoc). cbn [bind].
  assert (Hhost :
    (h0 <- Return (prop doc "host") ;;
     (if truthy h0
      then
        schemes <- Return (prop doc "schemes") ;;
        scheme0 <- (if nullish schemes then Return JUndefined else Get schemes "0") ;;
        schemeText <- ToString (if nullish scheme0 then JStr "http" else scheme0) ;;
        host <- Return (prop doc "host") ;;
        hostText <- ToString host ;;
        basePath <- Return (prop doc "basePath") ;;
        basePathText <- ToString (if nullish basePath then JStr "" else basePath) ;;
        Return (JStr (schemeText ++ "://" ++ hostText ++ basePathText))
      else Return JNull))
    = Return match doc_host d with
             | Some h => if negb (h =? "") then JStr (composed d h) else JNull
             | None => JNull
             end).
  { cbn [bind]. destruct (doc_host d) as [h |].
    - rewrite Hh. cbn [truthy]. destruct (h =? "") eqn:Eh; cbn [negb]; [reflexivity |].
      unfold composed.
      assert (Hb : ToString (if nullish (prop doc "basePath") then JStr ""
                             else prop doc "basePath")
                   = Return match doc_basePath d with Some b => b | None => "" end).
      { destruct (doc_basePath d) as [b |].
        - now rewrite Hbp.
        - now rewrite Hbp. }
      destruct (doc_schemes d) as [[| s ss] |].
      + rewrite Hsch. cbn. rewrite Hb. reflexivity.
      + rewrite Hsch. cbn [map nullish]. rewrite Get_first_array.
        cbn. rewrite Hb. reflexivity.
      + rewrite Hsch. cbn. rewrite Hb. reflexivity.
    - destruct (prop doc "host"); try discriminate Hh; reflexivity. }
  destruct (doc_servers d) as [[| u us] |].
  - destruct Hs as [vs [Hv HF]]. inversion HF; subst. rewrite Hv.
    cbn [nullish]. rewrite Get_length_array. cbn [bind List.length Z.of_nat truthy Z.eqb negb].
    cbn [bind] in Hhost. now rewrite Hhost.
  - destruct Hs as [vs [Hv HF]]. inversion HF as [| v u' vs' us' [Hn Hu] HF']; subst.
    rewrite Hv. cbn [nullish]. rewrite Get_length_array.
    cbn [bind List.length]. rewrite Nat2Z.inj_succ.
    replace (truthy (JNum (Z.succ (Z.of_nat (List.length vs'))))) with true
      by (cbn; destruct (Z.eqb_spec (Z.succ (Z.of_nat (List.length vs'))) 0); [lia | reflexivity]).
    rewrite Get_first_array. cbn [bind]. now rewrite (Get_prop _ _ Hn), Hu.
  - destruct (prop doc "servers"); try discriminate Hs;
      cbn [nullish bind truthy]; cbn [bind] in Hhost; now rewrite Hhost.
Qed.

Lemma composed_not_empty (d : ServerFields) (h : string) :
  (composed d h =? "") = false.
Proof.
  unfold composed.
  destruct (match doc_schemes d with Some (s :: _) => s | _ => "http" end);
    reflexivity.
Qed.

(** C3, counterexample.  A document whose [servers] list is not empty and
    whose first [url] is the empty string: the stated precedence uses that
    [url], the code returns the placeholder. *)
Lemma resolution_counterexample :
  carries (json_of_fields empty_url_fields) empty_url_fields
  /\ resolve_as_specified "" empty_url_fields = ""
  /\ resolveBaseUrl "" (json_of_fields empty_url_fields) = JStr "${BASE_URL}"
  /\ resolveBaseUrl "" (json_of_fields empty_url_fields)
     <> JStr (resolve_as_specified "" empty_url_fields).
Proof.
  repeat split; try reflexivity; try discriminate.
  exists [JObj [("url", JStr "")]]. split; [reflexivity |].
  repeat constructor.
Qed.

(** C3, as amended.  A non-empty explicit override wins; otherwise, if the
    document has a non-empty [servers] list, the first entry's [url] is
    used when it is not empty and the placeholder is returned when it is;
    otherwise, if the document has a non-empty [host], the result is
    scheme://host+basePath with the first listed scheme or ["http"];
    otherwise the placeholder is returned.  The two examples of the
    specification resolve to ["https://api.x.com/v1"], and the amended
    precedence is the stated one wherever the first [url] and the [host]
    are not empty strings. *)
Theorem resolution_precedence :
  (forall (override : string) (doc : JsValue) (d : ServerFields),
      carries doc d ->
      resolveBaseUrl override doc = JStr (resolve_as_coded override d))
  /\ (forall (override : string) (d : ServerFields),
         (forall u us, doc_servers d = Some (u :: us) -> u <> "") ->
         (forall h, doc_host d = Some h -> h <> "") ->
         resolve_as_coded override d = resolve_as_specified override d)
  /\ resolveBaseUrl "" v3_servers_doc = JStr "https://api.x.com/v1"
  /\ resolveBaseUrl "" v2_host_doc = JStr "https://api.x.com/v1".
Proof.
  split; [| split; [| split; reflexivity]].
  - intros override doc d Hc. unfold resolveBaseUrl, resolve_as_coded, js_or.
    rewrite (detectBaseUrl_carried _ _ Hc). cbn [truthy].
    destruct (override =? "") eqn:E; cbn [negb];
      [| cbn [truthy]; rewrite E; reflexivity].
    destruct (doc_servers d) as [[| u us] |].
    + destruct (doc_host d) as [h |]; [| reflexivity].
      destruct (h =? "") eqn:Eh; cbn [negb truthy]; [reflexivity |].
      now rewrite composed_not_empty.
    + cbn [truthy]. destruct (u =? "") eqn:Eu; cbn [negb truthy];
        rewrite ?Eu; reflexivity.
    + destruct (doc_host d) as [h |]; [| reflexivity].
      destruct (h =? "") eqn:Eh; cbn [negb truthy]; [reflexivity |].
      now rewrite composed_not_empty.
  - intros override d Hu Hh. unfold resolve_as_coded, resolve_as_specified.
    destruct (override =? ""); cbn [negb]; [| reflexivity].
    destruct (doc_servers d) as [[| u us] |].
    + destruct (doc_host d) as [h |]; [| reflexivity].
      destruct (String.eqb_spec h ""); [now elim (Hh h) | reflexivity].
    + destruct (String.eqb_spec u ""); [now elim (Hu u us) | reflexivity].
    + destruct (doc_host d) as [h |]; [| reflexivity].
      destruct (String.eqb_spec h ""); [now elim (Hh h) | reflexivity].
Qed.

Lemma resolution_precedence_witness :
  carries v2_host_doc
    {| doc_servers := None; doc_host := Some "api.x.com";
       doc_schemes := Some ["https"]; doc_basePath := Some "/v1" |}
  /\ resolveBaseUrl "http://localhost:5000" v2_host_doc
     = JStr "http://localhost:5000".
Proof.
  assert (H : carries v2_host_doc
                {| doc_servers := None; doc_host := Some "api.x.com";
                   doc_schemes := Some ["https"]; doc_basePath := Some "/v1" |})
    by (repeat split).
  split; [exact H |].
  exact (proj1 resolution_precedence "http://localhost:5000" v2_host_doc _ H).
Defined.

(** ** The claims on the split *)

Lemma prefix_empty (s : string) : prefix "" s = true.
Proof. now destruct s. Qed.

Lemma drop_one_after (s rest : string) (c : ascii) :
  has_char c s = false ->
  replace (String c EmptyString) "" (s ++ String c rest) = s ++ rest.
Proof.
  induction s as [| a s IH]; intros H.
  - cbn [append replace prefix].
    destruct (ascii_dec c c) as [_ | n]; [| now elim n].
    now rewrite prefix_empty.
  - cbn in H. apply orb_false_iff in H. destruct H as [Hca Hs].
    cbn [append replace prefix].
    destruct (ascii_dec c a) as [-> | _].
    + now rewrite Ascii.eqb_refl in Hca.
    + f_equal. now apply IH.
Qed.

Section Split.

Variable URL : string -> option Url.t.

(** C4.  The split never raises: it is a total function of the text.
    Where the platform parses the text, it yields the protocol with its
    colon removed (the scheme itself, the protocol being the scheme and a
    colon), the host name, and the explicit port or else ["443"] for https
    and ["80"] for any other scheme; where the platform rejects the text,
    it yields the three placeholder tokens.  So it does on the two
    examples, which the platform parses and rejects respectively. *)
Theorem splitBaseUrl_total (url : string) :
  (forall u, URL url = Some u ->
     splitBaseUrl URL url
     = {| protocol := replace ":" "" (Url.protocol u);
          host := Url.hostname u;
          port := if Url.port u =? ""
                  then (if replace ":" "" (Url.protocol u) =? "https"
                        then "443" else "80")
                  else Url.port u |})
  /\ (forall u scheme, URL url = Some u ->
        Url.protocol u = scheme ++ ":" -> has_char ":" scheme = false ->
        protocol (splitBaseUrl URL url) = scheme)
  /\ (URL url = None ->
      splitBaseUrl URL url
      = {| protocol := "${PROTOCOL}"; host := "${SERVER_NAME}"; port := "${PORT}" |})
  /\ (URL "https://api.x.com:8443/v1"
      = Some {| Url.protocol := "https:"; Url.hostname := "api.x.com";
                Url.port := "8443"; Url.pathname := "/v1" |} ->
      splitBaseUrl URL "https://api.x.com:8443/v1"
      = {| protocol := "https"; host := "api.x.com"; port := "8443" |})
  /\ (URL "not a url" = None ->
      splitBaseUrl URL "not a url"
      = {| protocol := "${PROTOCOL}"; host := "${SERVER_NAME}"; port := "${PORT}" |}).
Proof.
  unfold splitBaseUrl. repeat split.
  - intros u ->. destruct (Url.port u =? ""); reflexivity.
  - intros u scheme -> Hp Hs. cbn [protocol]. rewrite Hp.
    rewrite (drop_one_after scheme "" ":" Hs).
    clear. induction scheme; cbn; [reflexivity | now f_equal].
  - now intros ->.
  - now intros ->.
  - now intros ->.
Qed.

End Split.

Lemma splitBaseUrl_total_witness :
  URL_sample "https://api.x.com:8443/v1"
  = Some {| Url.protocol := "https:"; Url.hostname := "api.x.com";
            Url.port := "8443"; Url.pathname := "/v1" |}
  /\ URL_sample "not a url" = None
  /\ splitBaseUrl URL_sample "https://api.x.com:8443/v1"
     = {| protocol := "https"; host := "api.x.com"; port := "8443" |}
  /\ splitBaseUrl URL_sample "not a url"
     = {| protocol := "${PROTOCOL}"; host := "${SERVER_NAME}"; port := "${PORT}" |}
  /\ protocol (splitBaseUrl URL_sample "https://api.x.com/v1") = "https"
  /\ port (splitBaseUrl URL_sample "https://api.x.com/v1") = "443"
  /\ port (splitBaseUrl URL_sample "http://localhost:5000") = "5000".
Proof.
  pose proof (splitBaseUrl_total URL_sample "https://api.x.com/v1")
    as [Hparsed [Hscheme _]].
  pose proof (splitBaseUrl_total URL_sample "not a url")
    as [_ [_ [_ [Hex1 Hex2]]]].
  split; [reflexivity |]. split; [reflexivity |].
  split; [exact (Hex1 eq_refl) |]. split; [exact (Hex2 eq_refl) |].
  split; [exact (Hscheme _ "https" eq_refl eq_refl eq_refl) |].
  split; [| reflexivity].
  rewrite (Hparsed _ eq_refl). reflexivity.
Defined.

(** ** The claims on the serializer: nesting *)

Lemma Node_induction (P : Node -> Prop) :
  (forall lines children, Forall P children -> P (Element lines children)) ->
  forall n, P n.
Proof.
  intros H. fix IH 1. intros [lines children]. apply H.
  induction children as [| c cs IHcs]; constructor; [apply IH | exact IHcs].
Qed.

Lemma balanced_plain (ls : list string) :
  forallb (fun l => negb (is_marker l)) ls = true ->
  forall d rest, balanced_from d (ls ++ rest)%list = balanced_from d rest.
Proof.
  induction ls as [| l ls IH]; intros H d rest; [reflexivity |].
  cbn [forallb] in H. apply andb_true_iff in H. destruct H as [Hl Hls].
  unfold is_marker in Hl. apply negb_true_iff, orb_false_iff in Hl.
  destruct Hl as [Ho Hc]. cbn [app balanced_from]. rewrite Ho, Hc. now apply IH.
Qed.

Lemma balanced_open (d : nat) (rest : list string) :
  balanced_from d (hashTree_open :: rest) = balanced_from (S d) rest.
Proof. reflexivity. Qed.

Lemma balanced_close (d : nat) (rest : list string) :
  balanced_from (S d) (hashTree_close :: rest) = balanced_from d rest.
Proof. reflexivity. Qed.

Lemma balanced_empty (d : nat) (rest : list string) :
  balanced_from d (hashTree_empty :: rest) = balanced_from d rest.
Proof. reflexivity. Qed.

(** Whatever the tree, rendering it opens and closes its children groups
    in step: the scan leaves it with as many groups open as it entered. *)
Lemma balanced_render (n : Node) :
  marker_free n = true ->
  forall d rest, balanced_from d (render_node n ++ rest)%list = balanced_from d rest.
Proof.
  induction n as [lines children IH] using Node_induction.
  intros H d rest. cbn [marker_free] in H.
  apply andb_true_iff in H. destruct H as [Hl Hc].
  cbn [render_node]. rewrite <- app_assoc. rewrite (balanced_plain _ Hl).
  destruct children as [| c cs]; [apply balanced_empty |].
  cbn [app]. rewrite balanced_open. rewrite <- app_assoc.
  assert (Hgo : forall cs', Forall (fun n => marker_free n = true ->
                   forall d rest, balanced_from d (render_node n ++ rest)%list
                                  = balanced_from d rest) cs' ->
                 forallb marker_free cs' = true ->
                 forall rest', balanced_from (S d) (flat_map render_node cs' ++ rest')%list
                               = balanced_from (S d) rest').
  { clear. induction cs' as [| c cs' IHcs]; intros HF Hm rest'; [reflexivity |].
    cbn [forallb] in Hm. apply andb_true_iff in Hm. destruct Hm as [Hc Hcs].
    inversion HF; subst. cbn [flat_map]. rewrite <- app_assoc.
    rewrite (H1 Hc). now apply IHcs. }
  rewrite (Hgo _ IH Hc). apply balanced_close.
Qed.

Lemma plain_headerElement (h : Header) :
  forallb (fun l => negb (is_marker l)) (headerElement h) = true.
Proof. reflexivity. Qed.

Lemma plain_flat_headers (hs : list Header) :
  forallb (fun l => negb (is_marker l)) (flat_map headerElement hs) = true.
Proof.
  induction hs as [| h hs IH]; [reflexivity |].
  cbn [flat_map]. rewrite forallb_app, IH. now rewrite plain_headerElement.
Qed.

Lemma plain_headerManager (hs : list Header) :
  forallb (fun l => negb (is_marker l)) (headerManagerElement hs) = true.
Proof.
  unfold headerManagerElement. rewrite !forallb_app, plain_flat_headers. reflexivity.
Qed.

Lemma marker_free_sampler (hs : list Header) (ep : Endpoint) :
  marker_free (samplerNode hs ep) = true.
Proof.
  unfold samplerNode. cbn [marker_free forallb].
  rewrite plain_headerManager. reflexivity.
Qed.

Lemma marker_free_plan (parts : BaseUrlParts) (cfg : LoadPlan) :
  marker_free (planNode parts cfg) = true.
Proof.
  unfold planNode. cbn [marker_free forallb].
  rewrite forallb_app.
  assert (Hs : forallb marker_free (map (samplerNode (commonHeaders cfg)) (endpoints cfg)) = true).
  { induction (endpoints cfg) as [| ep eps IH]; [reflexivity |].
    cbn [map forallb]. now rewrite marker_free_sampler, IH. }
  rewrite Hs. reflexivity.
Qed.

Lemma render_sampler (hs : list Header) (ep : Endpoint) :
  render_node (samplerNode hs ep) = samplerBlock hs ep.
Proof.
  unfold samplerNode, samplerBlock. cbn [render_node flat_map].
  now rewrite !app_nil_r, <- !app_assoc.
Qed.

Lemma render_plan (parts : BaseUrlParts) (cfg : LoadPlan) :
  render_node (planNode parts cfg)
  = (testPlanElement parts cfg ++ [hashTree_open]
     ++ threadGroupElement cfg ++ [hashTree_open]
     ++ flat_map (samplerBlock (commonHeaders cfg)) (endpoints cfg)
     ++ [resultCollector; hashTree_empty; hashTree_close; hashTree_close])%list.
Proof.
  unfold planNode. cbn [render_node flat_map]. rewrite app_nil_r.
  assert (Hc : forall (A B : Type) (l : list A) (x : A) (u v : B),
             match (l ++ [x])%list with [] => u | _ :: _ => v end = v)
    by (intros A B [| a l] x u v; reflexivity).
  rewrite Hc. rewrite flat_map_app. cbn [flat_map render_node app].
  assert (Hm : flat_map render_node (map (samplerNode (commonHeaders cfg)) (endpoints cfg))
               = flat_map (samplerBlock (commonHeaders cfg)) (endpoints cfg)).
  { induction (endpoints cfg) as [| ep eps IH]; [reflexivity |].
    cbn [map flat_map]. now rewrite render_sampler, IH. }
  rewrite Hm.
  repeat first [rewrite <- app_assoc | rewrite <- app_comm_cons].
  reflexivity.
Qed.

(** C7.  Whatever the plan and the endpoints, the serialized document is
    the container holding one children group, in it the plan node and its
    children group, in that the thread-group node and its children group,
    in that, per endpoint, a request node whose children group holds a
    header-manager node with the empty-children marker, then the one
    results-collector node with the empty-children marker; the markers of
    the array are balanced, each group closed after the groups opened
    inside it. *)
Theorem plan_nesting (URL : string -> option Url.t) (cfg : LoadPlan) :
  generateJMX URL cfg = String.concat LF (generateJMX_lines URL cfg)
  /\ generateJMX_lines URL cfg
     = (documentOpening ++ [hashTree_open]
        ++ render_node (planNode (parts_of URL cfg) cfg)
        ++ [hashTree_close; documentClosing])%list
  /\ planNode (parts_of URL cfg) cfg
     = Element (testPlanElement (parts_of URL cfg) cfg)
         [Element (threadGroupElement cfg)
            (map (fun ep => Element (samplerElement ep)
                              [Element (headerManagerElement (commonHeaders cfg)) []])
                 (endpoints cfg)
             ++ [Element [resultCollector] []])%list]
  /\ balanced_from 0 (generateJMX_lines URL cfg) = true.
Proof.
  assert (Hlines : generateJMX_lines URL cfg
     = (documentOpening ++ [hashTree_open]
        ++ render_node (planNode (parts_of URL cfg) cfg)
        ++ [hashTree_close; documentClosing])%list).
  { rewrite generateJMX_lines_eq, render_plan. rewrite <- !app_assoc. reflexivity. }
  split; [reflexivity |]. split; [exact Hlines |]. split; [reflexivity |].
  rewrite Hlines.
  rewrite (balanced_plain documentOpening eq_refl).
  cbn [app]. rewrite balanced_open.
  rewrite (balanced_render _ (marker_free_plan _ _)).
  reflexivity.
Qed.

(** ** The claims on the serializer: header injection *)

Lemma prefix_app (p s : string) : prefix p (p ++ s) = true.
Proof.
  induction p as [| c p IH]; [apply prefix_empty |].
  cbn [append prefix]. destruct (ascii_dec c c) as [_ | n]; [exact IH | now elim n].
Qed.

Lemma string_rev_app (a b : string) :
  string_rev (a ++ b) = string_rev b ++ string_rev a.
Proof.
  induction a as [| c a IH]; cbn [append string_rev].
  - clear. induction (string_rev b) as [| c r IH]; cbn; [reflexivity | now f_equal].
  - rewrite IH. clear.
    induction (string_rev b) as [| c' r IH]; cbn; [reflexivity | now f_equal].
Qed.

Lemma ends_with_app (suffix s : string) : ends_with suffix (s ++ suffix) = true.
Proof. unfold ends_with. rewrite string_rev_app. apply prefix_app. Qed.

Lemma is_header_open_line (h : Header) : is_header_open (header_open_line h) = true.
Proof.
  unfold is_header_open, header_open_line. rewrite prefix_app. cbn [andb].
  replace (xml "<elementProp name=`" ++ escapeXml (key h) ++ xml "` elementType=`Header`>")
    with ((xml "<elementProp name=`" ++ escapeXml (key h)) ++ xml "` elementType=`Header`>").
  - apply ends_with_app.
  - clear. induction (xml "<elementProp name=`") as [| c r IH]; cbn; [reflexivity | now f_equal].
Qed.

Lemma headers_of_element (h : Header) :
  filter is_header_open (headerElement h) = [header_open_line h].
Proof.
  unfold headerElement. cbn [filter].
  fold (header_open_line h). rewrite is_header_open_line. reflexivity.
Qed.

Lemma headers_of_elements (hs : list Header) :
  filter is_header_open (flat_map headerElement hs) = map header_open_line hs.
Proof.
  induction hs as [| h hs IH]; [reflexivity |].
  cbn [flat_map map]. rewrite filter_app, headers_of_element, IH. reflexivity.
Qed.

Lemma headers_of_block (hs : list Header) (ep : Endpoint) :
  filter is_header_open (samplerBlock hs ep)
  = map header_open_line (filter has_key hs).
Proof.
  unfold samplerBlock, headerManagerElement.
  rewrite !filter_app, headers_of_elements.
  replace (filter is_header_open (samplerElement ep)) with (@nil string) by reflexivity.
  cbn [filter app]. replace (is_header_open hashTree_open) with false by reflexivity.
  replace (is_header_open hashTree_empty) with false by reflexivity.
  replace (is_header_open hashTree_close) with false by reflexivity.
  cbn. now rewrite !app_nil_r.
Qed.

Lemma headers_of_blocks (hs : list Header) (eps : list Endpoint) :
  count_headers (flat_map (samplerBlock hs) eps)
  = (List.length eps * List.length (filter has_key hs))%nat.
Proof.
  unfold count_headers. induction eps as [| ep eps IH]; [reflexivity |].
  cbn [flat_map List.length]. rewrite filter_app, length_app, IH, headers_of_block.
  rewrite length_map. reflexivity.
Qed.

(** C5.  Whatever the header list, the block of every selected endpoint
    holds, in its header-manager element, one header element per entry
    whose key is not blank once trimmed, in the order of the list, the
    entries with a blank key leaving no trace; no header element stands
    outside these blocks.  With the headers [{key:"", value:"x"}] and
    [{key:"Auth", value:"Bearer t"}] and one endpoint, the output holds
    one header element, the one for ["Auth"]. *)
Theorem header_injection (URL : string -> option Url.t) (cfg : LoadPlan) :
  (exists opening closing,
      generateJMX_lines URL cfg
      = (opening ++ flat_map (samplerBlock (commonHeaders cfg)) (endpoints cfg)
         ++ closing)%list
      /\ filter is_header_open opening = []
      /\ filter is_header_open closing = [])
  /\ (forall ep,
        samplerBlock (commonHeaders cfg) ep
        = (samplerElement ep ++ [hashTree_open]
           ++ headerManagerElement (commonHeaders cfg)
           ++ [hashTree_empty; hashTree_close])%list)
  /\ headerManagerElement (commonHeaders cfg)
     = ([ xml "<HeaderManager guiclass=`HeaderPanel` testclass=`HeaderManager` testname=`HTTP Header Manager` enabled=`true`>";
          xml "<collectionProp name=`HeaderManager.headers`>" ]
        ++ flat_map headerElement
             (filter (fun h => negb (trim (key h) =? "")) (commonHeaders cfg))
        ++ [ xml "</collectionProp>"; xml "</HeaderManager>" ])%list
  /\ (forall ep,
        filter is_header_open (samplerBlock (commonHeaders cfg) ep)
        = map (fun h => xml "<elementProp name=`" ++ escapeXml (key h)
                        ++ xml "` elementType=`Header`>")
              (filter (fun h => negb (trim (key h) =? "")) (commonHeaders cfg)))
  /\ count_headers (generateJMX_lines URL cfg)
     = (List.length (endpoints cfg)
        * List.length (filter (fun h => negb (trim (key h) =? "")%string) (commonHeaders cfg)))%nat
  /\ filter is_header_open (generateJMX_lines URL sample_plan)
     = [xml "<elementProp name=`Auth` elementType=`Header`>"].
Proof.
  assert (Hshape : forall cfg',
    exists opening closing,
      generateJMX_lines URL cfg'
      = (opening ++ flat_map (samplerBlock (commonHeaders cfg')) (endpoints cfg')
         ++ closing)%list
      /\ filter is_header_open opening = []
      /\ filter is_header_open closing = []).
  { intros cfg'.
    exists (documentOpening ++ [hashTree_open]
            ++ testPlanElement (parts_of URL cfg') cfg' ++ [hashTree_open]
            ++ threadGroupElement cfg' ++ [hashTree_open])%list.
    exists [resultCollector; hashTree_empty;
            hashTree_close; hashTree_close; hashTree_close; documentClosing].
    split; [| split].
    - rewrite generateJMX_lines_eq.
      repeat first [rewrite <- app_assoc | rewrite <- app_comm_cons]. reflexivity.
    - rewrite !filter_app. reflexivity.
    - reflexivity. }
  assert (Hcount : forall cfg',
    filter is_header_open (generateJMX_lines URL cfg')
    = flat_map (fun _ : Endpoint => map header_open_line (filter has_key (commonHeaders cfg')))
               (endpoints cfg')).
  { intros cfg'. destruct (Hshape cfg') as [o [c [-> [Ho Hc]]]].
    rewrite !filter_app, Ho, Hc, app_nil_r. cbn [app].
    induction (endpoints cfg') as [| ep eps IH]; [reflexivity |].
    cbn [flat_map]. now rewrite filter_app, headers_of_block, IH. }
  split; [apply Hshape |].
  split; [reflexivity |]. split; [reflexivity |].
  split; [intros ep; apply headers_of_block |]. split.
  - unfold count_headers. rewrite Hcount.
    fold has_key. induction (endpoints cfg) as [| ep eps IH]; [reflexivity |].
    cbn [flat_map List.length]. now rewrite length_app, IH, length_map.
  - rewrite Hcount. reflexivity.
Qed.

(** ** The claims on the serializer: escaping *)

Lemma unescape_escape (s : string) : unescape_from 0 (escapeXml s) = s.
Proof.
  induction s as [| c s IH]; [reflexivity |].
  cbn [escapeXml]. unfold escape_char.
  destruct (Ascii.eqb_spec c "<") as [-> | Hlt];
    [cbn; rewrite prefix_empty; now rewrite IH |].
  destruct (Ascii.eqb_spec c ">") as [-> | Hgt];
    [cbn; rewrite prefix_empty; now rewrite IH |].
  destruct (Ascii.eqb_spec c "&") as [-> | Hamp];
    [cbn; rewrite prefix_empty; now rewrite IH |].
  destruct (Ascii.eqb_spec c "'") as [-> | Hapos];
    [cbn; rewrite prefix_empty; now rewrite IH |].
  destruct (Ascii.eqb_spec c "034") as [-> | Hquot];
    [cbn; rewrite prefix_empty; now rewrite IH |].
  cbn [append unescape_from prefix].
  destruct (ascii_dec "&" c) as [E | _]; [now elim Hamp |].
  now rewrite IH.
Qed.

Lemma delimiters_app (a b : string) :
  delimiters (a ++ b) = delimiters a ++ delimiters b.
Proof.
  induction a as [| c a IH]; [reflexivity |].
  cbn [append delimiters]. destruct (is_delimiter c); cbn [append]; now rewrite IH.
Qed.

Lemma delimiters_escapeXml (s : string) : delimiters (escapeXml s) = "".
Proof.
  induction s as [| c s IH]; [reflexivity |].
  cbn [escapeXml]. rewrite delimiters_app, IH. unfold escape_char.
  destruct (Ascii.eqb_spec c "<") as [-> | Hlt]; [reflexivity |].
  destruct (Ascii.eqb_spec c ">") as [-> | Hgt]; [reflexivity |].
  destruct (Ascii.eqb_spec c "&") as [-> | Hamp]; [reflexivity |].
  destruct (Ascii.eqb_spec c "'") as [-> | Hapos]; [reflexivity |].
  destruct (Ascii.eqb_spec c "034") as [-> | Hquot]; [reflexivity |].
  cbn [delimiters]. unfold is_delimiter.
  apply Ascii.eqb_neq in Hlt, Hgt, Hapos, Hquot.
  now rewrite Hlt, Hgt, Hapos, Hquot.
Qed.

Lemma prefix_app_r (p s t : string) :
  prefix p s = true -> prefix p (s ++ t) = true.
Proof.
  revert s. induction p as [| c p IH]; intros s H; [apply prefix_empty |].
  destruct s as [| c' s]; [discriminate H |].
  cbn [append prefix] in *. destruct (ascii_dec c c'); [now apply IH | discriminate H].
Qed.

Lemma starts_entity_app (s t : string) :
  starts_entity s = true -> starts_entity (s ++ t) = true.
Proof.
  unfold starts_entity. intros H.
  repeat (apply orb_true_iff in H; destruct H as [H | H]);
    rewrite (prefix_app_r _ _ t H); now rewrite ?orb_true_r.
Qed.

Lemma entities_app (a b : string) :
  entities_only a = true -> entities_only b = true ->
  entities_only (a ++ b) = true.
Proof.
  intros Ha Hb. induction a as [| c a IH]; [exact Hb |].
  cbn [append entities_only] in *. apply andb_true_iff in Ha. destruct Ha as [Hc Ha].
  rewrite (IH Ha), andb_true_r.
  destruct (c =? "&")%char; [now apply starts_entity_app | reflexivity].
Qed.

Lemma entities_escape_char (c : ascii) : entities_only (escape_char c) = true.
Proof.
  unfold escape_char.
  destruct (Ascii.eqb_spec c "<"); [reflexivity |].
  destruct (Ascii.eqb_spec c ">"); [reflexivity |].
  destruct (Ascii.eqb_spec c "&") as [| Hamp]; [reflexivity |].
  destruct (Ascii.eqb_spec c "'"); [reflexivity |].
  destruct (Ascii.eqb_spec c "034"); [reflexivity |].
  cbn [entities_only]. apply Ascii.eqb_neq in Hamp. now rewrite Hamp.
Qed.

Lemma entities_escapeXml (s : string) : entities_only (escapeXml s) = true.
Proof.
  induction s as [| c s IH]; [reflexivity |].
  cbn [escapeXml]. apply entities_app; [apply entities_escape_char | exact IH].
Qed.

Lemma digits_plain (d : Decimal.uint) :
  delimiters (NilEmpty.string_of_uint d) = ""
  /\ entities_only (NilEmpty.string_of_uint d) = true.
Proof. induction d; cbn; try (split; reflexivity); exact IHd. Qed.

Lemma number_plain (n : Z) :
  delimiters (Number_toString n) = ""
  /\ entities_only (Number_toString n) = true.
Proof.
  unfold Number_toString.
  assert (H : forall d, delimiters (NilZero.string_of_uint d) = ""
                        /\ entities_only (NilZero.string_of_uint d) = true).
  { intros d. pose proof (digits_plain d) as Hd.
    destruct d; exact Hd. }
  destruct (Z.to_int n) as [d | d]; cbn [NilZero.string_of_int]; [apply H |].
  cbn. apply H.
Qed.

Lemma delimiters_number (n : Z) : delimiters (Number_toString n) = "".
Proof. apply number_plain. Qed.

Lemma entities_number (n : Z) : entities_only (Number_toString n) = true.
Proof. apply number_plain. Qed.

Lemma append_empty_r (s : string) : s ++ "" = s.
Proof. induction s as [| c s IH]; cbn; [reflexivity | now f_equal]. Qed.

Lemma delimiters_concat (ls : list string) :
  delimiters (String.concat LF ls) = flatten (map delimiters ls).
Proof.
  induction ls as [| l ls IH]; [reflexivity |].
  destruct ls as [| l' ls].
  - cbn. now rewrite append_empty_r.
  - change (String.concat LF (l :: l' :: ls))
      with (l ++ LF ++ String.concat LF (l' :: ls)).
    rewrite !delimiters_app, IH. reflexivity.
Qed.

Lemma entities_concat (ls : list string) :
  Forall (fun l => entities_only l = true) ls ->
  entities_only (String.concat LF ls) = true.
Proof.
  induction 1 as [| l ls Hl Hls IH]; [reflexivity |].
  destruct ls as [| l' ls]; [exact Hl |].
  change (String.concat LF (l :: l' :: ls))
    with (l ++ LF ++ String.concat LF (l' :: ls)).
  apply entities_app; [exact Hl |]. apply entities_app; [reflexivity | exact IH].
Qed.

Ltac delimiters_of_lines :=
  cbn [map]; rewrite ?delimiters_app, ?delimiters_escapeXml, ?delimiters_number;
  reflexivity.

Lemma delimiters_headerElement (h h' : Header) :
  map delimiters (headerElement h) = map delimiters (headerElement h').
Proof. unfold headerElement. delimiters_of_lines. Qed.

Lemma delimiters_samplerElement (ep ep' : Endpoint) :
  map delimiters (samplerElement ep) = map delimiters (samplerElement ep').
Proof. unfold samplerElement. delimiters_of_lines. Qed.

Lemma delimiters_threadGroup (cfg cfg' : LoadPlan) :
  map delimiters (threadGroupElement cfg) = map delimiters (threadGroupElement cfg').
Proof. unfold threadGroupElement. delimiters_of_lines. Qed.

Lemma delimiters_testPlan (parts parts' : BaseUrlParts) (cfg cfg' : LoadPlan) :
  map delimiters (testPlanElement parts cfg)
  = map delimiters (testPlanElement parts' cfg').
Proof. unfold testPlanElement. cbv zeta. delimiters_of_lines. Qed.

Lemma delimiters_headers (hs hs' : list Header) :
  List.length hs = List.length hs' ->
  map delimiters (flat_map headerElement hs)
  = map delimiters (flat_map headerElement hs').
Proof.
  revert hs'. induction hs as [| h hs IH]; intros [| h' hs'] H;
    try discriminate H; [reflexivity |].
  cbn [flat_map]. rewrite !map_app, (delimiters_headerElement h h').
  f_equal. apply IH. now injection H.
Qed.

Lemma delimiters_block (hs hs' : list Header) (ep ep' : Endpoint) :
  List.length (filter has_key hs) = List.length (filter has_key hs') ->
  map delimiters (samplerBlock hs ep) = map delimiters (samplerBlock hs' ep').
Proof.
  intros H. unfold samplerBlock, headerManagerElement.
  rewrite !map_app, (delimiters_samplerElement ep ep'),
    (delimiters_headers _ _ H). reflexivity.
Qed.

Lemma delimiters_blocks (hs hs' : list Header) (eps eps' : list Endpoint) :
  List.length (filter has_key hs) = List.length (filter has_key hs') ->
  List.length eps = List.length eps' ->
  map delimiters (flat_map (samplerBlock hs) eps)
  = map delimiters (flat_map (samplerBlock hs') eps').
Proof.
  intros Hh. revert eps'. induction eps as [| ep eps IH]; intros [| ep' eps'] H;
    try discriminate H; [reflexivity |].
  cbn [flat_map]. rewrite !map_app, (delimiters_block hs hs' ep ep' Hh).
  f_equal. apply IH. now injection H.
Qed.

Lemma delimiters_document (URL URL' : string -> option Url.t) (cfg cfg' : LoadPlan) :
  List.length (filter has_key (commonHeaders cfg))
  = List.length (filter has_key (commonHeaders cfg')) ->
  List.length (endpoints cfg) = List.length (endpoints cfg') ->
  delimiters (generateJMX URL cfg) = delimiters (generateJMX URL' cfg').
Proof.
  intros Hh He. unfold generateJMX. rewrite !delimiters_concat. f_equal.
  rewrite !generateJMX_lines_eq, !map_app.
  rewrite (delimiters_testPlan (parts_of URL cfg) (parts_of URL' cfg') cfg cfg').
  rewrite (delimiters_threadGroup cfg cfg').
  rewrite (delimiters_blocks _ _ _ _ Hh He). reflexivity.
Qed.

Ltac entities_of_line :=
  first [ reflexivity
        | apply entities_escapeXml
        | apply entities_number
        | apply entities_app; entities_of_line ].

Ltac entities_of_lines := repeat (constructor; [entities_of_line |]); try constructor.

Lemma entities_headers (hs : list Header) :
  Forall (fun l => entities_only l = true) (flat_map headerElement hs).
Proof.
  induction hs as [| h hs IH]; [constructor |].
  cbn [flat_map]. apply Forall_app. split; [| exact IH].
  unfold headerElement. entities_of_lines.
Qed.

Lemma entities_block (hs : list Header) (ep : Endpoint) :
  Forall (fun l => entities_only l = true) (samplerBlock hs ep).
Proof.
  unfold samplerBlock, headerManagerElement.
  repeat (apply Forall_app; split); try apply entities_headers;
    try (unfold samplerElement); entities_of_lines.
Qed.

Lemma entities_document (URL : string -> option Url.t) (cfg : LoadPlan) :
  entities_only (generateJMX URL cfg) = true.
Proof.
  unfold generateJMX. apply entities_concat. rewrite generateJMX_lines_eq.
  repeat (apply Forall_app; split).
  - unfold documentOpening. entities_of_lines.
  - entities_of_lines.
  - unfold testPlanElement. cbv zeta. entities_of_lines.
  - entities_of_lines.
  - unfold threadGroupElement. entities_of_lines.
  - entities_of_lines.
  - induction (endpoints cfg) as [| ep eps IH]; [constructor |].
    cbn [flat_map]. apply Forall_app. split; [apply entities_block | exact IH].
  - entities_of_lines.
Qed.

Lemma keyed_blank_headers (k : nat) :
  filter has_key (repeat {| key := "k"; value := "" |} k)
  = repeat {| key := "k"; value := "" |} k.
Proof.
  induction k as [| k IH]; [reflexivity |].
  cbn [repeat filter].
  replace (has_key {| key := "k"; value := "" |}) with true by reflexivity.
  now rewrite IH.
Qed.



(** ** Well-formedness of the document *)














































(** ** The claims on the serializer: the path of the base URL *)

Lemma varBaseUrl_with (cfg : LoadPlan) (b : string) :
  b <> "" -> varBaseUrl_of (with_baseUrl cfg b) = b.
Proof.
  intros Hb. unfold varBaseUrl_of. cbn [with_baseUrl baseUrl].
  destruct (String.eqb_spec b ""); [contradiction | reflexivity].
Qed.

(** C10.  For base URLs that the platform parses, the split keeps the
    protocol, the host name and the port and drops the path: two base URLs
    that differ only in their path split alike, and the documents
    generated for them differ in one line only, the value of the BASE_URL
    variable, which holds the whole URL.  The request nodes are the same
    for every base URL: each addresses its request through the symbolic
    SERVER_NAME, PORT and PROTOCOL variables, and its path field holds the
    endpoint's own path and nothing of the base URL. *)
Theorem base_url_path_dropped
  (URL : string -> option Url.t) (cfg : LoadPlan) (b1 b2 : string) (u1 u2 : Url.t) :
  b1 <> "" -> b2 <> "" ->
  URL b1 = Some u1 -> URL b2 = Some u2 ->
  Url.protocol u1 = Url.protocol u2 ->
  Url.hostname u1 = Url.hostname u2 ->
  Url.port u1 = Url.port u2 ->
  splitBaseUrl URL b1 = splitBaseUrl URL b2
  /\ (forall i, i <> 12%nat ->
        nth_error (generateJMX_lines URL (with_baseUrl cfg b1)) i
        = nth_error (generateJMX_lines URL (with_baseUrl cfg b2)) i)
  /\ nth_error (generateJMX_lines URL (with_baseUrl cfg b1)) 12
     = Some (xml "<stringProp name=`Argument.value`>" ++ escapeXml b1
             ++ xml "</stringProp>")
  /\ (exists opening closing,
        generateJMX_lines URL (with_baseUrl cfg b1)
        = (opening ++ flat_map (samplerBlock (commonHeaders cfg)) (endpoints cfg)
           ++ closing)%list
        /\ filter is_sampler_open opening = []
        /\ filter is_sampler_open closing = [])
  /\ (forall hs ep,
        filter is_sampler_open (samplerBlock hs ep)
        = [xml "<HTTPSamplerProxy guiclass=`HttpTestSampleGui` testclass=`HTTPSamplerProxy` testname=`"
           ++ escapeXml (method ep ++ " " ++ path ep) ++ xml "` enabled=`true`>"]
        /\ nth_error (samplerBlock hs ep) 5
           = Some (xml "<stringProp name=`HTTPSampler.domain`>${SERVER_NAME}</stringProp>")
        /\ nth_error (samplerBlock hs ep) 6
           = Some (xml "<stringProp name=`HTTPSampler.port`>${PORT}</stringProp>")
        /\ nth_error (samplerBlock hs ep) 7
           = Some (xml "<stringProp name=`HTTPSampler.protocol`>${PROTOCOL}</stringProp>")
        /\ nth_error (samplerBlock hs ep) 8
           = Some (xml "<stringProp name=`HTTPSampler.path`>" ++ escapeXml (path ep)
                   ++ xml "</stringProp>")).
Proof.
  intros Hb1 Hb2 H1 H2 Hpr Hho Hpo.
  assert (Hsplit : splitBaseUrl URL b1 = splitBaseUrl URL b2).
  { unfold splitBaseUrl. now rewrite H1, H2, Hpr, Hho, Hpo. }
  split; [exact Hsplit |].
  assert (Hparts : parts_of URL (with_baseUrl cfg b1) = parts_of URL (with_baseUrl cfg b2)).
  { unfold parts_of. now rewrite !varBaseUrl_with. }
  split; [| split; [| split]].
  - intros i Hi. rewrite !generateJMX_lines_eq, <- Hparts.
    unfold testPlanElement, documentOpening. cbv zeta.
    cbn [app with_baseUrl title commonHeaders endpoints].
    do 12 (destruct i as [| i]; [reflexivity |]).
    destruct i as [| i]; [now elim Hi | reflexivity].
  - rewrite generateJMX_lines_eq. unfold testPlanElement, documentOpening. cbv zeta.
    cbn [app nth_error]. now rewrite varBaseUrl_with.
  - exists (documentOpening ++ [hashTree_open]
            ++ testPlanElement (parts_of URL (with_baseUrl cfg b1)) (with_baseUrl cfg b1)
            ++ [hashTree_open]
            ++ threadGroupElement (with_baseUrl cfg b1) ++ [hashTree_open])%list.
    exists [resultCollector; hashTree_empty;
            hashTree_close; hashTree_close; hashTree_close; documentClosing].
    split; [| split].
    + rewrite generateJMX_lines_eq.
      repeat first [rewrite <- app_assoc | rewrite <- app_comm_cons]. reflexivity.
    + rewrite !filter_app. reflexivity.
    + reflexivity.
  - intros hs ep. split; [| repeat split].
    unfold samplerBlock, headerManagerElement. rewrite !filter_app.
    assert (Hh : filter is_sampler_open (flat_map headerElement (filter has_key hs)) = []).
    { induction (filter has_key hs) as [| h l IH]; [reflexivity |].
      cbn [flat_map]. rewrite filter_app, IH. reflexivity. }
    rewrite Hh. reflexivity.
Qed.

Lemma base_url_path_dropped_witness :
  URL_sample "https://api.x.com/v1"
  = Some {| Url.protocol := "https:"; Url.hostname := "api.x.com";
            Url.port := ""; Url.pathname := "/v1" |}
  /\ URL_sample "https://api.x.com/v2"
     = Some {| Url.protocol := "https:"; Url.hostname := "api.x.com";
               Url.port := ""; Url.pathname := "/v2" |}
  /\ splitBaseUrl URL_sample "https://api.x.com/v1"
     = splitBaseUrl URL_sample "https://api.x.com/v2"
  /\ splitBaseUrl URL_sample "https://api.x.com/v1"
     = {| protocol := "https"; host := "api.x.com"; port := "443" |}.
Proof.
  split; [reflexivity |]. split; [reflexivity |]. split; [| reflexivity].
  refine (proj1 (base_url_path_dropped URL_sample sample_plan
                   "https://api.x.com/v1" "https://api.x.com/v2" _ _
                   _ _ eq_refl eq_refl eq_refl eq_refl eq_refl));
    discriminate.
Defined.

(** * Further properties of the code *)

(** ** The extractor on every document *)

Lemma forallb_false_exists {A : Type} (f : A -> bool) (l : list A) :
  forallb f l = false <-> exists x, In x l /\ f x = false.
Proof.
  induction l as [| a l IH]; cbn [forallb In].
  - split; [discriminate | intros [x [[] _]]].
  - rewrite andb_false_iff, IH. split.
    + intros [Ha | [x [Hx Hf]]]; [exists a; auto | exists x; auto].
    + intros [x [[<- | Hx] Hf]]; [now left | right; now exists x].
Qed.

(** X1.  The extractor throws on exactly these documents: a truthy
    document whose [openapi] is present and not a string, or one of whose
    path entries is [null], or in which a kept method entry has a
    [parameters] without [slice] (present and neither an array nor a
    string).  On every other document it returns. *)
Theorem extractor_throws_exactly (doc : JsValue) :
  parseOpenAPI doc = Throw TypeError
  <-> truthy doc = true
      /\ (openapi_ok doc = false
          \/ exists p, In p (keys (paths_of doc))
               /\ (nullish (prop (paths_of doc) p) = true
                   \/ exists k, In k (keys (prop (paths_of doc) p))
                        /\ is_structured (prop (prop (paths_of doc) p) k) = true
                        /\ sliceable (prop (prop (paths_of doc) p) k) = false)).
Proof.
  rewrite parseOpenAPI_eq. unfold well_shaped.
  destruct (truthy doc); cbn [negb orb].
  - destruct (openapi_ok doc); cbn [andb].
    + destruct (forallb _ (keys (paths_of doc))) eqn:E.
      * split; [discriminate |]. intros [_ [H | [p [Hp H]]]]; [discriminate |].
        rewrite forallb_forall in E. specialize (E p Hp).
        apply andb_true_iff in E. destruct E as [En Em].
        destruct H as [H | [k [Hk [Hs Hsl]]]].
        -- now rewrite H in En.
        -- unfold methods_ok in Em. rewrite forallb_forall in Em.
           specialize (Em k Hk). now rewrite Hs, Hsl in Em.
      * split; [| reflexivity]. intros _. split; [reflexivity |]. right.
        apply forallb_false_exists in E. destruct E as [p [Hp E]].
        exists p. split; [exact Hp |].
        apply andb_false_iff in E. destruct E as [E | E].
        -- left. now apply negb_false_iff in E.
        -- right. unfold methods_ok in E. apply forallb_false_exists in E.
           destruct E as [k [Hk E]]. exists k. split; [exact Hk |].
           apply orb_false_iff in E. destruct E as [E1 E2].
           now apply negb_false_iff in E1.
    + split; [| reflexivity]. intros _. split; [reflexivity | now left].
  - split; [discriminate | intros [H _]; discriminate].
Qed.

Lemma extractor_throws_exactly_witness :
  parseOpenAPI (JObj [("paths", JObj [("/users", JNull)])]) = Throw TypeError
  /\ truthy (JObj [("paths", JObj [("/users", JNull)])]) = true.
Proof.
  split; [reflexivity |].
  exact (proj1 (proj1 (extractor_throws_exactly
                         (JObj [("paths", JObj [("/users", JNull)])])) eq_refl)).
Defined.

(** X2.  In every returned descriptor, [parameters] is the operation's own
    [parameters] when it has one and the empty list when it has none,
    hence never [null] nor [undefined]; [description] is the operation's
    [description], absent when the operation has none. *)
Theorem parameters_and_description (doc : JsValue) (eps : list Endpoint) :
  parseOpenAPI doc = Return eps ->
  Forall (fun e =>
            parameters e = (if nullish (prop (rawOperation e) "parameters")
                            then JArr []
                            else prop (rawOperation e) "parameters")
            /\ nullish (parameters e) = false
            /\ description e = prop (rawOperation e) "description") eps.
Proof.
  intros H. apply parseOpenAPI_returns in H. subst eps.
  apply Forall_map_descriptor. intros [[p k] m] _. cbn. unfold or_else.
  repeat split. destruct (nullish (prop m "parameters")) eqn:E; [reflexivity | exact E].
Qed.

Lemma parameters_and_description_witness :
  exists eps,
    parseOpenAPI petstore = Return eps
    /\ Forall (fun e => nullish (parameters e) = false) eps.
Proof.
  exists (map (descriptor true) (retained petstore)).
  split; [reflexivity |].
  eapply Forall_impl; [| exact (parameters_and_description petstore _ eq_refl)].
  intros e [_ [H _]]. exact H.
Defined.

(** ** The resolver on every document *)

Lemma resolved_truthy_helper (override : string) (doc : JsValue) :
  truthy (resolveBaseUrl override doc) = true.
Proof.
  unfold resolveBaseUrl, js_or. cbn [truthy].
  destruct (override =? "") eqn:E; cbn [negb]; cbv iota.
  - destruct (truthy (detectBaseUrl doc)) eqn:D; cbv iota; [exact D | reflexivity].
  - cbn [truthy]. rewrite E. cbn [negb]. cbv iota. cbn [truthy]. now rewrite E.
Qed.

(** X3.  Whatever the document, ill-typed or [null], the base URL handed
    to [generateJMX] is truthy (never empty, never [null]); a non-empty
    override is returned as it is, and with an empty override a falsy
    detection gives the placeholder. *)
Theorem resolved_base_url_truthy (override : string) (doc : JsValue) :
  truthy (resolveBaseUrl override doc) = true
  /\ ((override =? "") = false -> resolveBaseUrl override doc = JStr override)
  /\ ((override =? "") = true -> truthy (detectBaseUrl doc) = false ->
      resolveBaseUrl override doc = JStr "${BASE_URL}")
  /\ ((override =? "") = true -> truthy (detectBaseUrl doc) = true ->
      resolveBaseUrl override doc = detectBaseUrl doc).
Proof.
  unfold resolveBaseUrl, js_or. cbn [truthy].
  destruct (override =? "") eqn:E; cbn [negb].
  - cbv iota. destruct (truthy (detectBaseUrl doc)) eqn:D; cbv iota; rewrite ?D.
    + repeat split; intros; try reflexivity; discriminate.
    + repeat split; intros; try reflexivity; discriminate.
  - cbv iota. cbn [truthy]. rewrite E. cbn [negb]. cbv iota. cbn [truthy]. rewrite E.
    repeat split; intros; try reflexivity; discriminate.
Qed.

Lemma resolved_base_url_truthy_witness :
  resolveBaseUrl "http://localhost:5000" JNull = JStr "http://localhost:5000"
  /\ resolveBaseUrl "" JNull = JStr "${BASE_URL}".
Proof.
  split.
  - exact (proj1 (proj2 (resolved_base_url_truthy "http://localhost:5000" JNull)) eq_refl).
  - exact (proj1 (proj2 (proj2 (resolved_base_url_truthy "" JNull))) eq_refl eq_refl).
Defined.

(** X4.  A non-empty [servers] array hides [host] altogether: the detection
    is the [url] of its first entry, whatever that is, and [null] when
    the first entry is itself [null] (the exception is caught); [host],
    [schemes] and [basePath] are not read. *)
Theorem servers_hide_host (doc v : JsValue) (vs : list JsValue) :
  nullish doc = false ->
  prop doc "servers" = JArr (v :: vs) ->
  detectBaseUrl doc = (if nullish v then JNull else prop v "url").
Proof.
  intros Hd Hs. unfold detectBaseUrl. rewrite !(Get_prop _ _ Hd), Hs.
  cbn [bind nullish]. rewrite Get_length_array. cbn [bind List.length].
  rewrite Nat2Z.inj_succ.
  replace (truthy (JNum (Z.succ (Z.of_nat (List.length vs))))) with true
    by (cbn; destruct (Z.eqb_spec (Z.succ (Z.of_nat (List.length vs))) 0); [lia | reflexivity]).
  rewrite Get_first_array. cbn [bind].
  destruct (nullish v) eqn:Hv.
  - unfold Get. now rewrite Hv.
  - now rewrite (Get_prop _ _ Hv).
Qed.

Lemma servers_hide_host_witness :
  detectBaseUrl (JObj [("servers", JArr [JNull]); ("host", JStr "api.x.com")]) = JNull
  /\ resolveBaseUrl "" (JObj [("servers", JArr [JObj []]); ("host", JStr "api.x.com")])
     = JStr "${BASE_URL}".
Proof.
  split.
  - exact (servers_hide_host
             (JObj [("servers", JArr [JNull]); ("host", JStr "api.x.com")])
             JNull [] eq_refl eq_refl).
  - unfold resolveBaseUrl.
    rewrite (servers_hide_host
               (JObj [("servers", JArr [JObj []]); ("host", JStr "api.x.com")])
               (JObj []) [] eq_refl eq_refl).
    reflexivity.
Defined.

(** ** The serializer beyond the claims *)

Lemma varBaseUrl_normal (cfg : LoadPlan) :
  varBaseUrl_of (normal_plan cfg) = varBaseUrl_of cfg.
Proof.
  unfold varBaseUrl_of, normal_plan. cbn [baseUrl].
  destruct (baseUrl cfg =? "") eqn:E; cbn [negb]; [reflexivity | now rewrite E].
Qed.

Lemma filter_idempotent {A : Type} (f : A -> bool) (l : list A) :
  filter f (filter f l) = filter f l.
Proof.
  induction l as [| a l IH]; [reflexivity |].
  cbn [filter]. destruct (f a) eqn:E; [| exact IH].
  cbn [filter]. now rewrite E, IH.
Qed.

Lemma samplerBlock_kept (hs : list Header) (ep : Endpoint) :
  samplerBlock (filter has_key hs) ep = samplerBlock hs ep.
Proof.
  unfold samplerBlock, headerManagerElement. now rewrite filter_idempotent.
Qed.

Lemma lines_of_normal_plan (URL : string -> option Url.t) (c : LoadPlan) :
  generateJMX_lines URL c = generateJMX_lines URL (normal_plan c).
Proof.
  rewrite !generateJMX_lines_eq.
  unfold parts_of. rewrite varBaseUrl_normal.
  unfold testPlanElement, threadGroupElement. cbv zeta. rewrite varBaseUrl_normal.
  cbn [normal_plan title threads rampTime duration endpoints commonHeaders].
  replace (flat_map (samplerBlock (filter has_key (commonHeaders c))) (endpoints c))
    with (flat_map (samplerBlock (commonHeaders c)) (endpoints c))
    by (apply flat_map_ext; intros ep; symmetry; apply samplerBlock_kept).
  destruct (title c =? "") eqn:E; cbn [negb]; [reflexivity | now rewrite E].
Qed.

Lemma same_normal_same_document (URL : string -> option Url.t) (c1 c2 : LoadPlan) :
  normal_plan c1 = normal_plan c2 -> generateJMX URL c1 = generateJMX URL c2.
Proof.
  intros H. unfold generateJMX.
  now rewrite (lines_of_normal_plan URL c1), (lines_of_normal_plan URL c2), H.
Qed.

(** X5.  The document depends on the plan only through its normal form:
    an empty title stands for ["Test Plan"], an empty base URL for
    ["${BASE_URL}"], and headers whose key is blank can be dropped or
    added anywhere without changing a character of it. *)
Theorem document_of_normal_plan (URL : string -> option Url.t) (cfg : LoadPlan) :
  generateJMX URL cfg = generateJMX URL (normal_plan cfg)
  /\ normal_plan (normal_plan cfg) = normal_plan cfg
  /\ (forall c2, normal_plan cfg = normal_plan c2 ->
                 generateJMX URL cfg = generateJMX URL c2).
Proof.
  split; [unfold generateJMX; now rewrite <- lines_of_normal_plan |]. split.
  - unfold normal_plan. cbn [title baseUrl threads rampTime duration endpoints commonHeaders].
    rewrite filter_idempotent.
    destruct (title cfg =? "") eqn:Et; destruct (baseUrl cfg =? "") eqn:Eb;
      cbn [negb]; rewrite ?Et, ?Eb; reflexivity.
  - intros c2. apply same_normal_same_document.
Qed.

Lemma document_of_normal_plan_witness :
  generateJMX URL_sample sample_plan
  = generateJMX URL_sample
      {| title := "Generated Test Plan"; baseUrl := "https://api.x.com/v1";
         threads := 10; rampTime := 1; duration := 60;
         endpoints := [endpoint_of "GET" "/users"];
         commonHeaders := [ {| key := "Auth"; value := "Bearer t" |} ] |}.
Proof.
  exact (proj2 (proj2 (document_of_normal_plan URL_sample sample_plan)) _ eq_refl).
Defined.

Lemma trimStart_empty (s : string) :
  (trimStart s =? "") = forallb is_space (list_ascii_of_string s).
Proof.
  induction s as [| c s IH]; [reflexivity |].
  cbn [trimStart list_ascii_of_string forallb].
  destruct (is_space c); [exact IH | reflexivity].
Qed.

Lemma trimEnd_empty (s : string) :
  (trimEnd s =? "") = forallb is_space (list_ascii_of_string s).
Proof.
  induction s as [| c s IH]; [reflexivity |].
  cbn [trimEnd list_ascii_of_string forallb]. rewrite IH.
  destruct (is_space c); cbn [andb]; [| reflexivity].
  destruct (forallb is_space (list_ascii_of_string s)); reflexivity.
Qed.

Lemma trimStart_spaces (s : string) :
  forallb is_space (list_ascii_of_string (trimStart s))
  = forallb is_space (list_ascii_of_string s).
Proof.
  induction s as [| c s IH]; [reflexivity |].
  cbn [trimStart]. destruct (is_space c) eqn:E.
  - cbn [list_ascii_of_string forallb]. now rewrite E.
  - reflexivity.
Qed.

(** X6.  A header entry is kept exactly when its key holds a character
    that is not white space: keys that are empty or made only of the
    white space that [trim] strips (tab, line feed, vertical tab, form
    feed, carriage return, space, no-break space) are the blank ones. *)
Theorem kept_header_keys (h : Header) :
  has_key h = existsb (fun c => negb (is_space c)) (list_ascii_of_string (key h)).
Proof.
  unfold has_key, trim. rewrite trimEnd_empty, trimStart_spaces.
  induction (list_ascii_of_string (key h)) as [| c l IH]; [reflexivity |].
  cbn [forallb existsb]. rewrite <- IH. now rewrite negb_andb.
Qed.

Lemma kept_header_keys_witness :
  has_key {| key := String "160" (String "009" ""); value := "v" |} = false
  /\ has_key {| key := String "133" ""; value := "v" |} = true
  /\ has_key {| key := " x "; value := "v" |} = true.
Proof.
  split; [| split]; rewrite kept_header_keys; reflexivity.
Defined.

Lemma no_sampler_in_headers (hs : list Header) :
  filter is_sampler_open (flat_map headerElement hs) = []
  /\ filter is_path_line (flat_map headerElement hs) = []
  /\ filter is_method_line (flat_map headerElement hs) = [].
Proof.
  induction hs as [| h l [IH1 [IH2 IH3]]]; [repeat split |].
  cbn [flat_map]. rewrite !filter_app, IH1, IH2, IH3. repeat split.
Qed.

Lemma filter_skip {A : Type} (f : A -> bool) (a : A) (l : list A) :
  f a = false -> filter f (a :: l) = filter f l.
Proof. intros H. cbn [filter]. now rewrite H. Qed.

Lemma filter_keep {A : Type} (f : A -> bool) (a : A) (l : list A) :
  f a = true -> filter f (a :: l) = a :: filter f l.
Proof. intros H. cbn [filter]. now rewrite H. Qed.

Ltac filter_lines :=
  repeat first [ rewrite filter_skip by reflexivity
               | rewrite filter_keep by first [reflexivity | apply prefix_app] ].

Lemma readers_of_element (ep : Endpoint) :
  filter is_sampler_open (samplerElement ep)
  = [xml "<HTTPSamplerProxy guiclass=`HttpTestSampleGui` testclass=`HTTPSamplerProxy` testname=`"
     ++ escapeXml (method ep ++ " " ++ path ep) ++ xml "` enabled=`true`>"]
  /\ filter is_path_line (samplerElement ep)
     = [xml "<stringProp name=`HTTPSampler.path`>" ++ escapeXml (path ep)
        ++ xml "</stringProp>"]
  /\ filter is_method_line (samplerElement ep)
     = [xml "<stringProp name=`HTTPSampler.method`>" ++ escapeXml (method ep)
        ++ xml "</stringProp>"].
Proof.
  unfold samplerElement. repeat split; filter_lines; reflexivity.
Qed.

Lemma readers_of_block (hs : list Header) (ep : Endpoint) :
  filter is_sampler_open (samplerBlock hs ep)
  = [xml "<HTTPSamplerProxy guiclass=`HttpTestSampleGui` testclass=`HTTPSamplerProxy` testname=`"
     ++ escapeXml (method ep ++ " " ++ path ep) ++ xml "` enabled=`true`>"]
  /\ filter is_path_line (samplerBlock hs ep)
     = [xml "<stringProp name=`HTTPSampler.path`>" ++ escapeXml (path ep)
        ++ xml "</stringProp>"]
  /\ filter is_method_line (samplerBlock hs ep)
     = [xml "<stringProp name=`HTTPSampler.method`>" ++ escapeXml (method ep)
        ++ xml "</stringProp>"].
Proof.
  destruct (no_sampler_in_headers (filter has_key hs)) as [H1 [H2 H3]].
  destruct (readers_of_element ep) as [E1 [E2 E3]].
  unfold samplerBlock, headerManagerElement.
  rewrite !filter_app, H1, H2, H3, E1, E2, E3. repeat split.
Qed.

Lemma document_opening_readers (parts : BaseUrlParts) (cfg : LoadPlan) :
  let opening := (documentOpening ++ [hashTree_open] ++ testPlanElement parts cfg
                  ++ [hashTree_open] ++ threadGroupElement cfg ++ [hashTree_open])%list in
  filter is_sampler_open opening = []
  /\ filter is_path_line opening = []
  /\ filter is_method_line opening = [].
Proof. cbv zeta. rewrite !filter_app. repeat split. Qed.

(** X7.  The request nodes of the document are those of the selected
    endpoints, one each and in the order of the selection: the opening
    lines of the request nodes carry the escaped names ["METHOD path"] in
    that order, and so do the path fields and the method fields, with the
    endpoint's own path and method. *)
Theorem request_nodes_follow_endpoints (URL : string -> option Url.t) (cfg : LoadPlan) :
  filter is_sampler_open (generateJMX_lines URL cfg)
  = map (fun ep =>
           xml "<HTTPSamplerProxy guiclass=`HttpTestSampleGui` testclass=`HTTPSamplerProxy` testname=`"
           ++ escapeXml (method ep ++ " " ++ path ep) ++ xml "` enabled=`true`>")
        (endpoints cfg)
  /\ filter is_path_line (generateJMX_lines URL cfg)
     = map (fun ep => xml "<stringProp name=`HTTPSampler.path`>"
                      ++ escapeXml (path ep) ++ xml "</stringProp>")
           (endpoints cfg)
  /\ filter is_method_line (generateJMX_lines URL cfg)
     = map (fun ep => xml "<stringProp name=`HTTPSampler.method`>"
                      ++ escapeXml (method ep) ++ xml "</stringProp>")
           (endpoints cfg).
Proof.
  rewrite generateJMX_lines_eq.
  destruct (document_opening_readers (parts_of URL cfg) cfg) as [O1 [O2 O3]].
  cbv zeta in O1, O2, O3.
  replace (documentOpening ++ [hashTree_open] ++ testPlanElement (parts_of URL cfg) cfg
           ++ [hashTree_open] ++ threadGroupElement cfg ++ [hashTree_open]
           ++ flat_map (samplerBlock (commonHeaders cfg)) (endpoints cfg)
           ++ [resultCollector; hashTree_empty; hashTree_close; hashTree_close;
               hashTree_close; documentClosing])%list
    with ((documentOpening ++ [hashTree_open] ++ testPlanElement (parts_of URL cfg) cfg
           ++ [hashTree_open] ++ threadGroupElement cfg ++ [hashTree_open])
          ++ flat_map (samplerBlock (commonHeaders cfg)) (endpoints cfg)
          ++ [resultCollector; hashTree_empty; hashTree_close; hashTree_close;
              hashTree_close; documentClosing])%list
    by (repeat first [rewrite <- app_assoc | rewrite <- app_comm_cons]; reflexivity).
  rewrite !(filter_app _ (_ ++ _ ++ _ ++ _ ++ _ ++ _)%list), O1, O2, O3.
  rewrite !filter_app.
  replace (filter is_sampler_open [resultCollector; hashTree_empty; hashTree_close;
                                   hashTree_close; hashTree_close; documentClosing])
    with (@nil string) by reflexivity.
  replace (filter is_path_line [resultCollector; hashTree_empty; hashTree_close;
                                hashTree_close; hashTree_close; documentClosing])
    with (@nil string) by reflexivity.
  replace (filter is_method_line [resultCollector; hashTree_empty; hashTree_close;
                                  hashTree_close; hashTree_close; documentClosing])
    with (@nil string) by reflexivity.
  rewrite !app_nil_r. cbn [app].
  repeat split; induction (endpoints cfg) as [| ep eps IH]; try reflexivity;
    cbn [flat_map map]; rewrite filter_app, IH;
    destruct (readers_of_block (commonHeaders cfg) ep) as [E1 [E2 E3]];
    rewrite ?E1, ?E2, ?E3; reflexivity.
Qed.

Lemma length_flat_headers (hs : list Header) :
  List.length (flat_map headerElement hs) = (4 * List.length hs)%nat.
Proof.
  induction hs as [| h l IH]; [reflexivity |].
  cbn [flat_map]. rewrite length_app, IH. cbn [List.length headerElement]. lia.
Qed.

(** X8.  The array has 54 lines for the frame of the plan and, for each
    endpoint, 22 lines and 4 more per kept header: its length is
    [54 + n * (22 + 4 * k)] for [n] endpoints and [k] kept headers. *)
Theorem document_line_count (URL : string -> option Url.t) (cfg : LoadPlan) :
  List.length (generateJMX_lines URL cfg)
  = (54 + List.length (endpoints cfg)
          * (22 + 4 * List.length (filter has_key (commonHeaders cfg))))%nat.
Proof.
  rewrite generateJMX_lines_eq. rewrite !length_app.
  assert (Hb : forall eps,
             List.length (flat_map (samplerBlock (commonHeaders cfg)) eps)
             = (List.length eps
                * (22 + 4 * List.length (filter has_key (commonHeaders cfg))))%nat).
  { induction eps as [| ep eps IH]; [reflexivity |].
    cbn [flat_map]. rewrite length_app, IH.
    unfold samplerBlock, headerManagerElement.
    rewrite !length_app, length_flat_headers. cbn [List.length samplerElement]. lia. }
  rewrite Hb. cbn [List.length documentOpening testPlanElement threadGroupElement]. lia.
Qed.

(** ** [escapeXml] and [splitBaseUrl] *)

Lemma length_string_app (a b : string) :
  String.length (a ++ b) = (String.length a + String.length b)%nat.
Proof. induction a as [| c a IH]; cbn; [reflexivity | now rewrite IH]. Qed.

Lemma escape_char_cases (c : ascii) :
  (is_delimiter c || (c =? "&")%char = false /\ escape_char c = String c EmptyString)
  \/ (is_delimiter c || (c =? "&")%char = true
      /\ (1 < String.length (escape_char c))%nat).
Proof.
  unfold escape_char, is_delimiter.
  destruct (c =? "<")%char; [right; split; [reflexivity | cbn; lia] |].
  destruct (c =? ">")%char; [right; split; [reflexivity | cbn; lia] |].
  destruct (c =? "&")%char;
    [right; split; [now rewrite !orb_true_r | cbn; lia] |].
  destruct (c =? "'")%char; [right; split; [reflexivity | cbn; lia] |].
  destruct (c =? "034")%char; [right; split; [reflexivity | cbn; lia] |].
  left. split; reflexivity.
Qed.

Lemma has_metachar_cons (c : ascii) (s : string) :
  has_metachar (String c s) = (is_delimiter c || (c =? "&")%char) || has_metachar s.
Proof.
  unfold has_metachar, is_delimiter. cbn [has_char].
  rewrite (Ascii.eqb_sym "<" c), (Ascii.eqb_sym ">" c), (Ascii.eqb_sym "&" c),
    (Ascii.eqb_sym "'" c), (Ascii.eqb_sym "034" c).
  destruct (c =? "<")%char, (c =? ">")%char, (c =? "&")%char, (c =? "'")%char,
    (c =? "034")%char, (has_char "<" s), (has_char ">" s), (has_char "&" s),
    (has_char "'" s), (has_char "034" s); reflexivity.
Qed.

(** X9.  [escapeXml] never shortens a text, leaves a text without
    metacharacter as it is, and lengthens every other text; applied to
    two texts it gives equal results only when they are equal, and it
    escapes a concatenation piece by piece. *)
Theorem escapeXml_growth :
  (forall s, (String.length s <= String.length (escapeXml s))%nat)
  /\ (forall s, has_metachar s = false <-> escapeXml s = s)
  /\ (forall s t, escapeXml s = escapeXml t -> s = t)
  /\ (forall s t, escapeXml (s ++ t) = escapeXml s ++ escapeXml t).
Proof.
  assert (Hlen : forall s, (String.length s <= String.length (escapeXml s))%nat).
  { induction s as [| c s IH]; [cbn; lia |].
    cbn [escapeXml]. rewrite length_string_app. cbn [String.length].
    destruct (escape_char_cases c) as [[_ ->] | [_ H]]; cbn [String.length]; lia. }
  assert (Hgrow : forall s, has_metachar s = true ->
                            (String.length s < String.length (escapeXml s))%nat).
  { induction s as [| c s IH]; [discriminate |].
    rewrite has_metachar_cons. intros H.
    cbn [escapeXml]. rewrite length_string_app. cbn [String.length].
    pose proof (Hlen s) as Hs.
    destruct (escape_char_cases c) as [[Hc ->] | [_ Hc]].
    - rewrite Hc in H. cbn [orb] in H. specialize (IH H). cbn [String.length]. lia.
    - lia. }
  split; [exact Hlen |]. split; [| split].
  - intros s. split.
    + induction s as [| c s IH]; [reflexivity |].
      rewrite has_metachar_cons. intros H. apply orb_false_iff in H.
      destruct H as [Hc Hs]. cbn [escapeXml].
      destruct (escape_char_cases c) as [[_ ->] | [Hc' _]];
        [| rewrite Hc in Hc'; discriminate].
      cbn [append]. now rewrite (IH Hs).
    + intros H. destruct (has_metachar s) eqn:E; [| reflexivity].
      apply Hgrow in E. rewrite H in E. lia.
  - intros s t H. rewrite <- (unescape_escape s), <- (unescape_escape t). now rewrite H.
  - intros s t. induction s as [| c s IH]; [reflexivity |].
    cbn [append escapeXml]. rewrite IH.
    clear. induction (escape_char c) as [| a r IHr]; cbn; [reflexivity | now rewrite IHr].
Qed.

Lemma escapeXml_growth_witness :
  has_metachar "/users/{id}" = false /\ escapeXml "/users/{id}" = "/users/{id}".
Proof.
  split; [reflexivity |].
  exact (proj1 (proj1 (proj2 escapeXml_growth) "/users/{id}") eq_refl).
Defined.

(** X10.  The port of a split is never empty: it is the port the platform
    reports, or ["443"] or ["80"], or the placeholder. *)
Theorem split_port_never_empty (URL : string -> option Url.t) (url : string) :
  (port (splitBaseUrl URL url) =? "") = false.
Proof.
  unfold splitBaseUrl. destruct (URL url) as [u |]; [| reflexivity].
  cbn [port]. destruct (Url.port u =? "") eqn:E; cbn [negb]; [| exact E].
  destruct (replace ":" "" (Url.protocol u) =? "https"); reflexivity.
Qed.

(** ** [extractBaseUrl] *)

(** X11.  The automatic base URL is empty when the address of the document
    does not parse.  When it parses, it is protocol, two slashes and host
    name, with a colon and the port only when the platform reports a port;
    it is never empty, so, left as the override, it is the base URL of the
    plan whatever the document lists under [servers] or [host]. *)
Theorem automatic_base_url (URL : string -> option Url.t) (swaggerUrl : string) :
  (URL swaggerUrl = None -> extractBaseUrl URL swaggerUrl = "")
  /\ (forall u, URL swaggerUrl = Some u ->
        extractBaseUrl URL swaggerUrl
        = Url.protocol u ++ "//" ++ Url.hostname u
          ++ (if Url.port u =? "" then "" else ":" ++ Url.port u)
        /\ (extractBaseUrl URL swaggerUrl =? "") = false
        /\ forall doc,
             resolveBaseUrl (extractBaseUrl URL swaggerUrl) doc
             = JStr (extractBaseUrl URL swaggerUrl)).
Proof.
  unfold extractBaseUrl. split; [now intros -> |].
  intros u ->.
  assert (Hne : (Url.protocol u ++ "//" ++ Url.hostname u
                 ++ (if negb (Url.port u =? "") then ":" ++ Url.port u else "") =? "")
                = false)
    by (destruct (Url.protocol u); reflexivity).
  split; [destruct (Url.port u =? ""); reflexivity |].
  split; [exact Hne |].
  intros doc. unfold resolveBaseUrl, js_or. cbn [truthy]. rewrite Hne. cbn [negb].
  cbn [truthy]. now rewrite Hne.
Qed.

Lemma automatic_base_url_witness :
  URL_sample "https://api.x.com:8443/v1"
  = Some {| Url.protocol := "https:"; Url.hostname := "api.x.com";
            Url.port := "8443"; Url.pathname := "/v1" |}
  /\ extractBaseUrl URL_sample "https://api.x.com:8443/v1" = "https://api.x.com:8443"
  /\ resolveBaseUrl (extractBaseUrl URL_sample "https://api.x.com:8443/v1") v2_host_doc
     = JStr "https://api.x.com:8443"
  /\ extractBaseUrl URL_sample "swagger.json" = "".
Proof.
  destruct (automatic_base_url URL_sample "https://api.x.com:8443/v1") as [_ H].
  destruct (H _ eq_refl) as [He [_ Hr]].
  split; [reflexivity |]. split; [exact He |]. split; [exact (Hr v2_host_doc) |].
  exact (proj1 (automatic_base_url URL_sample "swagger.json") eq_refl).
Defined.

(** ** Selection *)

Lemma Set_has_app (s t : list nat) (j : nat) :
  Set_has (s ++ t) j = Set_has s j || Set_has t j.
Proof. unfold Set_has. apply existsb_app. Qed.

Lemma Set_has_add (s : list nat) (i j : nat) :
  Set_has (Set_add s i) j = (j =? i)%nat || Set_has s j.
Proof.
  unfold Set_add. destruct (Set_has s i) eqn:E.
  - destruct (Nat.eqb_spec j i) as [-> | _]; [now rewrite E | reflexivity].
  - rewrite Set_has_app. cbn. rewrite orb_false_r. apply orb_comm.
Qed.

Lemma Set_has_delete (s : list nat) (i j : nat) :
  Set_has (Set_delete s i) j = negb (j =? i)%nat && Set_has s j.
Proof.
  unfold Set_delete, Set_has. induction s as [| a s IH]; cbn [filter existsb].
  - now rewrite andb_false_r.
  - destruct (Nat.eqb_spec a i) as [Hai | Hai]; cbn [negb existsb]; rewrite IH;
      destruct (Nat.eqb_spec j i) as [Hji | Hji];
      destruct (Nat.eqb_spec j a) as [Hja | Hja];
      cbn [negb andb orb]; try reflexivity; exfalso; congruence.
Qed.

Lemma Set_has_fold (l acc : list nat) (j : nat) :
  Set_has (fold_left Set_add l acc) j = Set_has acc j || Set_has l j.
Proof.
  revert acc. induction l as [| a l IH]; intros acc; cbn [fold_left].
  - unfold Set_has at 3. cbn. now rewrite orb_false_r.
  - rewrite IH, Set_has_add. unfold Set_has at 4. cbn [existsb].
    fold (Set_has l j). destruct (j =? a)%nat, (Set_has acc j), (Set_has l j); reflexivity.
Qed.

Lemma Set_has_from (l : list nat) (j : nat) : Set_has (Set_from l) j = Set_has l j.
Proof. unfold Set_from. now rewrite Set_has_fold. Qed.

Lemma Set_has_In (s : list nat) (j : nat) : Set_has s j = true <-> In j s.
Proof.
  unfold Set_has. rewrite existsb_exists. split.
  - intros [x [Hx E]]. apply Nat.eqb_eq in E. now subst.
  - intros H. exists j. split; [exact H | apply Nat.eqb_refl].
Qed.

Lemma NoDup_add (s : list nat) (i : nat) : NoDup s -> NoDup (Set_add s i).
Proof.
  intros H. unfold Set_add. destruct (Set_has s i) eqn:E; [exact H |].
  apply NoDup_app; [exact H | repeat constructor; intros [] |].
  intros x Hx [<- | []]. apply Set_has_In in Hx. congruence.
Qed.

Lemma NoDup_from (l : list nat) : NoDup (Set_from l).
Proof.
  unfold Set_from.
  assert (H : forall acc, NoDup acc -> NoDup (fold_left Set_add l acc)).
  { induction l as [| a l IH]; intros acc Hacc; [exact Hacc |].
    cbn [fold_left]. apply IH. now apply NoDup_add. }
  apply H. constructor.
Qed.

(** X12.  [toggleSelect(i)] flips the membership of [i] and of nothing
    else, keeps the set free of repetitions and touches no other part of
    the state; toggling the same index twice gives back a set with the
    members it had. *)
Theorem toggle_flips_one (st : App.t) (i : nat) :
  (forall j, Set_has (App.selected (toggleSelect st i)) j
             = if (j =? i)%nat then negb (Set_has (App.selected st) j)
               else Set_has (App.selected st) j)
  /\ NoDup (App.selected (toggleSelect st i))
  /\ (forall j, Set_has (App.selected (toggleSelect (toggleSelect st i) i)) j
                = Set_has (App.selected st) j)
  /\ App.endpoints (toggleSelect st i) = App.endpoints st
  /\ App.swagger (toggleSelect st i) = App.swagger st
  /\ App.error (toggleSelect st i) = App.error st.
Proof.
  assert (Hflip : forall st' j,
    Set_has (App.selected (toggleSelect st' i)) j
    = if (j =? i)%nat then negb (Set_has (App.selected st') j)
      else Set_has (App.selected st') j).
  { intros st' j. unfold toggleSelect. cbn [App.setSelected App.selected].
    rewrite Set_has_from.
    destruct (Set_has (App.selected st') i) eqn:E.
    - rewrite Set_has_delete, Set_has_from.
      destruct (Nat.eqb_spec j i) as [-> | _]; cbn [negb andb]; [now rewrite E | reflexivity].
    - rewrite Set_has_add, Set_has_from.
      destruct (Nat.eqb_spec j i) as [-> | _]; cbn [orb]; [now rewrite E | reflexivity]. }
  split; [apply Hflip |]. split; [| split; [| repeat split]].
  - unfold toggleSelect. cbn [App.setSelected App.selected].
    destruct (Set_has (Set_from (App.selected st)) i).
    + unfold Set_delete. apply NoDup_filter, NoDup_from.
    + apply NoDup_add, NoDup_from.
  - intros j. rewrite !Hflip. destruct (j =? i)%nat; [apply negb_involutive | reflexivity].
Qed.

(** ** The chosen endpoints and the download *)

Lemma filter_index_indexed {A : Type} (f : nat -> bool) (l : list A) :
  forall i,
    filter_index f i l
    = map snd (filter (fun p => f (fst p)) (combine (seq i (List.length l)) l)).
Proof.
  induction l as [| x l IH]; intros i; [reflexivity |].
  cbn [filter_index List.length seq combine filter fst].
  destruct (f i); cbn [map snd]; now rewrite IH.
Qed.

Lemma filter_index_ext {A : Type} (f g : nat -> bool) (l : list A) :
  forall i, (forall j, f j = g j) -> filter_index f i l = filter_index g i l.
Proof.
  induction l as [| x l IH]; intros i H; [reflexivity |].
  cbn [filter_index]. now rewrite (H i), (IH (S i) H).
Qed.

Lemma filter_index_In {A : Type} (f : nat -> bool) (l : list A) (e : A) :
  forall i,
    In e (filter_index f i l)
    <-> exists j, f (i + j)%nat = true /\ nth_error l j = Some e.
Proof.
  induction l as [| x l IH]; intros i; cbn [filter_index].
  - split; [intros [] | intros [[| j] [_ H]]; discriminate].
  - split.
    + intros H. destruct (f i) eqn:E.
      * destruct H as [<- | H].
        -- exists 0%nat. now rewrite Nat.add_0_r.
        -- apply IH in H. destruct H as [j [Hf Hn]]. exists (S j).
           now rewrite Nat.add_succ_r.
      * apply IH in H. destruct H as [j [Hf Hn]]. exists (S j).
        now rewrite Nat.add_succ_r.
    + intros [[| j] [Hf Hn]].
      * rewrite Nat.add_0_r in Hf. rewrite Hf. left. now injection Hn.
      * assert (H : In e (filter_index f (S i) l)).
        { apply IH. exists j. now rewrite Nat.add_succ_r in Hf. }
        destruct (f i); [now right | exact H].
Qed.

Lemma filter_index_length {A : Type} (f : nat -> bool) (l : list A) :
  forall i, (List.length (filter_index f i l) <= List.length l)%nat.
Proof.
  induction l as [| x l IH]; intros i; [apply le_n |].
  cbn [filter_index]. specialize (IH (S i)).
  destruct (f i); cbn [List.length]; lia.
Qed.

Lemma filter_index_all {A : Type} (f : nat -> bool) (l : list A) :
  forall i, (forall j, (j < List.length l)%nat -> f (i + j)%nat = true) ->
            filter_index f i l = l.
Proof.
  induction l as [| x l IH]; intros i H; [reflexivity |].
  cbn [filter_index]. rewrite <- (Nat.add_0_r i) at 1.
  rewrite (H 0%nat) by (cbn; lia). f_equal. apply IH.
  intros j Hj. rewrite Nat.add_succ_comm. apply H. cbn. lia.
Qed.

(** X13.  The endpoints handed to the serializer are those whose index is
    selected, in the order of the endpoint list, whatever the order of the
    clicks: selections with the same members choose the same endpoints,
    and a selected index past the end of the list chooses nothing. *)
Theorem chosen_endpoints (sel : list nat) (eps : list Endpoint) :
  filter_index (Set_has sel) 0 eps
  = map snd (filter (fun p => Set_has sel (fst p)) (indexed eps))
  /\ (forall e, In e (filter_index (Set_has sel) 0 eps)
                <-> exists i, In i sel /\ nth_error eps i = Some e)
  /\ (forall sel', (forall i, In i sel <-> In i sel') ->
                   filter_index (Set_has sel) 0 eps = filter_index (Set_has sel') 0 eps)
  /\ (List.length (filter_index (Set_has sel) 0 eps) <= List.length eps)%nat.
Proof.
  split; [apply filter_index_indexed |]. split; [| split].
  - intros e. rewrite filter_index_In. cbn [Nat.add].
    split; intros [i [Hi Hn]]; exists i; (split; [now apply Set_has_In | exact Hn]).
  - intros sel' H. apply filter_index_ext. intros j.
    destruct (Set_has sel j) eqn:E1, (Set_has sel' j) eqn:E2; try reflexivity.
    + apply Set_has_In, H, Set_has_In in E1. congruence.
    + apply Set_has_In, H, Set_has_In in E2. congruence.
  - apply filter_index_length.
Qed.

Lemma chosen_endpoints_witness :
  filter_index (Set_has [2; 0]%nat) 0
    [endpoint_of "GET" "/a"; endpoint_of "GET" "/b"; endpoint_of "GET" "/c"]
  = filter_index (Set_has [0; 2; 7]%nat) 0
      [endpoint_of "GET" "/a"; endpoint_of "GET" "/b"; endpoint_of "GET" "/c"]
  /\ In (endpoint_of "GET" "/c")
        (filter_index (Set_has [2; 0]%nat) 0
           [endpoint_of "GET" "/a"; endpoint_of "GET" "/b"; endpoint_of "GET" "/c"]).
Proof.
  pose proof (chosen_endpoints [2; 0]%nat
                [endpoint_of "GET" "/a"; endpoint_of "GET" "/b"; endpoint_of "GET" "/c"])
    as [_ [Hin _]].
  split; [reflexivity |].
  apply Hin. exists 2%nat. split; [left; reflexivity | reflexivity].
Defined.

Lemma Set_has_seq (n j : nat) : Set_has (seq 0 n) j = (j <? n)%nat.
Proof.
  destruct (Nat.ltb_spec j n) as [H | H].
  - apply Set_has_In, in_seq. lia.
  - destruct (Set_has (seq 0 n) j) eqn:E; [| reflexivity].
    apply Set_has_In, in_seq in E. lia.
Qed.

Lemma filter_index_none {A : Type} (l : list A) :
  forall i, filter_index (Set_has []) i l = [].
Proof. induction l as [| x l IH]; intros i; [reflexivity | apply IH]. Qed.

(** X14.  After [selectAll] every endpoint is chosen, each once and in
    order; after [deselectAll] none is. *)
Theorem select_all_and_none (st : App.t) :
  filter_index (Set_has (App.selected (selectAll st))) 0 (App.endpoints (selectAll st))
  = App.endpoints st
  /\ (forall i, Set_has (App.selected (selectAll st)) i
                = (i <? List.length (App.endpoints st))%nat)
  /\ filter_index (Set_has (App.selected (deselectAll st))) 0
       (App.endpoints (deselectAll st)) = []
  /\ App.selected (deselectAll st) = [].
Proof.
  assert (Hall : forall i, Set_has (App.selected (selectAll st)) i
                           = (i <? List.length (App.endpoints st))%nat).
  { intros i. unfold selectAll. cbn [App.setSelected App.selected].
    now rewrite Set_has_from, Set_has_seq. }
  split; [| split; [exact Hall | split; [| reflexivity]]].
  - replace (App.endpoints (selectAll st)) with (App.endpoints st) by reflexivity.
    apply filter_index_all. intros j Hj. rewrite Hall. cbn [Nat.add].
    now apply Nat.ltb_lt.
  - cbn [deselectAll App.setSelected App.selected App.endpoints Set_from fold_left].
    apply filter_index_none.
Qed.

Lemma collapse_no_space (s : string) :
  forall b, forallb (fun c => negb (is_space c))
              (list_ascii_of_string (collapse_spaces b s)) = true.
Proof.
  induction s as [| c s IH]; intros b; [reflexivity |].
  cbn [collapse_spaces]. destruct (is_space c) eqn:E.
  - destruct b; [apply IH |].
    cbn [list_ascii_of_string forallb]. rewrite IH. reflexivity.
  - cbn [list_ascii_of_string forallb]. now rewrite E, IH.
Qed.

Lemma collapse_identity (s : string) :
  forallb (fun c => negb (is_space c)) (list_ascii_of_string s) = true ->
  forall b, collapse_spaces b s = s.
Proof.
  induction s as [| c s IH]; intros H b; [reflexivity |].
  cbn [list_ascii_of_string forallb] in H. apply andb_true_iff in H.
  destruct H as [Hc Hs]. apply negb_true_iff in Hc.
  cbn [collapse_spaces]. rewrite Hc. now rewrite (IH Hs).
Qed.

Lemma collapse_length (s : string) :
  forall b, (String.length (collapse_spaces b s) <= String.length s)%nat.
Proof.
  induction s as [| c s IH]; intros b; [apply le_n |].
  cbn [collapse_spaces]. pose proof (IH true). pose proof (IH false).
  destruct (is_space c); [destruct b |]; cbn [String.length]; lia.
Qed.

Lemma collapse_word (w rest : string) :
  forallb (fun c => negb (is_space c)) (list_ascii_of_string w) = true ->
  forall b, collapse_spaces b (w ++ rest)
            = w ++ collapse_spaces (match w with EmptyString => b | _ => false end) rest.
Proof.
  induction w as [| c w IH]; intros H b; [reflexivity |].
  cbn [list_ascii_of_string forallb] in H. apply andb_true_iff in H.
  destruct H as [Hc Hw]. apply negb_true_iff in Hc.
  cbn [append collapse_spaces]. rewrite Hc, (IH Hw). destruct w; reflexivity.
Qed.

Lemma collapse_run (ws rest : string) :
  forallb is_space (list_ascii_of_string ws) = true ->
  collapse_spaces true (ws ++ rest) = collapse_spaces true rest.
Proof.
  induction ws as [| c ws IH]; intros H; [reflexivity |].
  cbn [list_ascii_of_string forallb] in H. apply andb_true_iff in H.
  destruct H as [Hc Hw]. cbn [append collapse_spaces]. rewrite Hc. exact (IH Hw).
Qed.

Lemma collapse_after_run (rest : string) :
  match rest with
  | EmptyString => True
  | String c _ => is_space c = false
  end ->
  collapse_spaces true rest = collapse_spaces false rest.
Proof.
  destruct rest as [| c rest]; [reflexivity |]. intros Hc.
  cbn [collapse_spaces]. now rewrite Hc.
Qed.

(** X15.  The name of the download is the title with every run of white
    space replaced by one underscore, followed by [.jmx]: the part before
    the suffix holds no white space, is no longer than the title, and is
    the title itself when the title holds no white space; when the title
    is a word, a run of white space (of any length, the no-break space
    included) and a rest that does not start with white space, the name
    is the word, one underscore and the name of the rest. *)
Theorem download_name_of_title (st : App.t) (d : Download) :
  snd (buildJmxAndDownload st) = Some d ->
  download_name d = collapse_spaces false (App.title st) ++ ".jmx"
  /\ forallb (fun c => negb (is_space c))
       (list_ascii_of_string (collapse_spaces false (App.title st))) = true
  /\ (String.length (collapse_spaces false (App.title st))
      <= String.length (App.title st))%nat
  /\ (forallb (fun c => negb (is_space c)) (list_ascii_of_string (App.title st)) = true ->
      download_name d = App.title st ++ ".jmx")
  /\ (forall w c ws rest,
        App.title st = w ++ String c ws ++ rest ->
        forallb (fun c => negb (is_space c)) (list_ascii_of_string w) = true ->
        forallb is_space (list_ascii_of_string (String c ws)) = true ->
        match rest with
        | EmptyString => True
        | String c' _ => is_space c' = false
        end ->
        download_name d = w ++ "_" ++ collapse_spaces false rest ++ ".jmx").
Proof.
  intros H.
  assert (Hd : download_name d = collapse_spaces false (App.title st) ++ ".jmx").
  { unfold buildJmxAndDownload in H.
    destruct (negb (truthy (App.swagger st))); [discriminate H |].
    destruct (List.length _ =? 0)%nat; [discriminate H |].
    cbn [snd] in H. injection H as <-. reflexivity. }
  split; [exact Hd |]. split; [apply collapse_no_space |].
  split; [apply collapse_length |]. split.
  - intros Hs. now rewrite Hd, (collapse_identity _ Hs).
  - intros w c ws rest Ht Hw Hrun Hrest. rewrite Hd, Ht.
    rewrite (collapse_word _ _ Hw).
    replace (match w with EmptyString => false | String _ _ => false end)
      with false by (destruct w; reflexivity).
    cbn [list_ascii_of_string forallb] in Hrun. apply andb_true_iff in Hrun.
    destruct Hrun as [Hc Hws].
    cbn [append collapse_spaces]. rewrite Hc.
    rewrite (collapse_run _ _ Hws), (collapse_after_run _ Hrest).
    now rewrite string_append_assoc.
Qed.

Lemma download_name_of_title_witness :
  exists d,
    snd (buildJmxAndDownload retitled) = Some d
    /\ download_name d = "Load_test_plan.jmx".
Proof.
  eexists. split; [reflexivity |].
  exact (proj2 (proj2 (proj2 (proj2 (download_name_of_title retitled _ eq_refl))))
           "Load" "160"%char "" "test  plan" eq_refl eq_refl eq_refl eq_refl).
Defined.

Lemma chosen_none (sel : list nat) (eps : list Endpoint) :
  (forall i, In i sel -> (List.length eps <= i)%nat) ->
  filter_index (Set_has sel) 0 eps = [].
Proof.
  intros H. destruct (filter_index (Set_has sel) 0 eps) as [| e l] eqn:E; [reflexivity |].
  assert (Hin : In e (filter_index (Set_has sel) 0 eps)) by (rewrite E; now left).
  apply filter_index_In in Hin. destruct Hin as [j [Hf Hn]]. cbn [Nat.add] in Hf.
  apply Set_has_In, H in Hf.
  assert (nth_error eps j <> None) by congruence.
  apply nth_error_Some in H0. lia.
Qed.

Lemma chosen_some (sel : list nat) (eps : list Endpoint) (i : nat) :
  In i sel -> (i < List.length eps)%nat ->
  (List.length (filter_index (Set_has sel) 0 eps) =? 0)%nat = false.
Proof.
  intros Hi Hlt. destruct (nth_error eps i) as [e |] eqn:E.
  - assert (Hin : In e (filter_index (Set_has sel) 0 eps)).
    { apply filter_index_In. exists i. split; [now apply Set_has_In | exact E]. }
    destruct (filter_index (Set_has sel) 0 eps); [destruct Hin | reflexivity].
  - apply nth_error_None in E. lia.
Qed.

(** X16.  [buildJmxAndDownload] does nothing while no document is loaded;
    with a document loaded and no selected index inside the endpoint
    list, it sets the error ["No endpoints selected"] and generates
    nothing; with a selected index inside the list, it generates: the
    serializer receives the title, the numbers and the headers of the
    state, the chosen endpoints (at least one) and the resolved base URL,
    and the state, its error message included, is left as it was. *)
Theorem build_outcomes (st : App.t) :
  (truthy (App.swagger st) = false -> buildJmxAndDownload st = (st, None))
  /\ (truthy (App.swagger st) = true ->
      (forall i, In i (App.selected st) -> (List.length (App.endpoints st) <= i)%nat) ->
      buildJmxAndDownload st = (App.setError st "No endpoints selected", None))
  /\ (forall i,
        truthy (App.swagger st) = true ->
        In i (App.selected st) -> (i < List.length (App.endpoints st))%nat ->
        exists d,
          buildJmxAndDownload st = (st, Some d)
          /\ Args.endpoints (generate_args d)
             = filter_index (Set_has (App.selected st)) 0 (App.endpoints st)
          /\ Args.endpoints (generate_args d) <> []
          /\ Args.baseUrl (generate_args d)
             = resolveBaseUrl (App.baseUrlOverride st) (App.swagger st)
          /\ Args.title (generate_args d) = App.title st
          /\ Args.threads (generate_args d) = App.threads st
          /\ Args.rampTime (generate_args d) = App.rampTime st
          /\ Args.duration (generate_args d) = App.duration st
          /\ Args.commonHeaders (generate_args d) = App.commonHeaders st).
Proof.
  unfold buildJmxAndDownload. split; [| split].
  - now intros ->.
  - intros -> H. cbn [negb]. now rewrite (chosen_none _ _ H).
  - intros i -> Hi Hlt. cbn [negb]. pose proof (chosen_some _ _ _ Hi Hlt) as Hc.
    rewrite Hc. eexists. split; [reflexivity |].
    cbn [generate_args Args.endpoints Args.baseUrl Args.title Args.threads
         Args.rampTime Args.duration Args.commonHeaders].
    repeat split. intros E. now rewrite E in Hc.
Qed.

Lemma build_outcomes_witness :
  buildJmxAndDownload initial = (initial, None)
  /\ buildJmxAndDownload fetched
     = (App.setError fetched "No endpoints selected", None)
  /\ exists d, buildJmxAndDownload ticked = (ticked, Some d)
               /\ map method (Args.endpoints (generate_args d)) = ["GET"; "DELETE"].
Proof.
  split; [exact (proj1 (build_outcomes initial) eq_refl) |]. split.
  - apply (proj1 (proj2 (build_outcomes fetched)) eq_refl). intros i [].
  - destruct (proj2 (proj2 (build_outcomes ticked)) 0%nat eq_refl) as [d [Hd [He _]]].
    + right. left. reflexivity.
    + cbn. lia.
    + exists d. split; [exact Hd |]. rewrite He. reflexivity.
Defined.

Lemma resolveBaseUrl_carried (override : string) (doc : JsValue) (d : ServerFields) :
  carries doc d ->
  resolveBaseUrl override doc = JStr (resolve_as_coded override d).
Proof.
  intros Hc. unfold resolveBaseUrl, resolve_as_coded, js_or.
  rewrite (detectBaseUrl_carried _ _ Hc). cbn [truthy].
  destruct (override =? "") eqn:E; cbn [negb];
    [| cbn [truthy]; rewrite E; reflexivity].
  destruct (doc_servers d) as [[| u us] |].
  - destruct (doc_host d) as [h |]; [| reflexivity].
    destruct (h =? "") eqn:Eh; cbn [negb truthy]; [reflexivity |].
    now rewrite composed_not_empty.
  - cbn [truthy]. destruct (u =? "") eqn:Eu; cbn [negb truthy];
      rewrite ?Eu; reflexivity.
  - destruct (doc_host d) as [h |]; [| reflexivity].
    destruct (h =? "") eqn:Eh; cbn [negb truthy]; [reflexivity |].
    now rewrite composed_not_empty.
Qed.

(** X17.  When the loaded document carries its server fields typed as the
    interface declares them, the argument of the serializer is a plan as
    [generateJMX] types it: its base URL is the text of the coded
    precedence, so the downloaded text is [generateJMX] of the title, the
    numbers and the headers of the state, that base URL and the chosen
    endpoints. *)
Theorem download_of_typed_document
  (st : App.t) (d : Download) (fields : ServerFields) :
  snd (buildJmxAndDownload st) = Some d ->
  carries (App.swagger st) fields ->
  plan_of_args (generate_args d)
  = Some {| title := App.title st;
            baseUrl := resolve_as_coded (App.baseUrlOverride st) fields;
            threads := App.threads st; rampTime := App.rampTime st;
            duration := App.duration st;
            endpoints := filter_index (Set_has (App.selected st)) 0 (App.endpoints st);
            commonHeaders := App.commonHeaders st |}
  /\ (resolve_as_coded (App.baseUrlOverride st) fields =? "") = false.
Proof.
  intros H Hc. unfold buildJmxAndDownload in H.
  destruct (negb (truthy (App.swagger st))); [discriminate H |].
  destruct (List.length _ =? 0)%nat; [discriminate H |].
  cbn [snd] in H. injection H as <-.
  unfold plan_of_args. cbn [generate_args Args.baseUrl Args.title Args.threads
    Args.rampTime Args.duration Args.endpoints Args.commonHeaders].
  rewrite (resolveBaseUrl_carried _ _ _ Hc). split; [reflexivity |].
  pose proof (resolved_truthy_helper (App.baseUrlOverride st) (App.swagger st)) as Ht.
  rewrite (resolveBaseUrl_carried _ _ _ Hc) in Ht. cbn [truthy] in Ht.
  now apply negb_true_iff in Ht.
Qed.

Lemma download_of_typed_document_witness :
  exists d,
    snd (buildJmxAndDownload ticked) = Some d
    /\ option_map baseUrl (plan_of_args (generate_args d)) = Some "https://api.x.com".
Proof.
  assert (Hc : carries (App.swagger ticked)
                 {| doc_servers := None; doc_host := None;
                    doc_schemes := None; doc_basePath := None |})
    by (repeat split).
  eexists. split; [reflexivity |].
  rewrite (proj1 (download_of_typed_document ticked _ _ eq_refl Hc)). reflexivity.
Defined.

(** ** [groupedByTag] *)

Lemma same_key_eq (a b : JsValue) : same_key a b = true -> a = b.
Proof.
  destruct a, b; cbn; intros H; try discriminate; try reflexivity.
  - apply Bool.eqb_prop in H. now subst.
  - apply Z.eqb_eq in H. now subst.
  - apply String.eqb_eq in H. now subst.
Qed.

Lemma same_key_sym (a b : JsValue) : same_key a b = same_key b a.
Proof.
  destruct a, b; cbn; try reflexivity.
  - now destruct b, b0.
  - apply Z.eqb_sym.
  - apply String.eqb_sym.
Qed.

Lemma members_push (k : JsValue) (x : nat * Endpoint) (m : Groups) :
  Map_has k m = true ->
  Permutation (members (Map_push k x m)) (members m ++ [x]).
Proof.
  unfold members. induction m as [| [k' g] m IH]; [discriminate |].
  cbn [Map_has Map_push]. destruct (same_key k k') eqn:E; cbn [orb].
  - intros _. cbn [map snd concat]. rewrite <- !app_assoc.
    apply Permutation_app_head. apply Permutation_app_comm.
  - intros H. cbn [map snd concat]. rewrite <- app_assoc.
    apply Permutation_app_head. now apply IH.
Qed.

Lemma members_step (m : Groups) (ie : nat * Endpoint) :
  Permutation (members (group_step m ie)) (members m ++ [ie]).
Proof.
  unfold group_step. destruct (Map_has (tag_of (snd ie)) m) eqn:E.
  - now apply members_push.
  - unfold members. rewrite map_app, concat_app. cbn [map snd concat].
    now rewrite app_nil_r.
Qed.

Lemma members_fold (l : list (nat * Endpoint)) :
  forall m, Permutation (members (fold_left group_step l m)) (members m ++ l).
Proof.
  induction l as [| ie l IH]; intros m; cbn [fold_left].
  - now rewrite app_nil_r.
  - rewrite IH, members_step, <- app_assoc. reflexivity.
Qed.

Lemma sorted_snoc (l : list nat) (x : nat) :
  StronglySorted lt l -> Forall (fun y => (y < x)%nat) l ->
  StronglySorted lt (l ++ [x]).
Proof.
  induction 1 as [| a l Hs IH Ha]; intros Hx; cbn [app].
  - repeat constructor.
  - inversion Hx; subst. constructor; [now apply IH |].
    apply Forall_app. split; [exact Ha | now constructor].
Qed.

Lemma group_ok_weaken (n : nat) (kg : JsValue * list (nat * Endpoint)) :
  group_ok n kg -> group_ok (S n) kg.
Proof.
  intros [H1 [H2 [H3 H4]]]. repeat split; try assumption.
  eapply Forall_impl; [| exact H4]. cbn. intros. lia.
Qed.

Lemma groups_ok_push (n : nat) (e : Endpoint) (m : Groups) :
  Forall (group_ok n) m ->
  Forall (group_ok (S n)) (Map_push (tag_of e) (n, e) m).
Proof.
  induction 1 as [| [k g] m Hkg Hm IH]; cbn [Map_push]; [constructor |].
  destruct (same_key (tag_of e) k) eqn:E.
  - constructor.
    + destruct Hkg as [H1 [H2 [H3 H4]]]. cbn [fst snd] in *. repeat split; cbn [fst snd].
      * intros Hn. now destruct g.
      * apply Forall_app. split; [exact H2 |]. constructor; [| constructor].
        now apply same_key_eq.
      * rewrite map_app. apply sorted_snoc; [exact H3 |].
        rewrite Forall_map. exact H4.
      * apply Forall_app. split.
        -- eapply Forall_impl; [| exact H4]. cbn. intros. lia.
        -- constructor; [cbn; lia | constructor].
    + eapply Forall_impl; [| exact Hm]. apply group_ok_weaken.
  - constructor; [now apply group_ok_weaken | exact IH].
Qed.

Lemma groups_ok_step (n : nat) (e : Endpoint) (m : Groups) :
  Forall (group_ok n) m -> Forall (group_ok (S n)) (group_step m (n, e)).
Proof.
  intros H. unfold group_step. cbn [snd].
  destruct (Map_has (tag_of e) m); [now apply groups_ok_push |].
  apply Forall_app. split.
  - eapply Forall_impl; [| exact H]. apply group_ok_weaken.
  - constructor; [| constructor]. repeat split; cbn [fst snd].
    + discriminate.
    + repeat constructor.
    + repeat constructor.
    + repeat constructor.
Qed.

Lemma groups_ok_fold (es : list Endpoint) :
  forall n m,
    Forall (group_ok n) m ->
    Forall (group_ok (n + List.length es))
           (fold_left group_step (combine (seq n (List.length es)) es) m).
Proof.
  induction es as [| e es IH]; intros n m H; cbn [List.length seq combine fold_left].
  - now rewrite Nat.add_0_r.
  - rewrite Nat.add_succ_r. apply (IH (S n)). now apply groups_ok_step.
Qed.

Lemma Map_has_false (k : JsValue) (m : Groups) :
  Map_has k m = false -> Forall (fun kg => same_key k (fst kg) = false) m.
Proof.
  induction m as [| [k' g] m IH]; [constructor |].
  cbn [Map_has]. intros H. apply orb_false_iff in H. destruct H as [H1 H2].
  constructor; [exact H1 | now apply IH].
Qed.

Lemma Map_push_keys (k : JsValue) (x : nat * Endpoint) (m : Groups) :
  map fst (Map_push k x m) = map fst m.
Proof.
  induction m as [| [k' g] m IH]; [reflexivity |].
  cbn [Map_push]. destruct (same_key k k'); cbn [map fst]; [reflexivity | now rewrite IH].
Qed.

Lemma keys_apart_of_keys (m m' : Groups) :
  map fst m = map fst m' -> keys_apart m -> keys_apart m'.
Proof.
  unfold keys_apart. revert m'. induction m as [| a m IH]; intros [| a' m'] H Hk;
    try discriminate; [constructor |].
  cbn [map] in H. injection H as Ha Hm. inversion Hk as [| ? ? Hall Hrest]; subst.
  constructor; [| now apply IH].
  rewrite <- Ha. clear - Hall Hm. revert m' Hm.
  induction Hall as [| b m Hb Hall IH]; intros [| b' m'] Hm; try discriminate;
    [constructor |].
  cbn [map] in Hm. injection Hm as Hb' Hm. constructor; [now rewrite <- Hb' | now apply IH].
Qed.

Lemma keys_apart_snoc (m : Groups) (kg : JsValue * list (nat * Endpoint)) :
  keys_apart m -> Forall (fun a => same_key (fst a) (fst kg) = false) m ->
  keys_apart (m ++ [kg])%list.
Proof.
  unfold keys_apart. induction 1 as [| a m Ha Hm IH]; intros H; cbn [app].
  - repeat constructor.
  - inversion H; subst. constructor; [| now apply IH].
    apply Forall_app. split; [exact Ha | now constructor].
Qed.

Lemma keys_apart_step (m : Groups) (ie : nat * Endpoint) :
  keys_apart m -> keys_apart (group_step m ie).
Proof.
  intros H. unfold group_step. destruct (Map_has (tag_of (snd ie)) m) eqn:E.
  - eapply keys_apart_of_keys; [| exact H]. symmetry. apply Map_push_keys.
  - apply keys_apart_snoc; [exact H |].
    eapply Forall_impl; [| exact (Map_has_false _ _ E)].
    cbn. intros a Ha. now rewrite same_key_sym.
Qed.

Lemma keys_apart_fold (l : list (nat * Endpoint)) :
  forall m, keys_apart m -> keys_apart (fold_left group_step l m).
Proof.
  induction l as [| ie l IH]; intros m H; [exact H |].
  cbn [fold_left]. apply IH. now apply keys_apart_step.
Qed.

Lemma indexed_In (es : list Endpoint) (i : nat) (e : Endpoint) :
  forall n, In (i, e) (combine (seq n (List.length es)) es)
            <-> (n <= i)%nat /\ nth_error es (i - n) = Some e.
Proof.
  induction es as [| x es IH]; intros n; cbn [List.length seq combine In].
  - split; [intros [] | intros [_ H]]. now destruct (i - n)%nat.
  - rewrite IH. split.
    + intros [H | [Hle Hn]].
      * injection H as <- <-. split; [lia |]. now rewrite Nat.sub_diag.
      * split; [lia |]. replace (i - n)%nat with (S (i - S n)) by lia. exact Hn.
    + intros [Hle Hn]. destruct (Nat.eq_dec i n) as [-> | Hne].
      * rewrite Nat.sub_diag in Hn. cbn in Hn. injection Hn as <-. now left.
      * right. split; [lia |].
        replace (i - n)%nat with (S (i - S n)) in Hn by lia. exact Hn.
Qed.

Lemma indexed_indices (es : list Endpoint) :
  forall n, map fst (combine (seq n (List.length es)) es) = seq n (List.length es).
Proof.
  induction es as [| e es IH]; intros n; [reflexivity |].
  cbn [List.length seq combine map fst]. now rewrite IH.
Qed.

Lemma grouped_members (eps : list Endpoint) :
  Permutation (members (groupedByTag eps)) (indexed eps).
Proof. unfold groupedByTag. now rewrite members_fold. Qed.

(** X18.  [groupedByTag] files every endpoint of the list under exactly
    one group, with its own position as [_index]: the entries of all the
    groups are the endpoints with their positions, each once, so the
    [_index] of an entry leads back to that entry's endpoint. *)
Theorem grouping_is_a_partition (eps : list Endpoint) :
  Permutation (members (groupedByTag eps)) (indexed eps)
  /\ (forall i e, In (i, e) (members (groupedByTag eps)) <-> nth_error eps i = Some e)
  /\ NoDup (map fst (members (groupedByTag eps)))
  /\ List.length (members (groupedByTag eps)) = List.length eps.
Proof.
  pose proof (grouped_members eps) as HP.
  split; [exact HP |]. split; [| split].
  - intros i e. split.
    + intros H. apply (Permutation_in _ HP) in H. unfold indexed in H.
      apply indexed_In in H. destruct H as [_ H]. now rewrite Nat.sub_0_r in H.
    + intros H. apply (Permutation_in _ (Permutation_sym HP)). unfold indexed.
      apply indexed_In. split; [lia | now rewrite Nat.sub_0_r].
  - apply (Permutation_NoDup (Permutation_sym (Permutation_map fst HP))).
    unfold indexed. rewrite indexed_indices. apply seq_NoDup.
  - rewrite (Permutation_length HP). unfold indexed.
    rewrite length_combine, length_seq. apply Nat.min_id.
Qed.

Lemma grouping_is_a_partition_witness :
  exists eps,
    parseOpenAPI petstore = Return eps
    /\ In (3%nat, descriptor true ("/pets/{id}", "delete", JObj [("summary", JStr "")]))
          (members (groupedByTag eps)).
Proof.
  exists (map (descriptor true) (retained petstore)).
  split; [reflexivity |].
  apply (proj1 (proj2 (grouping_is_a_partition _))). reflexivity.
Defined.

(** X19.  Every group of [groupedByTag] is non-empty, holds endpoints
    whose first tag is the key of the group (the key ["default"] for an
    endpoint without a first tag), and lists them by increasing position;
    no two groups have the same key. *)
Theorem groups_by_first_tag (eps : list Endpoint) :
  Forall (fun kg =>
            snd kg <> []
            /\ Forall (fun ie => tag_of (snd ie) = fst kg) (snd kg)
            /\ Forall (fun ie => nullish (tags (snd ie)) = true
                                 \/ nullish (prop (tags (snd ie)) "0") = true ->
                                 fst kg = JStr "default") (snd kg)
            /\ StronglySorted lt (map fst (snd kg)))
         (groupedByTag eps)
  /\ ForallOrdPairs (fun a b => same_key (fst a) (fst b) = false) (groupedByTag eps).
Proof.
  split.
  - pose proof (groups_ok_fold eps 0 [] (Forall_nil _)) as H.
    fold (indexed eps) in H. fold (groupedByTag eps) in H.
    eapply Forall_impl; [| exact H].
    intros kg [H1 [H2 [H3 _]]]. repeat split; try assumption.
    eapply Forall_impl; [| exact H2]. cbn beta. intros ie <- Hn.
    unfold tag_of. destruct Hn as [Hn | Hn].
    + now rewrite Hn.
    + destruct (nullish (tags (snd ie))); [reflexivity | now rewrite Hn].
  - apply keys_apart_fold. constructor.
Qed.

Lemma groups_by_first_tag_witness :
  exists eps,
    parseOpenAPI petstore = Return eps
    /\ map fst (groupedByTag eps) = [JStr "pets"; JStr "default"]
    /\ Forall (fun kg => snd kg <> []) (groupedByTag eps).
Proof.
  exists (map (descriptor true) (retained petstore)).
  split; [reflexivity |]. split; [reflexivity |].
  eapply Forall_impl; [| exact (proj1 (groups_by_first_tag _))].
  intros kg [H _]. exact H.
Defined.

(** X20.  Ticking the box of an entry selects that entry's endpoint:
    after [toggleSelect] on the [_index] of an entry that was not
    selected, the endpoint of the entry is among the chosen ones; after
    [toggleSelect] on the [_index] of a selected entry, that position is
    no longer selected. *)
Theorem ticking_an_entry (st : App.t) (i : nat) (e : Endpoint) :
  In (i, e) (members (groupedByTag (App.endpoints st))) ->
  (Set_has (App.selected st) i = false ->
   In e (filter_index (Set_has (App.selected (toggleSelect st i))) 0
           (App.endpoints (toggleSelect st i))))
  /\ (Set_has (App.selected st) i = true ->
      Set_has (App.selected (toggleSelect st i)) i = false).
Proof.
  intros Hin.
  assert (Hn : nth_error (App.endpoints st) i = Some e).
  { apply (Permutation_in _ (grouped_members _)) in Hin. unfold indexed in Hin.
    apply indexed_In in Hin. destruct Hin as [_ H]. now rewrite Nat.sub_0_r in H. }
  assert (Hflip : Set_has (App.selected (toggleSelect st i)) i
                  = negb (Set_has (App.selected st) i)).
  { unfold toggleSelect. cbn [App.setSelected App.selected]. rewrite Set_has_from.
    destruct (Set_has (App.selected st) i) eqn:E.
    - rewrite Set_has_delete, Nat.eqb_refl. reflexivity.
    - rewrite Set_has_add, Nat.eqb_refl. reflexivity. }
  split; intros Hs; rewrite Hs in Hflip.
  - apply filter_index_In. exists i. split; [exact Hflip | exact Hn].
  - exact Hflip.
Qed.

Lemma ticking_an_entry_witness :
  In (descriptor true ("/pets", "get",
        JObj [("summary", JStr "List pets"); ("tags", JArr [JStr "pets"])]))
     (filter_index (Set_has (App.selected (toggleSelect fetched 0))) 0
        (App.endpoints (toggleSelect fetched 0))).
Proof.
  refine (proj1 (ticking_an_entry fetched 0 _ _) eq_refl).
  apply (Permutation_in _ (Permutation_sym (grouped_members (App.endpoints fetched)))).
  unfold indexed. apply indexed_In. split; [apply le_n | reflexivity].
Defined.


(** ** The header handlers *)

Lemma count_headers_lines (URL : string -> option Url.t) (cfg : LoadPlan) :
  count_headers (generateJMX_lines URL cfg)
  = (List.length (endpoints cfg)
     * List.length (filter has_key (commonHeaders cfg)))%nat.
Proof.
  rewrite generateJMX_lines_eq. unfold count_headers.
  replace (documentOpening ++ [hashTree_open] ++ testPlanElement (parts_of URL cfg) cfg
           ++ [hashTree_open] ++ threadGroupElement cfg ++ [hashTree_open]
           ++ flat_map (samplerBlock (commonHeaders cfg)) (endpoints cfg)
           ++ [resultCollector; hashTree_empty; hashTree_close; hashTree_close;
               hashTree_close; documentClosing])%list
    with ((documentOpening ++ [hashTree_open] ++ testPlanElement (parts_of URL cfg) cfg
           ++ [hashTree_open] ++ threadGroupElement cfg ++ [hashTree_open])
          ++ flat_map (samplerBlock (commonHeaders cfg)) (endpoints cfg)
          ++ [resultCollector; hashTree_empty; hashTree_close; hashTree_close;
              hashTree_close; documentClosing])%list
    by (repeat first [rewrite <- app_assoc | rewrite <- app_comm_cons]; reflexivity).
  rewrite (filter_app _ (_ ++ _ ++ _ ++ _ ++ _ ++ _)%list).
  replace (filter is_header_open
             (documentOpening ++ [hashTree_open] ++ testPlanElement (parts_of URL cfg) cfg
              ++ [hashTree_open] ++ threadGroupElement cfg ++ [hashTree_open]))
    with (@nil string) by (rewrite !filter_app; reflexivity).
  rewrite filter_app.
  replace (filter is_header_open [resultCollector; hashTree_empty; hashTree_close;
                                  hashTree_close; hashTree_close; documentClosing])
    with (@nil string) by reflexivity.
  rewrite app_nil_r. cbn [app]. apply headers_of_blocks.
Qed.

Lemma normal_with_headers (cfg : LoadPlan) (hs hs' : list Header) :
  filter has_key hs = filter has_key hs' ->
  normal_plan (with_headers cfg hs) = normal_plan (with_headers cfg hs').
Proof.
  intros H. unfold normal_plan, with_headers.
  cbn [title baseUrl threads rampTime duration endpoints commonHeaders]. now rewrite H.
Qed.

(** X21.  Adding an empty header row leaves the generated document as it
    was, character for character; adding the Authorization row adds one
    header element to every request node. *)
Theorem adding_header_rows (URL : string -> option Url.t) (cfg : LoadPlan) :
  generateJMX URL (with_headers cfg (onAddHeader (commonHeaders cfg)))
  = generateJMX URL cfg
  /\ count_headers (generateJMX_lines URL
                      (with_headers cfg (onAddBearer (commonHeaders cfg))))
     = (count_headers (generateJMX_lines URL cfg) + List.length (endpoints cfg))%nat.
Proof.
  split.
  - apply same_normal_same_document.
    transitivity (normal_plan (with_headers cfg (commonHeaders cfg))).
    + apply normal_with_headers. unfold onAddHeader. rewrite filter_app.
      cbn. now rewrite app_nil_r.
    + reflexivity.
  - rewrite !count_headers_lines.
    cbn [with_headers endpoints commonHeaders]. unfold onAddBearer.
    rewrite filter_app, length_app.
    replace (filter has_key [ {| key := "Authorization"; value := "Bearer ${TOKEN}" |} ])
      with [ {| key := "Authorization"; value := "Bearer ${TOKEN}" |} ] by reflexivity.
    cbn [List.length]. lia.
Qed.

Lemma nth_error_update {A : Type} (l : list A) (i : nat) (x : A) :
  (i < List.length l)%nat ->
  List.length (firstn i l ++ x :: skipn (S i) l) = List.length l
  /\ nth_error (firstn i l ++ x :: skipn (S i) l) i = Some x
  /\ (forall j, j <> i ->
                nth_error (firstn i l ++ x :: skipn (S i) l) j = nth_error l j).
Proof.
  revert i. induction l as [| a l IH]; intros i Hi; [cbn in Hi; lia |].
  destruct i as [| i].
  - cbn. repeat split. intros [| j] Hj; [now elim Hj | reflexivity].
  - cbn [List.length] in Hi. destruct (IH i) as [H1 [H2 H3]]; [lia |].
    cbn [firstn skipn app List.length nth_error]. repeat split.
    + cbn [skipn] in H1. now rewrite H1.
    + exact H2.
    + intros [| j] Hj; [reflexivity |]. cbn [nth_error]. apply H3. lia.
Qed.

(** X22.  Editing the key of row [i] gives a list of the same length that
    differs from the old one in the key of row [i] only; there is no row
    to edit past the end of the list.  When the new key is blank, the
    document generated afterwards is the one generated without that row:
    clearing the name of a header removes the header from the plan. *)
Theorem editing_a_header_key (hs : list Header) (i : nat) (v : string) :
  (forall h, nth_error hs i = Some h ->
     exists hs',
       onHeaderKey hs i v = Return hs'
       /\ List.length hs' = List.length hs
       /\ nth_error hs' i = Some {| key := v; value := value h |}
       /\ (forall j, j <> i -> nth_error hs' j = nth_error hs j)
       /\ (trim v = "" ->
           forall URL cfg,
             generateJMX URL (with_headers cfg hs')
             = generateJMX URL (with_headers cfg (firstn i hs ++ skipn (S i) hs)%list)))
  /\ (nth_error hs i = None -> onHeaderKey hs i v = Throw TypeError).
Proof.
  unfold onHeaderKey. split.
  - intros h Hh. rewrite Hh. eexists. split; [reflexivity |].
    assert (Hi : (i < List.length hs)%nat)
      by (apply nth_error_Some; congruence).
    destruct (nth_error_update hs i {| key := v; value := value h |} Hi)
      as [H1 [H2 H3]].
    split; [exact H1 |]. split; [exact H2 |]. split; [exact H3 |].
    intros Hv URL cfg. apply same_normal_same_document, normal_with_headers.
    rewrite !filter_app. cbn [filter]. unfold has_key at 2. cbn [key].
    rewrite Hv. reflexivity.
  - now intros ->.
Qed.

Lemma editing_a_header_key_witness :
  exists hs',
    onHeaderKey (App.commonHeaders initial) 0 " " = Return hs'
    /\ generateJMX URL_sample (with_headers sample_plan hs')
       = generateJMX URL_sample
           (with_headers sample_plan
              [ {| key := "Content-Type"; value := "application/json" |} ]).
Proof.
  destruct (proj1 (editing_a_header_key (App.commonHeaders initial) 0 " ")
              _ eq_refl) as [hs' [H1 [_ [_ [_ H5]]]]].
  exists hs'. split; [exact H1 |]. exact (H5 eq_refl URL_sample sample_plan).
Defined.

(** ** [fetchSwagger] *)

Lemma fetch_frame (URL : string -> option Url.t) (thrown : JsError -> string)
  (st : App.t) (result : FetchResult) :
  let st' := fetchSwagger URL thrown st result in
  App.loading st' = false
  /\ App.url st' = App.url st
  /\ App.selected st' = App.selected st
  /\ App.title st' = App.title st
  /\ App.threads st' = App.threads st
  /\ App.rampTime st' = App.rampTime st
  /\ App.duration st' = App.duration st
  /\ App.commonHeaders st' = App.commonHeaders st.
Proof.
  unfold fetchSwagger.
  destruct result as [text | [|] status statusText [text | data]]; cbn [negb];
    try (repeat split; reflexivity).
  destruct (parseOpenAPI data); repeat split; reflexivity.
Qed.

Lemma fetch_in_step (URL : string -> option Url.t) (thrown : JsError -> string)
  (st : App.t) (result : FetchResult) :
  App.endpoints (fetchSwagger URL thrown st result)
  = match parseOpenAPI (App.swagger (fetchSwagger URL thrown st result)) with
    | Return eps => eps
    | Throw _ => []
    end.
Proof.
  unfold fetchSwagger.
  destruct result as [text | [|] status statusText [text | data]]; cbn [negb];
    try reflexivity.
  destruct (parseOpenAPI data) eqn:E; cbn; now rewrite E.
Qed.

Lemma fetch_error_or_list (URL : string -> option Url.t) (thrown : JsError -> string)
  (st : App.t) (result : FetchResult) :
  App.endpoints (fetchSwagger URL thrown st result) <> [] ->
  App.error (fetchSwagger URL thrown st result) = ""
  /\ exists status statusText data,
       result = Response true status statusText (Json data)
       /\ App.swagger (fetchSwagger URL thrown st result) = data
       /\ App.baseUrlOverride (fetchSwagger URL thrown st result)
          = extractBaseUrl URL (App.url st).
Proof.
  unfold fetchSwagger.
  destruct result as [text | [|] status statusText [text | data]]; cbn [negb];
    try (cbn; intros H; now elim H).
  destruct (parseOpenAPI data) eqn:E;
    [| cbn; intros H; now elim H].
  intros _. split; [reflexivity |]. exists status, statusText, data.
  repeat split.
Qed.

(** X23.  Whatever the request gave, when [fetchSwagger] is over the
    loading flag is down, and the endpoint list is in step with the stored
    document: it is what the extractor returns on that document, and empty
    when the extractor throws on it or no document is stored.  A list that
    is not empty means that the request succeeded with a JSON body, that
    the body is the stored document, that no error is shown and that the
    base URL field holds the automatic base URL of the address.  The
    address, the selection, the title, the numbers and the headers are
    never touched. *)
Theorem fetch_keeps_list_in_step (URL : string -> option Url.t)
  (thrown : JsError -> string) (st : App.t) (result : FetchResult) :
  let st' := fetchSwagger URL thrown st result in
  App.loading st' = false
  /\ App.endpoints st'
     = match parseOpenAPI (App.swagger st') with
       | Return eps => eps
       | Throw _ => []
       end
  /\ (App.endpoints st' <> [] ->
      App.error st' = ""
      /\ truthy (App.swagger st') = true
      /\ App.baseUrlOverride st' = extractBaseUrl URL (App.url st)
      /\ exists status statusText,
           result = Response true status statusText (Json (App.swagger st')))
  /\ App.url st' = App.url st
  /\ App.selected st' = App.selected st
  /\ App.title st' = App.title st
  /\ App.threads st' = App.threads st
  /\ App.rampTime st' = App.rampTime st
  /\ App.duration st' = App.duration st
  /\ App.commonHeaders st' = App.commonHeaders st.
Proof.
  intros st'. subst st'.
  destruct (fetch_frame URL thrown st result) as [Hl Hrest].
  split; [exact Hl |]. split; [apply fetch_in_step |]. split; [| exact Hrest].
  intros Hne. destruct (fetch_error_or_list URL thrown st result Hne)
    as [He [status [statusText [data [Hr [Hs Hb]]]]]].
  split; [exact He |]. split.
  - rewrite fetch_in_step in Hne. unfold parseOpenAPI in Hne.
    destruct (truthy (App.swagger (fetchSwagger URL thrown st result)));
      [reflexivity | now elim Hne].
  - split; [exact Hb |]. exists status, statusText. now rewrite Hs.
Qed.


Lemma build_without_choice (st : App.t) :
  (forall i, In i (App.selected st) -> (List.length (App.endpoints st) <= i)%nat) ->
  buildJmxAndDownload st
  = (if truthy (App.swagger st) then App.setError st "No endpoints selected" else st,
     None).
Proof.
  intros H. unfold buildJmxAndDownload.
  destruct (truthy (App.swagger st)); cbn [negb]; [| reflexivity].
  now rewrite (chosen_none _ _ H).
Qed.

(** X24.  Right after a request, with the selection reset by the effect
    on the endpoint list, Generate downloads nothing: without a stored
    document it changes nothing, with one it shows
    ["No endpoints selected"].  When the request left no endpoint, as every
    failure does, this holds whatever is ticked afterwards; so a document
    on which the extractor threw is never serialized, and the text of the
    exception gives way to ["No endpoints selected"]. *)
Theorem nothing_to_generate_after_fetch (URL : string -> option Url.t)
  (thrown : JsError -> string) (st : App.t) (result : FetchResult) :
  let st' := fetchSwagger URL thrown st result in
  buildJmxAndDownload (endpoints_effect st')
  = (if truthy (App.swagger st')
     then App.setError (endpoints_effect st') "No endpoints selected"
     else endpoints_effect st',
     None)
  /\ (App.endpoints st' = [] ->
      forall sel,
        buildJmxAndDownload (App.setSelected st' sel)
        = (if truthy (App.swagger st')
           then App.setError (App.setSelected st' sel) "No endpoints selected"
           else App.setSelected st' sel,
           None))
  /\ (forall status statusText data e,
        result = Response true status statusText (Json data) ->
        parseOpenAPI data = Throw e ->
        App.error st' = thrown e
        /\ forall sel,
             App.error (fst (buildJmxAndDownload (App.setSelected st' sel)))
             = "No endpoints selected").
Proof.
  intros st'. split; [| split].
  - apply (build_without_choice (endpoints_effect st')). intros i [].
  - intros He sel. apply (build_without_choice (App.setSelected st' sel)).
    intros i _. cbn [App.setSelected App.endpoints]. rewrite He. cbn. lia.
  - intros status statusText data e -> Hp. subst st'. unfold fetchSwagger.
    cbn [negb]. rewrite Hp. split; [reflexivity |].
    intros sel. unfold buildJmxAndDownload.
    cbn [App.setSelected App.setError App.setLoading App.setBaseUrlOverride
         App.setSwagger App.setEndpoints App.swagger App.endpoints App.selected].
    assert (Ht : truthy data = true).
    { unfold parseOpenAPI in Hp. destruct (truthy data); [reflexivity | discriminate]. }
    rewrite Ht. cbn [negb].
    replace (filter_index (Set_has sel) 0 []) with (@nil Endpoint) by reflexivity.
    reflexivity.
Qed.

Lemma nothing_to_generate_after_fetch_witness :
  parseOpenAPI null_entry_doc = Throw TypeError
  /\ App.error (fetchSwagger URL_sample (fun _ => "Cannot read properties of null")
                  typed_in (Response true 200%Z "OK" (Json null_entry_doc)))
     = "Cannot read properties of null"
  /\ App.error
       (fst (buildJmxAndDownload
               (App.setSelected
                  (fetchSwagger URL_sample (fun _ => "Cannot read properties of null")
                     typed_in (Response true 200%Z "OK" (Json null_entry_doc)))
                  [0%nat])))
     = "No endpoints selected".
Proof.
  split; [reflexivity |].
  destruct (proj2 (proj2 (nothing_to_generate_after_fetch URL_sample
                            (fun _ => "Cannot read properties of null") typed_in
                            (Response true 200%Z "OK" (Json null_entry_doc))))
              200%Z "OK" null_entry_doc TypeError eq_refl eq_refl) as [H1 H2].
  split; [exact H1 | exact (H2 [0%nat])].
Defined.

(** X25.  After a request that succeeded with a JSON body, and as long as
    the base URL field is not edited and no other document is fetched, a
    generation passes the serializer the automatic base URL of the address
    the document came from, when that address parses, whatever the
    document lists under [servers] or [host]; when the address does not
    parse, it passes what the document gives. *)
Theorem fetched_base_url (URL : string -> option Url.t) (thrown : JsError -> string)
  (st : App.t) (status : Z) (statusText : string) (data : JsValue)
  (st2 st3 : App.t) (d : Download) :
  let st1 := fetchSwagger URL thrown st (Response true status statusText (Json data)) in
  App.swagger st2 = App.swagger st1 ->
  App.baseUrlOverride st2 = App.baseUrlOverride st1 ->
  buildJmxAndDownload st2 = (st3, Some d) ->
  (forall u, URL (App.url st) = Some u ->
     Args.baseUrl (generate_args d)
     = JStr (Url.protocol u ++ "//" ++ Url.hostname u
             ++ (if Url.port u =? "" then "" else ":" ++ Url.port u)))
  /\ (URL (App.url st) = None ->
      Args.baseUrl (generate_args d)
      = js_or (detectBaseUrl data) (JStr "${BASE_URL}")).
Proof.
  intros st1 Hs Hb Hbuild.
  assert (H1 : App.swagger st1 = data /\
               App.baseUrlOverride st1 = extractBaseUrl URL (App.url st)).
  { subst st1. unfold fetchSwagger. cbn [negb].
    destruct (parseOpenAPI data); split; reflexivity. }
  destruct H1 as [Hd Ho]. rewrite Hd in Hs. rewrite Ho in Hb.
  unfold buildJmxAndDownload in Hbuild. rewrite Hs, Hb in Hbuild.
  destruct (negb (truthy data)); [discriminate |].
  destruct (List.length _ =? 0)%nat; [discriminate |].
  injection Hbuild as _ <-. cbn [generate_args Args.baseUrl].
  split.
  - intros u Hu. unfold extractBaseUrl. rewrite Hu.
    unfold resolveBaseUrl, js_or. cbn [truthy].
    assert (Hne : (Url.protocol u ++ "//" ++ Url.hostname u
                   ++ (if negb (Url.port u =? "") then ":" ++ Url.port u else "") =? "")
                  = false)
      by (destruct (Url.protocol u); reflexivity).
    rewrite Hne. cbn [negb truthy]. rewrite Hne. cbn [negb].
    destruct (Url.port u =? ""); reflexivity.
  - intros Hu. unfold extractBaseUrl. rewrite Hu. reflexivity.
Qed.

Lemma fetched_base_url_witness :
  exists d,
    buildJmxAndDownload ticked = (ticked, Some d)
    /\ Args.baseUrl (generate_args d) = JStr "https://api.x.com".
Proof.
  exists {| generate_args :=
              {| Args.title := App.title ticked;
                 Args.baseUrl := resolveBaseUrl (App.baseUrlOverride ticked)
                                   (App.swagger ticked);
                 Args.threads := App.threads ticked;
                 Args.rampTime := App.rampTime ticked;
                 Args.duration := App.duration ticked;
                 Args.endpoints := filter_index (Set_has (App.selected ticked)) 0
                                     (App.endpoints ticked);
                 Args.commonHeaders := App.commonHeaders ticked |};
            download_name := collapse_spaces false (App.title ticked) ++ ".jmx" |}.
  split; [reflexivity |].
  exact (proj1 (fetched_base_url URL_sample (fun _ => "TypeError") typed_in 200%Z "OK"
                  petstore ticked ticked _ eq_refl eq_refl eq_refl) _ eq_refl).
Defined.
